(** * Speech timing and render orchestration of the daily content pipeline

    A shallow embedding of the timing core of [main.py]: the rate
    controller ([_calculate_dynamic_rate]), the duration estimator
    ([should_compress_audio]), the synthesis adapter
    ([generate_azure_tts] and its edge-tts fallback), the audio builders
    of the five video variants and the render loop
    ([render_all_videos]).

    Conventions of the embedding.
    - A Python [str] is the list of its Unicode code points.
    - A Python [float] holding a duration is an exact rational; the
      rounding of floating-point additions is not modelled, [round] is
      modelled on the exact value.
    - External services (the two speech engines, the MP3 metadata reader,
      the regular-expression engine, the render engine) are fields of a
      class of externals; the file system and the list of engine
      invocations are threaded through the code as explicit state.
    - The synchronous adapter takes the thread it is called on: the
      coroutines of the builders call it on the thread of the event
      loop, [run_in_executor] calls it on a worker thread, and
      [asyncio.run] raises on the former. *)

From Stdlib Require Import ZArith QArith Qround Lqa Lia List String Ascii Bool.
From Stdlib Require Import Decimal DecimalPos Sorted.
From stdpp Require Import base option list gmap.

Local Open Scope Z_scope.

(* ===================================================================== *)
(** * Part I: definitions                                                 *)
(* ===================================================================== *)

(** ** Python strings *)

Abbreviation str := (list N).

(** An ASCII literal of the source, as code points. *)
Definition lit (s : string) : str :=
  N_of_ascii <$> list_ascii_of_string s.

(** [str.isspace] on one code point: the code points that [str.strip()]
    removes. *)
Definition isspace (c : N) : bool :=
  ((9 <=? c) && (c <=? 13) || (28 <=? c) && (c <=? 32) || (c =? 133)
   || (c =? 160) || (c =? 5760) || (8192 <=? c) && (c <=? 8202)
   || (c =? 8232) || (c =? 8233) || (c =? 8239) || (c =? 8287)
   || (c =? 12288))%N.

Fixpoint lstrip (s : str) : str :=
  match s with
  | c :: s' => if isspace c then lstrip s' else s
  | [] => []
  end.

Definition rstrip (s : str) : str := rev (lstrip (rev s)).

(** [s.strip()] *)
Definition strip (s : str) : str := rstrip (lstrip s).

(** [len(s)] *)
Definition len (s : str) : Z := Z.of_nat (length s).

(** [s.startswith(p)] *)
Fixpoint startswith (s p : str) : bool :=
  match p, s with
  | [], _ => true
  | c :: p', d :: s' => (c =? d)%N && startswith s' p'
  | _ :: _, [] => false
  end.

(** [s.replace(old, new)] for a one-character [old]. *)
Definition replace (old : N) (new : str) (s : str) : str :=
  flat_map (fun c => if (c =? old)%N then new else [c]) s.

(** [sep.join(parts)] *)
Fixpoint join (sep : str) (parts : list str) : str :=
  match parts with
  | [] => []
  | [p] => p
  | p :: rest => p ++ sep ++ join sep rest
  end.

(** Truthiness of a string: [if s]. *)
Definition nonempty (s : str) : bool :=
  match s with [] => false | _ => true end.

(** Truthiness of a list: [if l]. *)
Definition truthy {A} (l : list A) : bool :=
  match l with [] => false | _ => true end.

(** ** Exceptions and results *)

Inductive exn := ValueError | EngineError | FileNotFoundError | RuntimeError.

Inductive result (A : Type) :=
| Ok (a : A)
| Raise (e : exn).
Arguments Ok {A} a.
Arguments Raise {A} e.

Definition rbind {A B} (m : result A) (k : A -> result B) : result B :=
  match m with
  | Ok a => k a
  | Raise e => Raise e
  end.

Notation "'try!' x ':=' m 'in' k" := (rbind m (fun x => k))
  (at level 10, x name, m at level 100, k at level 200).

(** ** [int(s)] and [str(n)] *)

(** First code point of every block of ten Unicode decimal digits
    (category Nd); the digit value is the offset in the block. *)
Definition decimal_blocks : list N :=
  [48; 1632; 1776; 1984; 2406; 2534; 2662; 2790; 2918; 3046; 3174; 3302;
   3430; 3558; 3664; 3792; 3872; 4160; 4240; 6112; 6160; 6470; 6608; 6784;
   6800; 6992; 7088; 7232; 7248; 42528; 43216; 43264; 43472; 43504; 43600;
   44016; 65296; 66720; 68912; 69734; 69872; 69942; 70096; 70384; 70736;
   70864; 71248; 71360; 71472; 71904; 72016; 72784; 73040; 73120; 92768;
   92864; 93008; 120782; 120792; 120802; 120812; 120822; 123200; 123632;
   125264; 130032]%N.

Definition to_decimal (c : N) : option N :=
  (fun b => c - b)%N <$>
    List.find (fun b => (b <=? c) && (c <? b + 10))%N decimal_blocks.

(** The first pass of [int(str)]: non-ASCII white space becomes a space,
    a non-ASCII decimal digit becomes its ASCII digit, any other
    non-ASCII code point is an error. *)
Definition to_ascii (c : N) : option N :=
  if (c <? 127)%N then Some c
  else if isspace c then Some 32%N
  else (fun d => 48 + d)%N <$> to_decimal c.

(** White space skipped around the digits by the integer parser. *)
Definition Py_ISSPACE (c : N) : bool :=
  ((9 <=? c) && (c <=? 13) || (c =? 32))%N.

Definition ascii_digit (c : N) : option Z :=
  if ((48 <=? c) && (c <=? 57))%N then Some (Z.of_N (c - 48)) else None.

(** After a first digit: more digits, each optionally preceded by one
    underscore. Returns the value, the number of digits and the rest. *)
Fixpoint scan_digits (acc : Z) (n : nat) (s : str) : Z * nat * str :=
  match s with
  | [] => (acc, n, s)
  | c :: s' =>
      match ascii_digit c with
      | Some d => scan_digits (acc * 10 + d) (S n) s'
      | None =>
          if (c =? 95)%N then
            match s' with
            | c2 :: s'' =>
                match ascii_digit c2 with
                | Some d => scan_digits (acc * 10 + d) (S n) s''
                | None => (acc, n, s)
                end
            | [] => (acc, n, s)
            end
          else (acc, n, s)
      end
  end.

(** Default limit on the number of digits of [int(str)]. *)
Definition int_max_str_digits : nat := 4300.

Fixpoint skip_space (s : str) : str :=
  match s with
  | c :: s' => if Py_ISSPACE c then skip_space s' else s
  | [] => []
  end.

(** [int(s)] for a string [s], base ten. *)
Definition int (s : str) : result Z :=
  match mapM to_ascii s with
  | None => Raise ValueError
  | Some a =>
      let a1 := skip_space a in
      let '(neg, a2) :=
        match a1 with
        | c :: r => if (c =? 45)%N then (true, r)
                    else if (c =? 43)%N then (false, r)
                    else (false, a1)
        | [] => (false, a1)
        end in
      match a2 with
      | c :: r =>
          match ascii_digit c with
          | Some d =>
              let '(v, n, rest) := scan_digits d 1 r in
              if nonempty (skip_space rest) then Raise ValueError
              else if (int_max_str_digits <? n)%nat then Raise ValueError
              else Ok (if neg then - v else v)
          | None => Raise ValueError
          end
      | [] => Raise ValueError
      end
  end.

Fixpoint uint_chars (u : Decimal.uint) : str :=
  match u with
  | Nil => []
  | D0 u => 48%N :: uint_chars u
  | D1 u => 49%N :: uint_chars u
  | D2 u => 50%N :: uint_chars u
  | D3 u => 51%N :: uint_chars u
  | D4 u => 52%N :: uint_chars u
  | D5 u => 53%N :: uint_chars u
  | D6 u => 54%N :: uint_chars u
  | D7 u => 55%N :: uint_chars u
  | D8 u => 56%N :: uint_chars u
  | D9 u => 57%N :: uint_chars u
  end.

(** [str(n)], also the rendering of an integer in an f-string. *)
Definition str_of_int (z : Z) : str :=
  match Z.to_int z with
  | Decimal.Pos u => uint_chars u
  | Decimal.Neg u => 45%N :: uint_chars u
  end.

(** ** Rate controller *)

(** One entry of [SSML_RATE_THRESHOLDS]; [max_chars = None] is
    [float('inf')]. *)
Record tier := {
  tier_name : str;
  max_chars : option Z;
  tier_rate : str
}.

Definition SSML_RATE_THRESHOLDS : list tier :=
  [ {| tier_name := lit "short";      max_chars := Some 50;  tier_rate := lit "+0%" |};
    {| tier_name := lit "medium";     max_chars := Some 150; tier_rate := lit "+10%" |};
    {| tier_name := lit "long";       max_chars := Some 300; tier_rate := lit "+15%" |};
    {| tier_name := lit "very_long";  max_chars := Some 500; tier_rate := lit "+20%" |};
    {| tier_name := lit "extra_long"; max_chars := None;     tier_rate := lit "+25%" |} ].

Definition TIKTOK_MAX_DURATION : Q := 55.
Definition TIKTOK_COMPRESS_RATE : str := lit "+15%".

(** [text_length <= config["max_chars"]] *)
Definition within (text_length : Z) (m : option Z) : bool :=
  match m with
  | Some k => text_length <=? k
  | None => true
  end.

(** The loop over the tiers: the first tier that fits decides, and the
    value stays 0 when no tier fits. *)
Fixpoint dynamic_rate_value (text_length : Z) (tiers : list tier) : result Z :=
  match tiers with
  | [] => Ok 0
  | config :: rest =>
      if within text_length (max_chars config)
      then int (replace 43 [] (replace 37 [] (tier_rate config)))
      else dynamic_rate_value text_length rest
  end.

Definition base_rate_value (base_rate : str) : result Z :=
  let base_rate_clean := replace 37 [] base_rate in
  if startswith base_rate_clean (lit "+") then int (drop 1 base_rate_clean)
  else if startswith base_rate_clean (lit "-") then int base_rate_clean
  else if nonempty base_rate_clean then int base_rate_clean else Ok 0.

(** [f"+{v}%"] for [v >= 0], [f"{v}%"] otherwise. *)
Definition format_rate (v : Z) : str :=
  if 0 <=? v then lit "+" ++ str_of_int v ++ lit "%"
  else str_of_int v ++ lit "%".

Definition _calculate_dynamic_rate (text base_rate : str) : result str :=
  let text_length := len (strip text) in
  try! dynamic := dynamic_rate_value text_length SSML_RATE_THRESHOLDS in
  try! base := base_rate_value base_rate in
  let final_rate_value := base + dynamic in
  let final_rate_value := Z.max (-50) (Z.min 50 final_rate_value) in
  Ok (format_rate final_rate_value).

(** ** Duration estimator *)

Definition estimate_reading_time (text : str) (chars_per_second : Q) : Q :=
  if nonempty text then inject_Z (len (strip text)) / chars_per_second
  else 0.

Definition Qgtb (a b : Q) : bool := negb (Qle_bool a b).

Definition should_compress_audio (total_text : str) (target_max : Q)
  : bool * str :=
  let estimated := estimate_reading_time total_text 5 in
  if Qgtb estimated target_max then (true, TIKTOK_COMPRESS_RATE)
  else (false, lit "+0%").

(** ** Rounding of durations *)

(** Nearest integer, ties to the even one. *)
Definition round_half_even (q : Q) : Z :=
  let f := Qfloor q in
  match (q - inject_Z f ?= (1 # 2))%Q with
  | Lt => f
  | Gt => f + 1
  | Eq => if Z.even f then f else f + 1
  end.

(** [round(x, ndigits)] on the exact value of [x]. *)
Definition round (x : Q) (ndigits : nat) : Q :=
  let scale := inject_Z (10 ^ Z.of_nat ndigits) in
  (inject_Z (round_half_even (x * scale)) / scale)%Q.

(** ** Audio objects, files and engine invocations *)

(** What [_build_ssml] puts into the document: the voice, the value of
    the [rate] attribute of [<prosody>] and the escaped text. *)
Record ssml := {
  ssml_voice : str;
  prosody_rate : str;
  ssml_text : str
}.

(** One invocation of a speech engine: [speak_ssml_async] of the primary
    engine writing to [filename], or [Communicate(...).save] of the
    secondary engine. *)
Inductive request :=
| AzureSpeak (filename : str) (voice_name : str) (doc : ssml)
| EdgeSave (text voice rate : str) (output_path : str).

(** The rate and the output file of an engine invocation. *)
Definition request_rate (r : request) : str :=
  match r with
  | AzureSpeak _ _ doc => prosody_rate doc
  | EdgeSave _ _ rate _ => rate
  end.

Definition request_path (r : request) : str :=
  match r with
  | AzureSpeak filename _ _ => filename
  | EdgeSave _ _ _ output_path => output_path
  end.

(** A pydub [AudioSegment] as the sequence of what was concatenated to
    make it: clips produced by an engine for a request, and silences,
    each with its length in milliseconds. *)
Inductive piece :=
| Speech (r : request) (ms : Z)
| Silent (ms : Z).

Abbreviation AudioSegment := (list piece).

Definition piece_ms (p : piece) : Z :=
  match p with
  | Speech _ ms => ms
  | Silent ms => ms
  end.

(** [len(audio)], in milliseconds. *)
Definition audio_len (a : AudioSegment) : Z :=
  fold_right (fun p n => piece_ms p + n) 0 a.

(** [AudioSegment.silent(duration=ms)] *)
Definition silent (ms : Z) : AudioSegment := [Silent ms].

(** The state threaded through the code: the audio files on disk, by
    path, and the engine invocations attempted so far, oldest first. *)
Record world := {
  files : gmap str AudioSegment;
  calls : list request
}.

Definition write_file (path : str) (a : AudioSegment) (w : world) : world :=
  {| files := <[path := a]> (files w); calls := calls w |}.

Definition remove_file (path : str) (w : world) : world :=
  {| files := delete path (files w); calls := calls w |}.

Definition log_call (r : request) (w : world) : world :=
  {| files := files w; calls := calls w ++ [r] |}.

(** Result of [speak_ssml_async(ssml).get()]. On completion the clip, of
    the given length, has been written to the configured file. *)
Inductive azure_outcome :=
| SynthesizingAudioCompleted (ms : Z)
| Canceled
| OtherReason
| SdkException.

(** The collaborators outside the repository. The engines are indexed by
    the number of invocations attempted before, so two invocations with
    the same request may end differently. *)
Class Externals := {
  AZURE_TTS_AVAILABLE : bool;
  AZURE_SPEECH_KEY : str;
  EDGE_TTS_AVAILABLE : bool;
  MUTAGEN_AVAILABLE : bool;
  (** the primary engine *)
  speak_ssml : nat -> request -> azure_outcome;
  (** the secondary engine: [None] when [save] raises, otherwise the
      length of the clip saved *)
  communicate_save : nat -> request -> option Z;
  (** [MP3(file).info.length]: [None] when reading the metadata raises *)
  mp3_info_length : AudioSegment -> option Q;
  (** [re.search(vietnamese_pattern, text.lower())] *)
  has_vietnamese : str -> bool;
  (** the four [re.sub] that delete the Vietnamese spans, then [strip] *)
  remove_vietnamese : str -> str;
  (** [int(time.time() * 1000)] and [random.randint(1, 99999)] *)
  time_ms : nat -> Z;
  random_randint : nat -> Z
}.

(** ** State and exceptions *)

Definition M (A : Type) : Type := world -> result A * world.

Definition ret {A} (a : A) : M A := fun w => (Ok a, w).

Definition raise {A} (e : exn) : M A := fun w => (Raise e, w).

Definition bind {A B} (m : M A) (k : A -> M B) : M B :=
  fun w =>
    match m w with
    | (Ok a, w1) => k a w1
    | (Raise e, w1) => (Raise e, w1)
    end.

(** [try: m except Exception: h] *)
Definition try_except {A} (m : M A) (h : M A) : M A :=
  fun w =>
    match m w with
    | (Ok a, w1) => (Ok a, w1)
    | (Raise _, w1) => h w1
    end.

Definition lift {A} (r : result A) : M A := fun w => (r, w).

(** The thread a synchronous function is called on. The coroutines of
    the builders run on the thread of the event loop, where a loop is
    running; a function handed to [run_in_executor] runs on a worker
    thread, which has none. *)
Inductive thread := EventLoopThread | WorkerThread.

(** [asyncio.run(coro)]: cannot be called from a running event loop;
    there it raises before the coroutine takes a step. *)
Definition asyncio_run {A} (t : thread) (coro : M A) : M A :=
  match t with
  | EventLoopThread => raise RuntimeError
  | WorkerThread => coro
  end.

Definition get_world : M world := fun w => (Ok w, w).

Definition modify (f : world -> world) : M unit := fun w => (Ok tt, f w).

Notation "'do!' x ':=' m 'in' k" := (bind m (fun x => k))
  (at level 10, x name, m at level 100, k at level 200).
Notation "'do!' ' p ':=' m 'in' k" :=
  (bind m (fun x => match x with p => k end))
  (at level 10, p pattern, m at level 100, k at level 200).
Notation "m ';;;' k" := (bind m (fun _ => k))
  (at level 100, k at level 200, right associativity).

(** ** Paths *)

Fixpoint endswith_char (s : str) (c : N) : bool :=
  match s with
  | [] => false
  | [d] => (d =? c)%N
  | _ :: s' => endswith_char s' c
  end.

(** [os.path.join(a, b)] *)
Definition os_path_join (a b : str) : str :=
  if startswith b (lit "/") then b
  else if negb (nonempty a) || endswith_char a 47 then a ++ b
  else a ++ lit "/" ++ b.

(** [os.path.exists(path)] *)
Definition os_path_exists (path : str) : M bool :=
  fun w => (Ok (bool_decide (is_Some (files w !! path))), w).

(** [AudioSegment.from_file(path, format="mp3")] *)
Definition from_file (path : str) : M AudioSegment :=
  fun w =>
    match files w !! path with
    | Some a => (Ok a, w)
    | None => (Raise FileNotFoundError, w)
    end.

(** [audio.export(path, format="mp3")] *)
Definition export (a : AudioSegment) (path : str) : M unit :=
  modify (write_file path a).

(** ** Synthesis adapter *)

Definition TEMP_DIR : str := lit "temp_processing".

Section Synthesis.
Context `{Externals}.

(** [get_audio_duration]: 0 when the file is missing or cannot be read. *)
Definition get_audio_duration (file_path : str) : M Q :=
  fun w =>
    match files w !! file_path with
    | None => (Ok 0%Q, w)
    | Some audio =>
        if MUTAGEN_AVAILABLE then
          match mp3_info_length audio with
          | Some seconds => (Ok seconds, w)
          | None => (Ok 0%Q, w)
          end
        else (Ok (inject_Z (audio_len audio) / 1000)%Q, w)
    end.

(** [edge_tts.Communicate(text, voice, rate=rate).save(output_path)] *)
Definition save (text voice rate output_path : str) : M unit :=
  fun w =>
    let r := EdgeSave text voice rate output_path in
    let w1 := log_call r w in
    match communicate_save (length (calls w)) r with
    | Some ms => (Ok tt, write_file output_path [Speech r ms] w1)
    | None => (Raise EngineError, w1)
    end.

(** [synthesizer.speak_ssml_async(ssml).get()] with the output file
    [filename]. *)
Definition speak (filename voice_name : str) (doc : ssml) : M azure_outcome :=
  fun w =>
    let r := AzureSpeak filename voice_name doc in
    let w1 := log_call r w in
    match speak_ssml (length (calls w)) r with
    | SynthesizingAudioCompleted ms =>
        (Ok (SynthesizingAudioCompleted ms),
         write_file filename [Speech r ms] w1)
    | SdkException => (Raise EngineError, w1)
    | o => (Ok o, w1)
    end.

Definition _tts_to_file (text voice rate output_path : str) : M Q :=
  if negb (nonempty text) || negb (nonempty (strip text)) then ret 0%Q
  else
    try_except
      (save (strip text) voice rate output_path ;;;
       get_audio_duration output_path)
      (ret 0%Q).

(** [f"_tts_{int(time.time() * 1000)}_{random.randint(1, 99999)}.mp3"] *)
Definition tmp_name (n : nat) : str :=
  lit "_tts_" ++ str_of_int (time_ms n) ++ lit "_"
    ++ str_of_int (random_randint n) ++ lit ".mp3".

Definition _tts_to_segment (text voice rate : str) : M AudioSegment :=
  if negb (nonempty text) || negb (nonempty (strip text)) then ret []
  else
    do! w := get_world in
    let tmp_path := os_path_join TEMP_DIR (tmp_name (length (calls w))) in
    save (strip text) voice rate tmp_path ;;;
    do! segment := from_file tmp_path in
    do! present := os_path_exists tmp_path in
    (if present then modify (remove_file tmp_path) else ret tt) ;;;
    ret segment.

Definition xml_escape (text : str) : str :=
  replace 39 (lit "&apos;")
    (replace 34 (lit "&quot;")
       (replace 62 (lit "&gt;")
          (replace 60 (lit "&lt;")
             (replace 38 (lit "&amp;") text)))).

(** The rate a synthesis call ends up with. *)
Definition final_rate (text rate : str) (use_dynamic_rate : bool) : result str :=
  if use_dynamic_rate then _calculate_dynamic_rate text rate else Ok rate.

(** The value of the [rate] attribute: the rate without its percent
    signs, with a sign in front, and one percent sign. *)
Definition ssml_rate (final : str) : str :=
  let rate_value := replace 37 [] final in
  let rate_value :=
    if negb (startswith rate_value (lit "+"))
       && negb (startswith rate_value (lit "-"))
    then lit "+" ++ rate_value else rate_value in
  rate_value ++ lit "%".

Definition _build_ssml (text voice_name rate : str) (use_dynamic_rate : bool)
  : result ssml :=
  try! final := final_rate text rate use_dynamic_rate in
  Ok {| ssml_voice := voice_name;
        prosody_rate := ssml_rate final;
        ssml_text := xml_escape text |}.

(** The parameter [t] is the thread of the caller; it decides what
    [asyncio.run] does. *)
Definition _fallback_edge_tts_sync (t : thread)
    (text voice_name output_path rate : str) : M Q :=
  if negb EDGE_TTS_AVAILABLE then ret 0%Q
  else
    try_except
      (asyncio_run t (_tts_to_file text voice_name rate output_path) ;;;
       get_audio_duration output_path)
      (ret 0%Q).

(** The guard on Vietnamese text: [Some text'] is the text that goes on
    to synthesis, [None] the early [return 0.0]. *)
Definition vietnamese_guard (text : str) : option str :=
  if has_vietnamese text then
    let cleaned_text := remove_vietnamese text in
    if nonempty cleaned_text && (10 <? len cleaned_text) then Some cleaned_text
    else None
  else Some text.

Definition fallback_with_rate (t : thread)
    (text voice_name output_path rate : str) (use_dynamic_rate : bool) : M Q :=
  do! final := lift (final_rate text rate use_dynamic_rate) in
  _fallback_edge_tts_sync t text voice_name output_path final.

Definition generate_azure_tts (t : thread)
    (text voice_name output_path rate : str) (use_dynamic_rate : bool) : M Q :=
  if negb (nonempty text) || negb (nonempty (strip text)) then ret 0%Q
  else
    match vietnamese_guard text with
    | None => ret 0%Q
    | Some text =>
        if negb AZURE_TTS_AVAILABLE || negb (nonempty AZURE_SPEECH_KEY) then
          fallback_with_rate t text voice_name output_path rate
            use_dynamic_rate
        else
          try_except
            (do! doc := lift (_build_ssml text voice_name rate use_dynamic_rate) in
             do! reason := speak output_path voice_name doc in
             match reason with
             | SynthesizingAudioCompleted _ => get_audio_duration output_path
             | _ =>
                 fallback_with_rate t text voice_name output_path rate
                   use_dynamic_rate
             end)
            (fallback_with_rate t text voice_name output_path rate
               use_dynamic_rate)
    end.

(** [generate_azure_tts_async] runs [generate_azure_tts] in an executor,
    on a worker thread; the default of [use_dynamic_rate] is [True]. *)
Definition generate_azure_tts_async (text voice_name output_path rate : str)
    (use_dynamic_rate : bool) : M Q :=
  generate_azure_tts WorkerThread text voice_name output_path rate
    use_dynamic_rate.

End Synthesis.

(** ** Voice configuration *)

Record voice_cfg := { cfg_voice : str; cfg_rate : str; cfg_role : str }.

Inductive video_key := video_1 | video_2 | video_3 | video_4 | video_5.

Definition _VOICE_CFG (k : video_key) : voice_cfg :=
  match k with
  | video_1 => {| cfg_voice := lit "ko-KR-SunHiNeural"; cfg_rate := lit "-10%";
                  cfg_role := lit "news" |}
  | video_2 => {| cfg_voice := lit "ko-KR-InJoonNeural"; cfg_rate := lit "+0%";
                  cfg_role := lit "teaching" |}
  | video_3 => {| cfg_voice := lit "ko-KR-InJoonNeural"; cfg_rate := lit "+0%";
                  cfg_role := lit "exam" |}
  | video_4 => {| cfg_voice := lit "ko-KR-InJoonNeural"; cfg_rate := lit "+0%";
                  cfg_role := lit "exam" |}
  | video_5 => {| cfg_voice := lit "ko-KR-JiMinNeural"; cfg_rate := lit "+0%";
                  cfg_role := lit "analysis" |}
  end.

Definition QUIZ_SILENCE_MS : Z := 4000.

(** ** Video 1: news *)

(** One entry of [script["segments"]]; an absent key is [None]. *)
Record segment_entry := { ko : option str; vi : option str }.

Record news_script := {
  ns_opening_ment : option str;
  ns_closing_ment : option str;
  ns_segments : option (list segment_entry);
  ns_audio_text : option str
}.

(** The dictionary stored for an opening or closing line. *)
Record ment_info := {
  ment_audio_path : str;
  ment_duration : Q;
  ment_text : str
}.

Record segment_info := {
  seg_ko : str;
  seg_vi : str;
  seg_audio_path : str;
  seg_duration : Q
}.

(** The dictionary returned by [_build_video1_news]; a key that the
    early return leaves out is [None]. The local variables
    [combined_audio] and [total_duration] are carried along while the
    function runs. *)
Record video1 := {
  v1_opening : option ment_info;
  v1_segments : list segment_info;
  v1_closing : option ment_info;
  v1_total_duration : Q;
  v1_combined_audio : option str;
  v1_ssml_compressed : option bool
}.

Record locals1 := {
  l1_result : video1;
  l1_combined_audio : AudioSegment;
  l1_total_duration : Q
}.

(** "다음 영상에서 또 만나요!" *)
Definition default_closing_ment : str :=
  [45796; 51020; 32; 50689; 49345; 50640; 49436; 32; 46608; 32; 47564;
   45208; 50836; 33]%N.

Section Video1.
Context `{Externals}.

(** [_build_video1_news] is a coroutine and calls the adapter as a plain
    function: the call is made on the thread of the event loop. *)

Definition v1_opening_part (opening_ment assets_dir voice base_rate : str)
    (l : locals1) : M locals1 :=
  if nonempty opening_ment then
    let opening_path := os_path_join assets_dir (lit "v1_opening.mp3") in
    do! duration :=
      generate_azure_tts EventLoopThread opening_ment voice opening_path
        base_rate false in
    if Qgtb duration 0 then
      let r := l1_result l in
      let r := {| v1_opening :=
                    Some {| ment_audio_path := lit "/assets/v1_opening.mp3";
                            ment_duration := round duration 3;
                            ment_text := opening_ment |};
                  v1_segments := v1_segments r;
                  v1_closing := v1_closing r;
                  v1_total_duration := v1_total_duration r;
                  v1_combined_audio := v1_combined_audio r;
                  v1_ssml_compressed := v1_ssml_compressed r |} in
      let total_duration := (l1_total_duration l + duration)%Q in
      do! present := os_path_exists opening_path in
      if present then
        do! clip := from_file opening_path in
        ret {| l1_result := r;
               l1_combined_audio := l1_combined_audio l ++ clip ++ silent 300;
               l1_total_duration := (total_duration + (3 # 10))%Q |}
      else
        ret {| l1_result := r;
               l1_combined_audio := l1_combined_audio l;
               l1_total_duration := total_duration |}
    else ret l
  else ret l.

(** The body of the loop over [enumerate(segments)]. *)
Definition v1_segment_step (assets_dir voice base_rate : str) (idx : nat)
    (seg : segment_entry) (l : locals1) : M locals1 :=
  let ko_text := default [] (ko seg) in
  let vi_text := default [] (vi seg) in
  if negb (nonempty ko_text) then ret l
  else
    let seg_filename := lit "v1_seg_" ++ str_of_int (Z.of_nat idx) ++ lit ".mp3" in
    let seg_path := os_path_join assets_dir seg_filename in
    do! duration :=
      generate_azure_tts EventLoopThread ko_text voice seg_path base_rate
        true in
    if Qgtb duration 0 then
      let r := l1_result l in
      let r := {| v1_opening := v1_opening r;
                  v1_segments :=
                    v1_segments r ++
                      [ {| seg_ko := ko_text; seg_vi := vi_text;
                           seg_audio_path := lit "/assets/" ++ seg_filename;
                           seg_duration := round duration 3 |} ];
                  v1_closing := v1_closing r;
                  v1_total_duration := v1_total_duration r;
                  v1_combined_audio := v1_combined_audio r;
                  v1_ssml_compressed := v1_ssml_compressed r |} in
      let total_duration := (l1_total_duration l + duration)%Q in
      do! present := os_path_exists seg_path in
      if present then
        do! clip := from_file seg_path in
        ret {| l1_result := r;
               l1_combined_audio := l1_combined_audio l ++ clip;
               l1_total_duration := total_duration |}
      else
        ret {| l1_result := r;
               l1_combined_audio := l1_combined_audio l;
               l1_total_duration := total_duration |}
    else ret l.

Fixpoint v1_segment_loop (assets_dir voice base_rate : str) (idx : nat)
    (segments : list segment_entry) (l : locals1) : M locals1 :=
  match segments with
  | [] => ret l
  | seg :: rest =>
      do! l1 := v1_segment_step assets_dir voice base_rate idx seg l in
      v1_segment_loop assets_dir voice base_rate (S idx) rest l1
  end.

Definition v1_closing_part (closing_ment assets_dir voice base_rate : str)
    (l : locals1) : M locals1 :=
  if nonempty closing_ment then
    let closing_path := os_path_join assets_dir (lit "v1_closing.mp3") in
    do! duration :=
      generate_azure_tts EventLoopThread closing_ment voice closing_path
        base_rate false in
    if Qgtb duration 0 then
      let r := l1_result l in
      let r := {| v1_opening := v1_opening r;
                  v1_segments := v1_segments r;
                  v1_closing :=
                    Some {| ment_audio_path := lit "/assets/v1_closing.mp3";
                            ment_duration := round duration 3;
                            ment_text := closing_ment |};
                  v1_total_duration := v1_total_duration r;
                  v1_combined_audio := v1_combined_audio r;
                  v1_ssml_compressed := v1_ssml_compressed r |} in
      do! present := os_path_exists closing_path in
      if present then
        do! clip := from_file closing_path in
        ret {| l1_result := r;
               l1_combined_audio := l1_combined_audio l ++ silent 300 ++ clip;
               l1_total_duration :=
                 (l1_total_duration l + (duration + (3 # 10)))%Q |}
      else
        ret {| l1_result := r;
               l1_combined_audio := l1_combined_audio l;
               l1_total_duration := l1_total_duration l |}
    else ret l
  else ret l.

(** The last block: export the concatenation and measure the export. *)
Definition v1_combined_part (assets_dir : str) (l : locals1) : M video1 :=
  let combined_path := os_path_join assets_dir (lit "v1_news.mp3") in
  let r := l1_result l in
  if 0 <? audio_len (l1_combined_audio l) then
    export (l1_combined_audio l) combined_path ;;;
    do! actual_duration := get_audio_duration combined_path in
    ret {| v1_opening := v1_opening r;
           v1_segments := v1_segments r;
           v1_closing := v1_closing r;
           v1_total_duration := round actual_duration 3;
           v1_combined_audio := Some (lit "/assets/v1_news.mp3");
           v1_ssml_compressed := v1_ssml_compressed r |}
  else
    ret {| v1_opening := v1_opening r;
           v1_segments := v1_segments r;
           v1_closing := v1_closing r;
           v1_total_duration := round (l1_total_duration l) 3;
           v1_combined_audio := v1_combined_audio r;
           v1_ssml_compressed := v1_ssml_compressed r |}.

(** The segments the function works on: [script["segments"]], or the
    whole [audio_text] as one segment when there are none. *)
Definition v1_segments_of (script : news_script) : list segment_entry :=
  let segments := default [] (ns_segments script) in
  let audio_text := default [] (ns_audio_text script) in
  match segments with
  | [] => if nonempty audio_text
          then [ {| ko := Some audio_text; vi := Some [] |} ]
          else segments
  | _ => segments
  end.

Definition v1_total_text (script : news_script) : str :=
  let opening_ment := default [] (ns_opening_ment script) in
  let closing_ment := default default_closing_ment (ns_closing_ment script) in
  opening_ment ++ lit " "
    ++ join (lit " ") (map (fun s => default [] (ko s)) (v1_segments_of script))
    ++ lit " " ++ closing_ment.

(** [base_rate = compress_rate if should_compress else cfg["rate"]] *)
Definition v1_base_rate (script : news_script) : str :=
  let '(should_compress, compress_rate) :=
    should_compress_audio (v1_total_text script) TIKTOK_MAX_DURATION in
  if should_compress then compress_rate else cfg_rate (_VOICE_CFG video_1).

Definition _build_video1_news (script : news_script) (assets_dir : str)
  : M video1 :=
  let cfg := _VOICE_CFG video_1 in
  let opening_ment := default [] (ns_opening_ment script) in
  let closing_ment := default default_closing_ment (ns_closing_ment script) in
  let segments := v1_segments_of script in
  if negb (truthy segments) && negb (nonempty opening_ment) then
    ret {| v1_opening := None; v1_segments := []; v1_closing := None;
           v1_total_duration := 0; v1_combined_audio := None;
           v1_ssml_compressed := None |}
  else
    let should_compress :=
      fst (should_compress_audio (v1_total_text script) TIKTOK_MAX_DURATION) in
    let base_rate := v1_base_rate script in
    let l := {| l1_result :=
                  {| v1_opening := None; v1_segments := []; v1_closing := None;
                     v1_total_duration := 0; v1_combined_audio := None;
                     v1_ssml_compressed := Some should_compress |};
                l1_combined_audio := [];
                l1_total_duration := 0 |} in
    do! l := v1_opening_part opening_ment assets_dir (cfg_voice cfg) base_rate l in
    do! l := v1_segment_loop assets_dir (cfg_voice cfg) base_rate 0 segments l in
    do! l := v1_closing_part closing_ment assets_dir (cfg_voice cfg) base_rate l in
    v1_combined_part assets_dir l.

End Video1.

(** ** Videos 3 and 4: quiz *)

Record quiz_script := {
  qs_opening_ment : option str;
  qs_closing_ment : option str;
  qs_question_ko : option str;
  qs_question : option str;
  qs_options_ko : option (list str);
  qs_options : option (list str);
  qs_correct_answer : option str;
  qs_explanation_ko : option str;
  qs_explanation : option str
}.

(** The dictionary stored for the question block and the answer block. *)
Record block_info := { block_path : str; block_duration : Q }.

Record quiz_audio := {
  opening_audio : option ment_info;
  question_audio : option block_info;
  answer_audio : option block_info;
  closing_audio : option ment_info;
  silence_duration : Q;
  quiz_total_duration : Q;
  quiz_combined_audio : option str;
  quiz_ssml_compressed : option bool
}.

Record locals_quiz := {
  lq_result : quiz_audio;
  lq_combined_audio : AudioSegment;
  lq_total_duration : Q
}.

(** "다음 퀴즈에서 또 만나요!" *)
Definition default_quiz_closing_ment : str :=
  [45796; 51020; 32; 53300; 51592; 50640; 49436; 32; 46608; 32; 47564;
   45208; 50836; 33]%N.

(** [f"정답은 {correct}입니다."] *)
Definition answer_announcement (correct : str) : str :=
  [51221; 45813; 51008; 32]%N ++ correct ++ [51077; 45768; 45796; 46]%N.

(** [video_key.split("_")[1]] *)
Definition video_num (k : video_key) : str :=
  match k with
  | video_1 => lit "1"
  | video_2 => lit "2"
  | video_3 => lit "3"
  | video_4 => lit "4"
  | video_5 => lit "5"
  end.

(** [script.get(a) or script.get(b, default)] *)
Definition get_or {A} (a b : option (list A)) : list A :=
  match a with
  | Some x => if truthy x then x else default [] b
  | None => default [] b
  end.

Definition quiz_total_text (script : quiz_script) : str :=
  let opening_ment := default [] (qs_opening_ment script) in
  let closing_ment :=
    default default_quiz_closing_ment (qs_closing_ment script) in
  let question_ko := get_or (qs_question_ko script) (qs_question script) in
  let options_ko := get_or (qs_options_ko script) (qs_options script) in
  let correct := default [] (qs_correct_answer script) in
  let explanation_ko :=
    get_or (qs_explanation_ko script) (qs_explanation script) in
  opening_ment ++ lit " " ++ question_ko ++ lit " "
    ++ join (lit " ") options_ko ++ lit " "
    ++ (answer_announcement correct ++ lit " ") ++ explanation_ko
    ++ lit " " ++ closing_ment.

Definition quiz_base_rate (script : quiz_script) (k : video_key) : str :=
  let '(should_compress, compress_rate) :=
    should_compress_audio (quiz_total_text script) TIKTOK_MAX_DURATION in
  if should_compress then compress_rate else cfg_rate (_VOICE_CFG k).

Definition quiz_opening_filename (k : video_key) : str :=
  lit "v" ++ video_num k ++ lit "_opening.mp3".
Definition quiz_question_filename (k : video_key) : str :=
  lit "v" ++ video_num k ++ lit "_question.mp3".
Definition quiz_answer_filename (k : video_key) : str :=
  lit "v" ++ video_num k ++ lit "_answer.mp3".
Definition quiz_closing_filename (k : video_key) : str :=
  lit "v" ++ video_num k ++ lit "_closing.mp3".
Definition quiz_combined_filename (k : video_key) : str :=
  lit "v" ++ video_num k ++ lit "_"
    ++ (match k with video_3 => lit "vocab" | _ => lit "grammar" end)
    ++ lit "_quiz.mp3".

Section Quiz.
Context `{Externals}.

(** [_build_quiz_audio] is a coroutine: it calls the adapter on the
    thread of the event loop and awaits [_tts_to_segment]. *)

Definition short_pause : AudioSegment := silent 300.

Definition quiz_opening_part (opening_ment assets_dir voice base_rate : str)
    (k : video_key) (l : locals_quiz) : M locals_quiz :=
  if nonempty opening_ment then
    let opening_filename := quiz_opening_filename k in
    let opening_path := os_path_join assets_dir opening_filename in
    do! duration :=
      generate_azure_tts EventLoopThread opening_ment voice opening_path
        base_rate false in
    if Qgtb duration 0 then
      let r := lq_result l in
      let r := {| opening_audio :=
                    Some {| ment_audio_path := lit "/assets/" ++ opening_filename;
                            ment_duration := round duration 3;
                            ment_text := opening_ment |};
                  question_audio := question_audio r;
                  answer_audio := answer_audio r;
                  closing_audio := closing_audio r;
                  silence_duration := silence_duration r;
                  quiz_total_duration := quiz_total_duration r;
                  quiz_combined_audio := quiz_combined_audio r;
                  quiz_ssml_compressed := quiz_ssml_compressed r |} in
      let total_duration := (lq_total_duration l + duration)%Q in
      do! present := os_path_exists opening_path in
      if present then
        do! clip := from_file opening_path in
        ret {| lq_result := r;
               lq_combined_audio := lq_combined_audio l ++ clip ++ short_pause;
               lq_total_duration := (total_duration + (3 # 10))%Q |}
      else
        ret {| lq_result := r;
               lq_combined_audio := lq_combined_audio l;
               lq_total_duration := total_duration |}
    else ret l
  else ret l.

(** Part 1: the question and the options, synthesized apart and
    exported as one block. *)
Definition quiz_question_part (question_ko : str) (options_ko : list str)
    (assets_dir voice base_rate : str) (k : video_key) (l : locals_quiz)
  : M locals_quiz :=
  let q_filename := quiz_question_filename k in
  let q_path := os_path_join assets_dir q_filename in
  do! q_audio := _tts_to_segment question_ko voice base_rate in
  let options_text := join (lit "  ") options_ko in
  do! opt_audio := _tts_to_segment options_text voice base_rate in
  let question_combined := q_audio ++ short_pause ++ opt_audio in
  export question_combined q_path ;;;
  do! q_duration := get_audio_duration q_path in
  let r := lq_result l in
  let r := {| opening_audio := opening_audio r;
              question_audio :=
                Some {| block_path := lit "/assets/" ++ q_filename;
                        block_duration := round q_duration 3 |};
              answer_audio := answer_audio r;
              closing_audio := closing_audio r;
              silence_duration := silence_duration r;
              quiz_total_duration := quiz_total_duration r;
              quiz_combined_audio := quiz_combined_audio r;
              quiz_ssml_compressed := quiz_ssml_compressed r |} in
  ret {| lq_result := r;
         lq_combined_audio := lq_combined_audio l ++ question_combined;
         lq_total_duration := (lq_total_duration l + q_duration)%Q |}.

(** The thinking silence, appended to the combined audio. *)
Definition quiz_silence_part (l : locals_quiz) : locals_quiz :=
  let silence := silent QUIZ_SILENCE_MS in
  {| lq_result := lq_result l;
     lq_combined_audio := lq_combined_audio l ++ silence;
     lq_total_duration :=
       (lq_total_duration l + inject_Z QUIZ_SILENCE_MS / 1000)%Q |}.

(** Part 2: the announcement of the answer and the explanation. *)
Definition quiz_answer_part (correct explanation_ko : str)
    (assets_dir voice base_rate : str) (k : video_key) (l : locals_quiz)
  : M locals_quiz :=
  let a_filename := quiz_answer_filename k in
  let a_path := os_path_join assets_dir a_filename in
  let answer_announce := answer_announcement correct in
  do! ans_audio := _tts_to_segment answer_announce voice base_rate in
  do! expl_audio := _tts_to_segment explanation_ko voice base_rate in
  let answer_combined := ans_audio ++ short_pause ++ expl_audio in
  export answer_combined a_path ;;;
  do! a_duration := get_audio_duration a_path in
  let r := lq_result l in
  let r := {| opening_audio := opening_audio r;
              question_audio := question_audio r;
              answer_audio :=
                Some {| block_path := lit "/assets/" ++ a_filename;
                        block_duration := round a_duration 3 |};
              closing_audio := closing_audio r;
              silence_duration := silence_duration r;
              quiz_total_duration := quiz_total_duration r;
              quiz_combined_audio := quiz_combined_audio r;
              quiz_ssml_compressed := quiz_ssml_compressed r |} in
  ret {| lq_result := r;
         lq_combined_audio := lq_combined_audio l ++ answer_combined;
         lq_total_duration := (lq_total_duration l + a_duration)%Q |}.

Definition quiz_closing_part (closing_ment assets_dir voice base_rate : str)
    (k : video_key) (l : locals_quiz) : M locals_quiz :=
  if nonempty closing_ment then
    let closing_filename := quiz_closing_filename k in
    let closing_path := os_path_join assets_dir closing_filename in
    do! duration :=
      generate_azure_tts EventLoopThread closing_ment voice closing_path
        base_rate false in
    if Qgtb duration 0 then
      let r := lq_result l in
      let r := {| opening_audio := opening_audio r;
                  question_audio := question_audio r;
                  answer_audio := answer_audio r;
                  closing_audio :=
                    Some {| ment_audio_path := lit "/assets/" ++ closing_filename;
                            ment_duration := round duration 3;
                            ment_text := closing_ment |};
                  silence_duration := silence_duration r;
                  quiz_total_duration := quiz_total_duration r;
                  quiz_combined_audio := quiz_combined_audio r;
                  quiz_ssml_compressed := quiz_ssml_compressed r |} in
      do! present := os_path_exists closing_path in
      if present then
        do! clip := from_file closing_path in
        ret {| lq_result := r;
               lq_combined_audio := lq_combined_audio l ++ short_pause ++ clip;
               lq_total_duration :=
                 (lq_total_duration l + (duration + (3 # 10)))%Q |}
      else
        ret {| lq_result := r;
               lq_combined_audio := lq_combined_audio l;
               lq_total_duration := lq_total_duration l |}
    else ret l
  else ret l.

Definition quiz_combined_part (assets_dir : str) (k : video_key)
    (l : locals_quiz) : M quiz_audio :=
  let combined_filename := quiz_combined_filename k in
  let combined_path := os_path_join assets_dir combined_filename in
  export (lq_combined_audio l) combined_path ;;;
  do! actual_duration := get_audio_duration combined_path in
  let r := lq_result l in
  ret {| opening_audio := opening_audio r;
         question_audio := question_audio r;
         answer_audio := answer_audio r;
         closing_audio := closing_audio r;
         silence_duration := silence_duration r;
         quiz_total_duration := round actual_duration 3;
         quiz_combined_audio := Some (lit "/assets/" ++ combined_filename);
         quiz_ssml_compressed := quiz_ssml_compressed r |}.

Definition _build_quiz_audio (script : quiz_script) (assets_dir : str)
    (k : video_key) : M quiz_audio :=
  let cfg := _VOICE_CFG k in
  let opening_ment := default [] (qs_opening_ment script) in
  let closing_ment :=
    default default_quiz_closing_ment (qs_closing_ment script) in
  let question_ko := get_or (qs_question_ko script) (qs_question script) in
  let options_ko := get_or (qs_options_ko script) (qs_options script) in
  let correct := default [] (qs_correct_answer script) in
  let explanation_ko :=
    get_or (qs_explanation_ko script) (qs_explanation script) in
  if negb (nonempty question_ko) then
    ret {| opening_audio := None; question_audio := None;
           answer_audio := None; closing_audio := None;
           silence_duration := (inject_Z QUIZ_SILENCE_MS / 1000)%Q;
           quiz_total_duration := 0; quiz_combined_audio := None;
           quiz_ssml_compressed := None |}
  else
    let should_compress :=
      fst (should_compress_audio (quiz_total_text script) TIKTOK_MAX_DURATION) in
    let base_rate := quiz_base_rate script k in
    let l := {| lq_result :=
                  {| opening_audio := None; question_audio := None;
                     answer_audio := None; closing_audio := None;
                     silence_duration := (inject_Z QUIZ_SILENCE_MS / 1000)%Q;
                     quiz_total_duration := 0; quiz_combined_audio := None;
                     quiz_ssml_compressed := Some should_compress |};
                lq_combined_audio := [];
                lq_total_duration := 0 |} in
    do! l := quiz_opening_part opening_ment assets_dir (cfg_voice cfg)
               base_rate k l in
    do! l := quiz_question_part question_ko options_ko assets_dir
               (cfg_voice cfg) base_rate k l in
    let l := quiz_silence_part l in
    do! l := quiz_answer_part correct explanation_ko assets_dir
               (cfg_voice cfg) base_rate k l in
    do! l := quiz_closing_part closing_ment assets_dir (cfg_voice cfg)
               base_rate k l in
    quiz_combined_part assets_dir k l.

End Quiz.

(** ** Video 5: deep dive *)

(** The sections of the deep-dive script. A section that is absent or an
    empty dictionary is [None]; so is an absent key. *)
Record dd_opening := {
  op_hook_ko : option str; op_intro_ko : option str;
  op_hook_vi : option str; op_intro_vi : option str
}.

Record dd_news := {
  nw_transition_ko : option str; nw_content_ko : option str;
  nw_analysis_ko : option str;
  nw_transition_vi : option str; nw_content_vi : option str;
  nw_analysis_vi : option str
}.

Record dd_transition := { tr_bridge_ko : option str; tr_bridge_vi : option str }.

Record dd_exam := {
  ex_intro_ko : option str; ex_question_ko : option str;
  ex_tips_ko : option str;
  ex_intro_vi : option str; ex_question_vi : option str;
  ex_tips_vi : option str
}.

Record dd_paragraph := {
  pa_label : option str;
  pa_ko : option str; pa_vi : option str;
  pa_analysis_ko : option str; pa_analysis_vi : option str
}.

Record dd_essay := {
  es_intro_ko : option str; es_intro_vi : option str;
  es_paragraphs : option (list dd_paragraph)
}.

(** An entry of [items] (keyed by [word]) or of [grammar_items] (keyed by
    [point]). *)
Record dd_item := {
  it_head : option str;
  it_explanation_ko : option str; it_example_ko : option str;
  it_meaning_vi : option str; it_example_vi : option str
}.

Record dd_vocab := {
  vo_intro_ko : option str; vo_intro_vi : option str;
  vo_items : option (list dd_item);
  vo_grammar_items : option (list dd_item)
}.

Record dd_closing := {
  cl_summary_ko : option str; cl_cta_ko : option str; cl_outro_ko : option str;
  cl_summary_vi : option str; cl_cta_vi : option str; cl_outro_vi : option str
}.

Record deep_dive_script := {
  dd_opening_section : option dd_opening;
  dd_news_section : option dd_news;
  dd_transition_section : option dd_transition;
  dd_exam_section : option dd_exam;
  dd_essay_section : option dd_essay;
  dd_vocab_section : option dd_vocab;
  dd_closing_section : option dd_closing
}.

Record dd_segment := {
  dseg_section : str;
  dseg_ko : str;
  dseg_vi : str;
  dseg_audio_path : str;
  dseg_duration : Q
}.

Record timestamp := {
  ts_section : str;
  start_sec : Q;
  ts_label : str
}.

Record video5 := {
  v5_segments : list dd_segment;
  v5_total_duration : Q;
  v5_combined_audio : option str;
  v5_timestamps : list timestamp
}.

(** The variables that [process_segment] shares with the enclosing
    function. *)
Record locals5 := {
  result_segments : list dd_segment;
  combined_audio : AudioSegment;
  timestamps : list timestamp;
  total_duration : Q;
  segment_idx : nat
}.

Definition AZURE_VOICE_host : str := lit "ko-KR-SunHiNeural".
Definition AZURE_VOICE_news : str := lit "ko-KR-SunHiNeural".
Definition AZURE_VOICE_exam : str := lit "ko-KR-InJoonNeural".
Definition AZURE_VOICE_analysis : str := lit "ko-KR-JiMinNeural".

(** The table of [_get_section_label], in its order. *)
Definition section_labels : list (str * str) :=
  [ (lit "opening",
     [127916; 32; 73; 110; 116; 114; 111]%N);
    (lit "news",
     [128240; 32; 84; 105; 110; 32; 116; 7913; 99]%N);
    (lit "transition",
     [128260; 32; 67; 104; 117; 121; 7875; 110; 32; 116; 105; 7871; 112]%N);
    (lit "exam",
     [128221; 32; 272; 7873; 32; 116; 104; 105; 32; 84; 79; 80; 73; 75; 32;
      53; 52]%N);
    (lit "essay_intro",
     [9997; 65039; 32; 86; 259; 110; 32; 109; 7851; 117]%N);
    (lit "vocab_intro",
     [128218; 32; 84; 7915; 32; 118; 7921; 110; 103; 32; 38; 32; 78; 103;
      7919; 32; 112; 104; 225; 112]%N);
    (lit "closing",
     [128075; 32; 75; 7871; 116; 32; 116; 104; 250; 99]%N) ].

Fixpoint first_label (section : str) (labels : list (str * str)) : str :=
  match labels with
  | [] => section
  | (key, label) :: rest =>
      if startswith section key then label else first_label section rest
  end.

Definition _get_section_label (section : str) : str :=
  first_label section section_labels.

(** [" ".join] of the values that are present and not empty. *)
Definition join_present (values : list (option str)) : str :=
  join (lit " ")
    (omap (fun v => match v with
                    | Some x => if nonempty x then Some x else None
                    | None => None
                    end) values).

Section Video5.
Context `{Externals}.

Definition process_segment (assets_dir : str)
    (section_name ko_text vi_text voice rate : str) (l : locals5) : M locals5 :=
  if negb (nonempty ko_text) || negb (nonempty (strip ko_text)) then ret l
  else
    let seg_filename :=
      lit "deep_" ++ str_of_int (Z.of_nat (segment_idx l)) ++ lit ".mp3" in
    let seg_path := os_path_join assets_dir seg_filename in
    do! duration := generate_azure_tts_async ko_text voice seg_path rate true in
    if Qle_bool duration 0 then ret l
    else
      let relative_path := lit "/assets/" ++ seg_filename in
      let result_segments :=
        result_segments l ++
          [ {| dseg_section := section_name; dseg_ko := ko_text;
               dseg_vi := vi_text; dseg_audio_path := relative_path;
               dseg_duration := round duration 3 |} ] in
      let timestamps :=
        timestamps l ++
          [ {| ts_section := section_name;
               start_sec := round (total_duration l) 0;
               ts_label := _get_section_label section_name |} ] in
      let total_duration := (total_duration l + duration)%Q in
      do! present := os_path_exists seg_path in
      if present then
        do! seg_audio := from_file seg_path in
        let pause := silent 500 in
        ret {| result_segments := result_segments;
               combined_audio := combined_audio l ++ (seg_audio ++ pause);
               timestamps := timestamps;
               total_duration := (total_duration + (1 # 2))%Q;
               segment_idx := S (segment_idx l) |}
      else
        ret {| result_segments := result_segments;
               combined_audio := combined_audio l;
               timestamps := timestamps;
               total_duration := total_duration;
               segment_idx := S (segment_idx l) |}.

(** One call of [process_segment] as the enclosing function makes it. *)
Record segment_call := {
  call_section : str;
  call_ko : str;
  call_vi : str;
  call_voice : str;
  call_rate : str
}.

Definition run_call (assets_dir : str) (c : segment_call) (l : locals5)
  : M locals5 :=
  process_segment assets_dir (call_section c) (call_ko c) (call_vi c)
    (call_voice c) (call_rate c) l.

Fixpoint run_calls (assets_dir : str) (cs : list segment_call) (l : locals5)
  : M locals5 :=
  match cs with
  | [] => ret l
  | c :: rest =>
      do! l1 := run_call assets_dir c l in
      run_calls assets_dir rest l1
  end.

End Video5.

(** The calls of [process_segment] that each section of the script
    leads to, in the order of the source. *)
Definition opening_calls (script : deep_dive_script) : list segment_call :=
  match dd_opening_section script with
  | Some opening =>
      let hook_ko := default [] (op_hook_ko opening) in
      let intro_ko := default [] (op_intro_ko opening) in
      [ {| call_section := lit "opening";
           call_ko := strip (hook_ko ++ lit " " ++ intro_ko);
           call_vi := strip (default [] (op_hook_vi opening) ++ lit " "
                               ++ default [] (op_intro_vi opening));
           call_voice := AZURE_VOICE_host;
           call_rate := lit "-5%" |} ]
  | None => []
  end.

Definition news_calls (script : deep_dive_script) : list segment_call :=
  match dd_news_section script with
  | Some news =>
      [ {| call_section := lit "news";
           call_ko := join_present [nw_transition_ko news; nw_content_ko news;
                                    nw_analysis_ko news];
           call_vi := join_present [nw_transition_vi news; nw_content_vi news;
                                    nw_analysis_vi news];
           call_voice := AZURE_VOICE_news;
           call_rate := lit "+0%" |} ]
  | None => []
  end.

Definition transition_calls (script : deep_dive_script) : list segment_call :=
  match dd_transition_section script with
  | Some transition =>
      [ {| call_section := lit "transition";
           call_ko := default [] (tr_bridge_ko transition);
           call_vi := default [] (tr_bridge_vi transition);
           call_voice := AZURE_VOICE_host;
           call_rate := lit "+0%" |} ]
  | None => []
  end.

Definition exam_calls (script : deep_dive_script) : list segment_call :=
  match dd_exam_section script with
  | Some exam =>
      [ {| call_section := lit "exam";
           call_ko := join_present [ex_intro_ko exam; ex_question_ko exam;
                                    ex_tips_ko exam];
           call_vi := join_present [ex_intro_vi exam; ex_question_vi exam;
                                    ex_tips_vi exam];
           call_voice := AZURE_VOICE_exam;
           call_rate := lit "-5%" |} ]
  | None => []
  end.

(** The loop over [enumerate(paragraphs)]. *)
Fixpoint paragraph_calls (idx : nat) (paragraphs : list dd_paragraph)
  : list segment_call :=
  match paragraphs with
  | [] => []
  | para :: rest =>
      let label :=
        default (lit "Para " ++ str_of_int (Z.of_nat idx + 1)) (pa_label para) in
      let combined_ko :=
        strip (default [] (pa_ko para) ++ lit " "
                 ++ default [] (pa_analysis_ko para)) in
      let combined_vi :=
        strip (default [] (pa_vi para) ++ lit " "
                 ++ default [] (pa_analysis_vi para)) in
      (if nonempty combined_ko then
         [ {| call_section := lit "essay_" ++ label;
              call_ko := combined_ko; call_vi := combined_vi;
              call_voice := AZURE_VOICE_analysis;
              call_rate := lit "+0%" |} ]
       else [])
      ++ paragraph_calls (S idx) rest
  end.

Definition essay_calls (script : deep_dive_script) : list segment_call :=
  match dd_essay_section script with
  | Some essay =>
      let intro_ko := default [] (es_intro_ko essay) in
      (if nonempty intro_ko then
         [ {| call_section := lit "essay_intro";
              call_ko := intro_ko;
              call_vi := default [] (es_intro_vi essay);
              call_voice := AZURE_VOICE_analysis;
              call_rate := lit "+0%" |} ]
       else [])
      ++ paragraph_calls 0 (default [] (es_paragraphs essay))
  | None => []
  end.

(** The loops over [items] (prefix ["vocab_"]) and over [grammar_items]
    (prefix ["grammar_"]). *)
Definition item_call (prefix : str) (item : dd_item) : list segment_call :=
  let head := default [] (it_head item) in
  let combined_ko :=
    strip (head ++ lit ". " ++ default [] (it_explanation_ko item) ++ lit " "
             ++ default [] (it_example_ko item)) in
  let combined_vi :=
    strip (default [] (it_meaning_vi item) ++ lit " "
             ++ default [] (it_example_vi item)) in
  if nonempty combined_ko then
    [ {| call_section := prefix ++ head;
         call_ko := combined_ko; call_vi := combined_vi;
         call_voice := AZURE_VOICE_analysis;
         call_rate := lit "+0%" |} ]
  else [].

Definition vocab_calls (script : deep_dive_script) : list segment_call :=
  match dd_vocab_section script with
  | Some vocab =>
      let vocab_intro := default [] (vo_intro_ko vocab) in
      (if nonempty vocab_intro then
         [ {| call_section := lit "vocab_intro";
              call_ko := vocab_intro;
              call_vi := default [] (vo_intro_vi vocab);
              call_voice := AZURE_VOICE_analysis;
              call_rate := lit "+0%" |} ]
       else [])
      ++ flat_map (item_call (lit "vocab_")) (default [] (vo_items vocab))
      ++ flat_map (item_call (lit "grammar_"))
           (default [] (vo_grammar_items vocab))
  | None => []
  end.

Definition closing_calls (script : deep_dive_script) : list segment_call :=
  match dd_closing_section script with
  | Some closing =>
      [ {| call_section := lit "closing";
           call_ko := join_present [cl_summary_ko closing; cl_cta_ko closing;
                                    cl_outro_ko closing];
           call_vi := join_present [cl_summary_vi closing; cl_cta_vi closing;
                                    cl_outro_vi closing];
           call_voice := AZURE_VOICE_host;
           call_rate := lit "+0%" |} ]
  | None => []
  end.

Definition deep_dive_calls (script : deep_dive_script) : list segment_call :=
  opening_calls script ++ news_calls script ++ transition_calls script
    ++ exam_calls script ++ essay_calls script ++ vocab_calls script
    ++ closing_calls script.

Section Video5Build.
Context `{Externals}.

(** [script = None] is the empty script of the early return. *)
Definition _build_video5_deep_dive (script : option deep_dive_script)
    (assets_dir : str) : M video5 :=
  match script with
  | None =>
      ret {| v5_segments := []; v5_total_duration := 0;
             v5_combined_audio := None; v5_timestamps := [] |}
  | Some script =>
      let l := {| result_segments := []; combined_audio := [];
                  timestamps := []; total_duration := 0;
                  segment_idx := 0 |} in
      do! l := run_calls assets_dir (deep_dive_calls script) l in
      let combined_path := os_path_join assets_dir (lit "v5_deep_dive.mp3") in
      (if 0 <? audio_len (combined_audio l)
       then export (combined_audio l) combined_path
       else ret tt) ;;;
      ret {| v5_segments := result_segments l;
             v5_total_duration := round (total_duration l) 3;
             v5_combined_audio := Some (lit "/assets/v5_deep_dive.mp3");
             v5_timestamps := timestamps l |}
  end.

End Video5Build.

(** ** Render loop *)

Record manifest_entry := {
  key : str;
  composition : str;
  prefix : str;
  audio : str
}.

Definition VIDEO_MANIFEST : list manifest_entry :=
  [ {| key := lit "video_1_news"; composition := lit "TikTok-NewsHealing";
       prefix := lit "V1_News"; audio := lit "v1_news.mp3" |};
    {| key := lit "video_2_outline"; composition := lit "TikTok-WritingCoach";
       prefix := lit "V2_Writing"; audio := lit "v2_outline.mp3" |};
    {| key := lit "video_3_vocab_quiz"; composition := lit "TikTok-VocabQuiz";
       prefix := lit "V3_Vocab"; audio := lit "v3_vocab_quiz.mp3" |};
    {| key := lit "video_4_grammar_quiz"; composition := lit "TikTok-GrammarQuiz";
       prefix := lit "V4_Grammar"; audio := lit "v4_grammar_quiz.mp3" |};
    {| key := lit "video_5_deep_dive"; composition := lit "YouTube-DeepDive";
       prefix := lit "V5_DeepDive"; audio := lit "v5_deep_dive.mp3" |} ].

(** How [subprocess.run(cmd, check=True, ...)] ends. *)
Inductive run_outcome :=
| Exit0
| CalledProcessError (returncode : Z)
| OtherException.

(** The summary logged after the loop. *)
Record summary := {
  sum_total : nat;
  sum_success_count : nat;
  sum_failed : list str
}.

(** The state of the render loop: the paths that exist on disk, the
    commands run so far and the summaries logged. *)
Record rworld := {
  disk : gset str;
  runs : list (list str);
  logged : list summary
}.

(** The collaborators of the render loop. The render engine may change
    the disk in any way; it is indexed by the number of commands run
    before. [os.path.abspath] raises when the working directory is
    gone. *)
Class RenderExternals := {
  os_path_abspath : str -> result str;
  is_windows : bool;
  subprocess_run : nat -> list str -> gset str -> run_outcome * gset str;
  time_time : Z
}.

Section Render.
Context `{RenderExternals}.

Definition render_single_video (composition_id json_path output_path : str)
    (w : rworld) : result bool * rworld :=
  match os_path_abspath json_path with
  | Raise e => (Raise e, w)
  | Ok abs_json =>
      match os_path_abspath output_path with
      | Raise e => (Raise e, w)
      | Ok abs_output =>
          if negb (bool_decide (abs_json ∈ disk w)) then (Ok false, w)
          else
            let cmd :=
              [ lit "npx"; lit "remotion"; lit "render"; composition_id;
                abs_output; lit "--props"; abs_json; lit "--concurrency=1";
                (if is_windows then lit "--gl=angle" else lit "--gl=swangle");
                lit "--log=info" ] in
            let '(outcome, disk1) :=
              subprocess_run (length (runs w)) cmd (disk w) in
            let w1 := {| disk := disk1; runs := runs w ++ [cmd];
                         logged := logged w |} in
            match outcome with
            | Exit0 =>
                if bool_decide (abs_output ∈ disk1) then (Ok true, w1)
                else (Ok false, w1)
            | CalledProcessError _ => (Ok false, w1)
            | OtherException => (Ok false, w1)
            end
      end
  end.

(** The two lists the loop fills. *)
Record render_lists := {
  rendered : list str;
  failed : list str
}.

(** [os.path.join("topik-video", "public", f"{prefix}_{timestamp}.mp4")] *)
Definition video_path_of (timestamp : Z) (entry : manifest_entry) : str :=
  let video_filename :=
    prefix entry ++ lit "_" ++ str_of_int timestamp ++ lit ".mp4" in
  os_path_join (os_path_join (lit "topik-video") (lit "public")) video_filename.

(** The body of the loop, with its [try]/[except]. *)
Definition render_entry (json_path : str) (timestamp : Z)
    (entry : manifest_entry) (l : render_lists) (w : rworld)
  : render_lists * rworld :=
  let composition := composition entry in
  let video_path := video_path_of timestamp entry in
  match render_single_video composition json_path video_path w with
  | (Ok true, w1) =>
      ({| rendered := rendered l ++ [video_path]; failed := failed l |}, w1)
  | (Ok false, w1) =>
      ({| rendered := rendered l; failed := failed l ++ [composition] |}, w1)
  | (Raise _, w1) =>
      ({| rendered := rendered l; failed := failed l ++ [composition] |}, w1)
  end.

Fixpoint render_loop (json_path : str) (timestamp : Z)
    (manifest : list manifest_entry) (l : render_lists) (w : rworld)
  : render_lists * rworld :=
  match manifest with
  | [] => (l, w)
  | entry :: rest =>
      let '(l1, w1) := render_entry json_path timestamp entry l w in
      render_loop json_path timestamp rest l1 w1
  end.

(** The loop and the summary over a manifest; the lists at the end. *)
Definition render_manifest (json_path : str) (manifest : list manifest_entry)
    (w : rworld) : render_lists * rworld :=
  let timestamp := time_time in
  let '(l, w1) :=
    render_loop json_path timestamp manifest
      {| rendered := []; failed := [] |} w in
  (l, {| disk := disk w1; runs := runs w1;
         logged := logged w1 ++
                     [ {| sum_total := length manifest;
                          sum_success_count := length (rendered l);
                          sum_failed := failed l |} ] |}).

(** [render_all_videos] returns [rendered]. *)
Definition render_all_videos (json_path : str) (include_deep_dive : bool)
    (w : rworld) : list str * rworld :=
  let manifest_to_use :=
    if include_deep_dive then VIDEO_MANIFEST else take 4 VIDEO_MANIFEST in
  let '(l, w1) := render_manifest json_path manifest_to_use w in
  (rendered l, w1).

End Render.

(** ** Reference definitions, in the words of the specification *)

(** The five tiers of the rate controller: at most 50, 150, 300 and 500
    characters, and more, with bonus 0, 10, 15, 20 and 25. *)
Definition tier_bonus (n : Z) : Z :=
  if n <=? 50 then 0
  else if n <=? 150 then 10
  else if n <=? 300 then 15
  else if n <=? 500 then 20
  else 25.

(** Clamping to [-50, +50]. *)
Definition clamp (v : Z) : Z := Z.max (-50) (Z.min 50 v).

(** A signed percentage: the integer, with a leading "+" for a value
    that is not negative when [plus] is set, and a trailing "%". *)
Definition signed_percentage (plus : bool) (z : Z) : str :=
  (if (0 <=? z) && plus then lit "+" else []) ++ str_of_int z ++ lit "%".

(** An ASCII decimal digit. *)
Definition is_digit (c : N) : Prop := (48 <= c <= 57)%N.

(** The render loop in the words of the specification: the jobs of the
    manifest produce a stream of outcomes, one per job and in manifest
    order, [true] for a job that succeeded; the two lists are the
    partition of that stream. *)
Section RenderOutcomes.
Context `{RenderExternals}.





End RenderOutcomes.

(** ** A render engine that injects faults

    Of the commands it is given, the second exits with status 1 and the
    fourth exits with status 0 without writing its output file; every
    other command writes its output file (the fifth word of the command)
    and exits with status 0. *)
Definition fault_injecting_engine : RenderExternals :=
  {| os_path_abspath := fun p => Ok (os_path_join (lit "/app") p);
     is_windows := false;
     subprocess_run := fun n cmd d =>
       match n with
       | 1%nat => (CalledProcessError 1, d)
       | 3%nat => (Exit0, d)
       | _ => (Exit0, {[ nth 4 cmd [] ]} ∪ d)
       end;
     time_time := 1700000000 |}.


(** ** Scenarios for the synthesis adapter *)

Definition request_text (r : request) : str :=
  match r with
  | AzureSpeak _ _ doc => ssml_text doc
  | EdgeSave text _ _ _ => text
  end.

(** A studio in which every synthesis succeeds, with a clip of one
    second per character. The metadata reader reports the length of a
    single clip as it is, and 0.05 s more than the sum of the parts for
    a concatenation (the drift of the encoder). *)
Definition studio : Externals :=
  {| AZURE_TTS_AVAILABLE := true;
     AZURE_SPEECH_KEY := lit "key";
     EDGE_TTS_AVAILABLE := true;
     MUTAGEN_AVAILABLE := true;
     speak_ssml := fun _ r =>
       SynthesizingAudioCompleted (1000 * len (request_text r));
     communicate_save := fun _ r => Some (1000 * len (request_text r));
     mp3_info_length := fun a =>
       Some (match a with
             | [_] => inject_Z (audio_len a) / 1000
             | _ => inject_Z (audio_len a) / 1000 + (1 # 20)
             end)%Q;
     has_vietnamese := fun _ => false;
     remove_vietnamese := fun text => text;
     time_ms := fun n => 1700000000000 + Z.of_nat n;
     random_randint := fun n => 1 + Z.of_nat n |}.

(** The same studio with a metadata reader that always raises. *)
Definition studio_unreadable : Externals :=
  {| AZURE_TTS_AVAILABLE := true;
     AZURE_SPEECH_KEY := lit "key";
     EDGE_TTS_AVAILABLE := true;
     MUTAGEN_AVAILABLE := true;
     speak_ssml := fun _ r =>
       SynthesizingAudioCompleted (1000 * len (request_text r));
     communicate_save := fun _ r => Some (1000 * len (request_text r));
     mp3_info_length := fun _ => None;
     has_vietnamese := fun _ => false;
     remove_vietnamese := fun text => text;
     time_ms := fun n => 1700000000000 + Z.of_nat n;
     random_randint := fun n => 1 + Z.of_nat n |}.


Definition empty_world : world := {| files := ∅; calls := [] |}.

(** ** Relations between worlds *)

(** What a synthesis into [path] does to the world: it may log
    invocations, all writing to [path] and all satisfying [P], and it
    may change the file at [path] and no other file. *)
Definition touches_only (path : str) (P : request -> Prop) (w w' : world)
  : Prop :=
  (forall p, p <> path -> files w' !! p = files w !! p)
  /\ exists new, calls w' = calls w ++ new
                 /\ Forall (fun q => request_path q = path /\ P q) new.

(** The rate of an invocation made for [text] with the rate [rate]: the
    final rate of the text that passed the guard, as the engine
    invoked is given it. *)
Definition synthesis_request `{Externals} (text rate : str)
    (use_dynamic_rate : bool) (q : request) : Prop :=
  exists t final,
    vietnamese_guard text = Some t
    /\ final_rate t rate use_dynamic_rate = Ok final
    /\ request_rate q =
         match q with
         | AzureSpeak _ _ _ => ssml_rate final
         | EdgeSave _ _ _ _ => final
         end.

(** A duration that is positive was measured on the file at [path]. *)
Definition measured `{Externals} (path : str) (d : Q) (w : world) : Prop :=
  (0 < d)%Q ->
  is_Some (files w !! path) /\ get_audio_duration path w = (Ok d, w).

(** The invocations logged between two worlds all satisfy [P]. *)
Definition logs (P : request -> Prop) (w w' : world) : Prop :=
  exists new, calls w' = calls w ++ new /\ Forall P new.

(** A command all of whose invocations satisfy [P], from any world. *)
Definition logging {A} (P : request -> Prop) (m : M A) : Prop :=
  forall w, logs P w (snd (m w)).

(** ** What video 1 asks of the engines *)

Definition v1_opening_path (assets_dir : str) : str :=
  os_path_join assets_dir (lit "v1_opening.mp3").

Definition v1_closing_path (assets_dir : str) : str :=
  os_path_join assets_dir (lit "v1_closing.mp3").

Definition v1_segment_path (assets_dir : str) (idx : nat) : str :=
  os_path_join assets_dir
    (lit "v1_seg_" ++ str_of_int (Z.of_nat idx) ++ lit ".mp3").

(** The value of the base rate of video 1: 15 when the variant is
    flagged for compression, -10 (the configured rate) otherwise. *)
Definition v1_base_value (script : news_script) : Z :=
  if fst (should_compress_audio (v1_total_text script) TIKTOK_MAX_DURATION)
  then 15 else -10.

(** An invocation for the opening or the closing line, at the base rate
    as it is. *)
Definition v1_ment_request (script : news_script) (assets_dir : str)
    (q : request) : Prop :=
  (request_path q = v1_opening_path assets_dir
   \/ request_path q = v1_closing_path assets_dir)
  /\ request_rate q = format_rate (v1_base_value script).

(** An invocation for the content segment [idx], at the base rate plus
    the bonus of the length tier of its own text, clamped. *)
Definition v1_segment_request `{Externals} (script : news_script)
    (assets_dir : str) (q : request) : Prop :=
  exists idx seg t,
    v1_segments_of script !! idx = Some seg
    /\ vietnamese_guard (default [] (ko seg)) = Some t
    /\ request_path q = v1_segment_path assets_dir idx
    /\ request_rate q =
         format_rate
           (clamp (v1_base_value script + tier_bonus (len (strip t)))).

(** A news script over budget: an opening line, one content segment of
    300 characters and the default closing line. *)
Definition long_news_script : news_script :=
  {| ns_opening_ment := Some (lit "hello");
     ns_closing_ment := None;
     ns_segments := Some [ {| ko := Some (repeat 97%N 300); vi := Some [] |} ];
     ns_audio_text := None |}.

(** An invocation that video 1 may make. *)
Definition v1_request `{Externals} (script : news_script) (assets_dir : str)
    (q : request) : Prop :=
  v1_ment_request script assets_dir q \/ v1_segment_request script assets_dir q.

(** A deep-dive script with an opening section only, whose text has two
    characters. *)
Definition short_deep_dive_script : deep_dive_script :=
  {| dd_opening_section :=
       Some {| op_hook_ko := Some (lit "ab"); op_intro_ko := None;
               op_hook_vi := None; op_intro_vi := None |};
     dd_news_section := None;
     dd_transition_section := None;
     dd_exam_section := None;
     dd_essay_section := None;
     dd_vocab_section := None;
     dd_closing_section := None |}.

(** A news script with an opening line of two characters, a closing line
    of three and no content. *)
Definition short_news_script : news_script :=
  {| ns_opening_ment := Some (lit "ab");
     ns_closing_ment := Some (lit "abc");
     ns_segments := None;
     ns_audio_text := None |}.

Definition v1_combined_path (assets_dir : str) : str :=
  os_path_join assets_dir (lit "v1_news.mp3").

Definition v5_combined_path (assets_dir : str) : str :=
  os_path_join assets_dir (lit "v5_deep_dive.mp3").

(** ** The timeline of the deep dive, in the words of the specification *)

(** The running offset before each segment, for the measured durations
    of the segments in the order of assembly; every segment is followed
    by a pause of 0.5 s. *)
Fixpoint running_offsets (start : Q) (durations : list Q) : list Q :=
  match durations with
  | [] => []
  | d :: rest => start :: running_offsets (start + d + (1 # 2))%Q rest
  end.

(** The running offset after the last segment. *)
Fixpoint end_offset (start : Q) (durations : list Q) : Q :=
  match durations with
  | [] => start
  | d :: rest => end_offset (start + d + (1 # 2))%Q rest
  end.

(** A rate that the deep dive passes to [process_segment]. *)
Definition deep_dive_rate (rate : str) : Prop :=
  rate = format_rate (-5) \/ rate = format_rate 0.

(** A deep-dive script with an opening of two characters and a news
    section of three. *)
Definition two_segment_deep_dive_script : deep_dive_script :=
  {| dd_opening_section :=
       Some {| op_hook_ko := Some (lit "ab"); op_intro_ko := None;
               op_hook_vi := None; op_intro_vi := None |};
     dd_news_section :=
       Some {| nw_transition_ko := None; nw_content_ko := Some (lit "abc");
               nw_analysis_ko := None; nw_transition_vi := None;
               nw_content_vi := None; nw_analysis_vi := None |};
     dd_transition_section := None;
     dd_exam_section := None;
     dd_essay_section := None;
     dd_vocab_section := None;
     dd_closing_section := None |}.

(** ** The sequence of a quiz *)





(** The path of a temporary clip of [_tts_to_segment]. *)
Definition is_tmp_path `{Externals} (p : str) : Prop :=
  exists n, p = os_path_join TEMP_DIR (tmp_name n).

(** The files of two worlds agree outside [paths] and outside the
    temporary clips. *)
Definition same_files_but `{Externals} (paths : list str) (w w' : world)
  : Prop :=
  forall p, p ∉ paths -> ~ is_tmp_path p -> files w' !! p = files w !! p.

(** A quiz with an opening line, two options and the default closing
    line. *)
Definition vocab_quiz_script : quiz_script :=
  {| qs_opening_ment := Some (lit "ab");
     qs_closing_ment := None;
     qs_question_ko := Some (lit "abc");
     qs_question := None;
     qs_options_ko := Some [lit "a"; lit "b"];
     qs_options := None;
     qs_correct_answer := Some (lit "1");
     qs_explanation_ko := Some (lit "abcd");
     qs_explanation := None |}.


(** ** Escaping, character by character *)

(** The entity of a character that XML reserves, and the character
    itself otherwise. *)
Definition escape_char (c : N) : str :=
  if (c =? 38)%N then lit "&amp;"
  else if (c =? 60)%N then lit "&lt;"
  else if (c =? 62)%N then lit "&gt;"
  else if (c =? 34)%N then lit "&quot;"
  else if (c =? 39)%N then lit "&apos;"
  else [c].

(** A character that may stand in the text of an element or in an
    attribute value as it is. *)
Definition markup_free (c : N) : Prop :=
  c <> 60%N /\ c <> 62%N /\ c <> 34%N /\ c <> 39%N.

(** ** More scenarios for the synthesis adapter *)

(** The studio with a primary engine that cancels every request. *)
Definition studio_azure_canceled : Externals :=
  {| AZURE_TTS_AVAILABLE := true;
     AZURE_SPEECH_KEY := lit "key";
     EDGE_TTS_AVAILABLE := true;
     MUTAGEN_AVAILABLE := true;
     speak_ssml := fun _ _ => Canceled;
     communicate_save := fun _ r => Some (1000 * len (request_text r));
     mp3_info_length := fun a => Some (inject_Z (audio_len a) / 1000)%Q;
     has_vietnamese := fun _ => false;
     remove_vietnamese := fun text => text;
     time_ms := fun n => 1700000000000 + Z.of_nat n;
     random_randint := fun n => 1 + Z.of_nat n |}.

(** The studio with a secondary engine that raises on every request. *)
Definition studio_edge_down : Externals :=
  {| AZURE_TTS_AVAILABLE := true;
     AZURE_SPEECH_KEY := lit "key";
     EDGE_TTS_AVAILABLE := true;
     MUTAGEN_AVAILABLE := true;
     speak_ssml := fun _ r =>
       SynthesizingAudioCompleted (1000 * len (request_text r));
     communicate_save := fun _ _ => None;
     mp3_info_length := fun a => Some (inject_Z (audio_len a) / 1000)%Q;
     has_vietnamese := fun _ => false;
     remove_vietnamese := fun text => text;
     time_ms := fun n => 1700000000000 + Z.of_nat n;
     random_randint := fun n => 1 + Z.of_nat n |}.

(** The studio with a pattern that finds Vietnamese in a text holding
    the letter 7871, and a cleaning that keeps the characters below
    128. *)
Definition studio_vietnamese : Externals :=
  {| AZURE_TTS_AVAILABLE := true;
     AZURE_SPEECH_KEY := lit "key";
     EDGE_TTS_AVAILABLE := true;
     MUTAGEN_AVAILABLE := true;
     speak_ssml := fun _ r =>
       SynthesizingAudioCompleted (1000 * len (request_text r));
     communicate_save := fun _ r => Some (1000 * len (request_text r));
     mp3_info_length := fun a => Some (inject_Z (audio_len a) / 1000)%Q;
     has_vietnamese := fun text => existsb (fun c => (c =? 7871)%N) text;
     remove_vietnamese := fun text => List.filter (fun c => (c <? 128)%N) text;
     time_ms := fun n => 1700000000000 + Z.of_nat n;
     random_randint := fun n => 1 + Z.of_nat n |}.

(** The document that [_build_ssml] makes of a text at a final rate. *)
Definition ssml_of (text voice_name final : str) : ssml :=
  {| ssml_voice := voice_name;
     prosody_rate := ssml_rate final;
     ssml_text := xml_escape text |}.

(** ** Bookkeeping of the deep dive *)

(** The path recorded for the segment with the index [i]. *)
Definition deep_asset (i : nat) : str :=
  lit "/assets/" ++ (lit "deep_" ++ str_of_int (Z.of_nat i) ++ lit ".mp3").

(** The file of the segment with the index [i]. *)
Definition deep_path (assets_dir : str) (i : nat) : str :=
  os_path_join assets_dir
    (lit "deep_" ++ str_of_int (Z.of_nat i) ++ lit ".mp3").

(** What ties the shared variables of [process_segment] together: the
    segments recorded so far are numbered from 0 in the order they were
    recorded, and there is one timestamp for each, with its section and
    the label of its section. *)
Definition numbered_in_order (l : locals5) : Prop :=
  map dseg_audio_path (result_segments l)
  = map deep_asset (seq 0 (segment_idx l))
  /\ map ts_section (timestamps l) = map dseg_section (result_segments l)
  /\ map ts_label (timestamps l)
     = map (fun s => _get_section_label (dseg_section s)) (result_segments l)
  /\ (result_segments l = [] -> combined_audio l = []).

(** A studio without any engine. *)
Definition studio_closed : Externals :=
  {| AZURE_TTS_AVAILABLE := false;
     AZURE_SPEECH_KEY := [];
     EDGE_TTS_AVAILABLE := false;
     MUTAGEN_AVAILABLE := true;
     speak_ssml := fun _ _ => SdkException;
     communicate_save := fun _ _ => None;
     mp3_info_length := fun a => Some (inject_Z (audio_len a) / 1000)%Q;
     has_vietnamese := fun _ => false;
     remove_vietnamese := fun text => text;
     time_ms := fun n => 1700000000000 + Z.of_nat n;
     random_randint := fun n => 1 + Z.of_nat n |}.

(** The entries of a table of labels whose key is a prefix of
    [section]. *)
Definition matching_labels (section : str) (labels : list (str * str))
  : list (str * str) :=
  List.filter (fun entry => startswith section (fst entry)) labels.

(** ** The commands of the render loop *)


(** A disk without the data file. *)
Definition disk_without_data_file : rworld :=
  {| disk := ∅; runs := []; logged := [] |}.

(** ** Timestamps of the description *)

(** [int(x)] of a float: the integer part, toward zero. *)
Definition int_of_float (x : Q) : Z := Z.quot (Qnum x) (Zpos (Qden x)).

(** [f"{n:02d}"] *)
Definition pad2 (n : Z) : str :=
  if (0 <=? n) && (n <? 10) then lit "0" ++ str_of_int n else str_of_int n.

Definition _format_timestamp (seconds : Q) : str :=
  let seconds := int_of_float seconds in
  let hours := seconds / 3600 in
  let minutes := (seconds mod 3600) / 60 in
  let secs := seconds mod 60 in
  if 0 <? hours then
    pad2 hours ++ lit ":" ++ pad2 minutes ++ lit ":" ++ pad2 secs
  else pad2 minutes ++ lit ":" ++ pad2 secs.

(** The block of timestamps of [generate_youtube_description]: one line
    for each timestamp, or the six estimated lines when there is
    none. *)
Definition chapter_lines (timestamps : list timestamp) : list str :=
  if truthy timestamps then
    map (fun ts =>
           _format_timestamp (start_sec ts) ++ lit " - " ++ ts_label ts)
      timestamps
  else
    [ [48; 48; 58; 48; 48; 32; 45; 32; 127916; 32; 73; 110; 116; 114; 111]%N;
      [48; 48; 58; 51; 48; 32; 45; 32; 128240; 32; 84; 105; 110; 32; 116;
       7913; 99; 32; 38; 32; 80; 104; 226; 110; 32; 116; 237; 99; 104]%N;
      [48; 50; 58; 48; 48; 32; 45; 32; 128221; 32; 272; 7873; 32; 116; 104;
       105; 32; 84; 79; 80; 73; 75; 32; 53; 52]%N;
      [48; 51; 58; 51; 48; 32; 45; 32; 9997; 65039; 32; 86; 259; 110; 32;
       109; 7851; 117; 32; 38; 32; 80; 104; 226; 110; 32; 116; 237; 99;
       104]%N;
      [48; 54; 58; 48; 48; 32; 45; 32; 128218; 32; 84; 7915; 32; 118; 7921;
       110; 103; 32; 38; 32; 78; 103; 7919; 32; 112; 104; 225; 112]%N;
      [48; 56; 58; 48; 48; 32; 45; 32; 128075; 32; 75; 7871; 116; 32; 116;
       104; 250; 99]%N ].

(** Reading a timestamp back: the fields between the colons, read as
    integers, count hours, minutes and seconds. *)
Fixpoint split_on (c : N) (s : str) : list str :=
  match s with
  | [] => [[]]
  | d :: s' =>
      if (d =? c)%N then [] :: split_on c s'
      else match split_on c s' with
           | field :: fields => (d :: field) :: fields
           | [] => [[d]]
           end
  end.

Definition timestamp_seconds (stamp : str) : result Z :=
  fold_left
    (fun total field =>
       try! t := total in
       try! f := int field in
       Ok (t * 60 + f))
    (split_on 58 stamp) (Ok 0).

(** ** Video 2: outline *)

(** One entry of [script["parts"]]; an absent key is [None]. *)
Record part_entry := {
  pt_role : option str;
  pt_ko : option str;
  pt_vi : option str;
  pt_label_vi : option str
}.

(** The script of video 2, with the keys of the legacy format. *)
Record outline_script := {
  os_opening_ment : option str;
  os_closing_ment : option str;
  os_parts : option (list part_entry);
  os_intro : option str;
  os_body_1 : option str;
  os_body_2 : option str;
  os_conclusion : option str
}.

Record part_info := {
  part_role : str;
  part_label_vi : str;
  part_ko : str;
  part_vi : str;
  part_audio_path : str;
  part_duration : Q
}.

(** The dictionary returned by [_build_video2_outline]; a key that the
    early return leaves out is [None]. *)
Record video2 := {
  v2_opening : option ment_info;
  v2_parts : list part_info;
  v2_closing : option ment_info;
  v2_total_duration : Q;
  v2_combined_audio : option str;
  v2_ssml_compressed : option bool
}.

Record locals2 := {
  l2_result : video2;
  l2_combined_audio : AudioSegment;
  l2_total_duration : Q
}.

(** The parts of the legacy format: the roles that have a text, in the
    order of [legacy_roles]. *)
Definition legacy_parts (script : outline_script) : list part_entry :=
  omap (fun entry : str * option str =>
          let text := default [] (snd entry) in
          if nonempty text
          then Some {| pt_role := Some (fst entry); pt_ko := Some text;
                       pt_vi := Some []; pt_label_vi := None |}
          else None)
    [ (lit "intro", os_intro script); (lit "body_1", os_body_1 script);
      (lit "body_2", os_body_2 script);
      (lit "conclusion", os_conclusion script) ].

(** The parts the function works on: [script["parts"]], or the parts of
    the legacy format when there are none. *)
Definition v2_parts_of (script : outline_script) : list part_entry :=
  let parts := default [] (os_parts script) in
  if negb (truthy parts) then parts ++ legacy_parts script else parts.

Definition v2_total_text (script : outline_script) : str :=
  let opening_ment := default [] (os_opening_ment script) in
  let closing_ment := default default_closing_ment (os_closing_ment script) in
  opening_ment ++ lit " "
    ++ join (lit " ") (map (fun p => default [] (pt_ko p)) (v2_parts_of script))
    ++ lit " " ++ closing_ment.

Definition v2_base_rate (script : outline_script) : str :=
  let '(should_compress, compress_rate) :=
    should_compress_audio (v2_total_text script) TIKTOK_MAX_DURATION in
  if should_compress then compress_rate else cfg_rate (_VOICE_CFG video_2).

Definition v2_combined_path (assets_dir : str) : str :=
  os_path_join assets_dir (lit "v2_outline.mp3").

Section Video2.
Context `{Externals}.

(** [_build_video2_outline] is a coroutine, like [_build_video1_news]:
    it calls the adapter on the thread of the event loop. *)

Definition v2_opening_part (opening_ment assets_dir voice base_rate : str)
    (l : locals2) : M locals2 :=
  if nonempty opening_ment then
    let opening_path := os_path_join assets_dir (lit "v2_opening.mp3") in
    do! duration :=
      generate_azure_tts EventLoopThread opening_ment voice opening_path
        base_rate false in
    if Qgtb duration 0 then
      let r := l2_result l in
      let r := {| v2_opening :=
                    Some {| ment_audio_path := lit "/assets/v2_opening.mp3";
                            ment_duration := round duration 3;
                            ment_text := opening_ment |};
                  v2_parts := v2_parts r;
                  v2_closing := v2_closing r;
                  v2_total_duration := v2_total_duration r;
                  v2_combined_audio := v2_combined_audio r;
                  v2_ssml_compressed := v2_ssml_compressed r |} in
      let total_duration := (l2_total_duration l + duration)%Q in
      do! present := os_path_exists opening_path in
      if present then
        do! clip := from_file opening_path in
        ret {| l2_result := r;
               l2_combined_audio := l2_combined_audio l ++ clip ++ silent 500;
               l2_total_duration := (total_duration + (1 # 2))%Q |}
      else
        ret {| l2_result := r;
               l2_combined_audio := l2_combined_audio l;
               l2_total_duration := total_duration |}
    else ret l
  else ret l.

(** The body of the loop over [enumerate(parts)]; [count] is
    [len(parts)]. *)
Definition v2_part_step (assets_dir voice base_rate : str) (count idx : nat)
    (part : part_entry) (l : locals2) : M locals2 :=
  let role :=
    default (lit "part_" ++ str_of_int (Z.of_nat idx)) (pt_role part) in
  let ko_text := default [] (pt_ko part) in
  let vi_text := default [] (pt_vi part) in
  let label_vi := default [] (pt_label_vi part) in
  if negb (nonempty ko_text) then ret l
  else
    let part_filename := lit "v2_" ++ role ++ lit ".mp3" in
    let part_path := os_path_join assets_dir part_filename in
    do! duration :=
      generate_azure_tts EventLoopThread ko_text voice part_path base_rate
        true in
    if Qgtb duration 0 then
      let r := l2_result l in
      let r := {| v2_opening := v2_opening r;
                  v2_parts :=
                    v2_parts r ++
                      [ {| part_role := role; part_label_vi := label_vi;
                           part_ko := ko_text; part_vi := vi_text;
                           part_audio_path := lit "/assets/" ++ part_filename;
                           part_duration := round duration 3 |} ];
                  v2_closing := v2_closing r;
                  v2_total_duration := v2_total_duration r;
                  v2_combined_audio := v2_combined_audio r;
                  v2_ssml_compressed := v2_ssml_compressed r |} in
      let total_duration := (l2_total_duration l + duration)%Q in
      do! present := os_path_exists part_path in
      if present then
        do! clip := from_file part_path in
        if (Z.of_nat idx <? Z.of_nat count - 1) then
          ret {| l2_result := r;
                 l2_combined_audio := (l2_combined_audio l ++ clip) ++ silent 500;
                 l2_total_duration := (total_duration + (1 # 2))%Q |}
        else
          ret {| l2_result := r;
                 l2_combined_audio := l2_combined_audio l ++ clip;
                 l2_total_duration := total_duration |}
      else
        ret {| l2_result := r;
               l2_combined_audio := l2_combined_audio l;
               l2_total_duration := total_duration |}
    else ret l.

Fixpoint v2_part_loop (assets_dir voice base_rate : str) (count idx : nat)
    (parts : list part_entry) (l : locals2) : M locals2 :=
  match parts with
  | [] => ret l
  | part :: rest =>
      do! l1 := v2_part_step assets_dir voice base_rate count idx part l in
      v2_part_loop assets_dir voice base_rate count (S idx) rest l1
  end.

Definition v2_closing_part (closing_ment assets_dir voice base_rate : str)
    (l : locals2) : M locals2 :=
  if nonempty closing_ment then
    let closing_path := os_path_join assets_dir (lit "v2_closing.mp3") in
    do! duration :=
      generate_azure_tts EventLoopThread closing_ment voice closing_path
        base_rate false in
    if Qgtb duration 0 then
      let r := l2_result l in
      let r := {| v2_opening := v2_opening r;
                  v2_parts := v2_parts r;
                  v2_closing :=
                    Some {| ment_audio_path := lit "/assets/v2_closing.mp3";
                            ment_duration := round duration 3;
                            ment_text := closing_ment |};
                  v2_total_duration := v2_total_duration r;
                  v2_combined_audio := v2_combined_audio r;
                  v2_ssml_compressed := v2_ssml_compressed r |} in
      do! present := os_path_exists closing_path in
      if present then
        do! clip := from_file closing_path in
        ret {| l2_result := r;
               l2_combined_audio := l2_combined_audio l ++ silent 500 ++ clip;
               l2_total_duration :=
                 (l2_total_duration l + (duration + (1 # 2)))%Q |}
      else
        ret {| l2_result := r;
               l2_combined_audio := l2_combined_audio l;
               l2_total_duration := l2_total_duration l |}
    else ret l
  else ret l.

(** The last block: the export is measured when there is something to
    export; otherwise the sum is reported. *)
Definition v2_combined_part (assets_dir : str) (l : locals2) : M video2 :=
  let combined_path := v2_combined_path assets_dir in
  let r := l2_result l in
  if 0 <? audio_len (l2_combined_audio l) then
    export (l2_combined_audio l) combined_path ;;;
    do! actual_duration := get_audio_duration combined_path in
    ret {| v2_opening := v2_opening r;
           v2_parts := v2_parts r;
           v2_closing := v2_closing r;
           v2_total_duration := round actual_duration 3;
           v2_combined_audio := Some (lit "/assets/v2_outline.mp3");
           v2_ssml_compressed := v2_ssml_compressed r |}
  else
    ret {| v2_opening := v2_opening r;
           v2_parts := v2_parts r;
           v2_closing := v2_closing r;
           v2_total_duration := round (l2_total_duration l) 3;
           v2_combined_audio := v2_combined_audio r;
           v2_ssml_compressed := v2_ssml_compressed r |}.

Definition _build_video2_outline (script : outline_script) (assets_dir : str)
  : M video2 :=
  let cfg := _VOICE_CFG video_2 in
  let opening_ment := default [] (os_opening_ment script) in
  let closing_ment := default default_closing_ment (os_closing_ment script) in
  let parts := v2_parts_of script in
  if negb (truthy parts) && negb (nonempty opening_ment) then
    ret {| v2_opening := None; v2_parts := []; v2_closing := None;
           v2_total_duration := 0; v2_combined_audio := None;
           v2_ssml_compressed := None |}
  else
    let should_compress :=
      fst (should_compress_audio (v2_total_text script) TIKTOK_MAX_DURATION) in
    let base_rate := v2_base_rate script in
    let l := {| l2_result :=
                  {| v2_opening := None; v2_parts := []; v2_closing := None;
                     v2_total_duration := 0; v2_combined_audio := None;
                     v2_ssml_compressed := Some should_compress |};
                l2_combined_audio := [];
                l2_total_duration := 0 |} in
    do! l := v2_opening_part opening_ment assets_dir (cfg_voice cfg) base_rate l in
    do! l := v2_part_loop assets_dir (cfg_voice cfg) base_rate (length parts) 0
               parts l in
    do! l := v2_closing_part closing_ment assets_dir (cfg_voice cfg) base_rate l in
    v2_combined_part assets_dir l.

End Video2.

(** ** Entry point of the audio assets *)

(** [phase3_json["tiktok_script"]]; an absent key is [None] and stands
    for the empty script of its builder. *)
Record tiktok_script := {
  tk_video_1_news : option news_script;
  tk_video_2_outline : option outline_script;
  tk_video_3_vocab_quiz : option quiz_script;
  tk_video_4_grammar_quiz : option quiz_script
}.

Definition empty_news_script : news_script :=
  {| ns_opening_ment := None; ns_closing_ment := None; ns_segments := None;
     ns_audio_text := None |}.

Definition empty_outline_script : outline_script :=
  {| os_opening_ment := None; os_closing_ment := None; os_parts := None;
     os_intro := None; os_body_1 := None; os_body_2 := None;
     os_conclusion := None |}.

Definition empty_quiz_script : quiz_script :=
  {| qs_opening_ment := None; qs_closing_ment := None;
     qs_question_ko := None; qs_question := None;
     qs_options_ko := None; qs_options := None;
     qs_correct_answer := None;
     qs_explanation_ko := None; qs_explanation := None |}.

(** The dictionary returned by [generate_tiktok_assets]: [audio_paths]
    as the list of its items in the order of insertion, and the entries
    of [audio_data] by key. *)
Record audio_assets := {
  audio_paths : list (str * str);
  data_video_1_news : option video1;
  data_video_2_outline : option video2;
  data_video_3_vocab_quiz : option quiz_audio;
  data_video_4_grammar_quiz : option quiz_audio;
  data_video_5_deep_dive : option video5
}.

(** [if data.get("combined_audio"): audio_paths[key] = os.path.join(...)] *)
Definition with_audio_path (combined_audio : option str) (key : str)
    (assets_dir name : str) (paths : list (str * str)) : list (str * str) :=
  match combined_audio with
  | Some relative =>
      if nonempty relative then paths ++ [(key, os_path_join assets_dir name)]
      else paths
  | None => paths
  end.

Section Assets.
Context `{Externals}.

(** [tiktok = None] is the missing or empty [tiktok_script], and
    [deep_dive = None] the missing or empty [video_5_deep_dive] of
    phase 4. *)
Definition generate_tiktok_assets (tiktok : option tiktok_script)
    (assets_dir : str) (deep_dive : option deep_dive_script)
  : M audio_assets :=
  match tiktok with
  | None =>
      ret {| audio_paths := []; data_video_1_news := None;
             data_video_2_outline := None; data_video_3_vocab_quiz := None;
             data_video_4_grammar_quiz := None;
             data_video_5_deep_dive := None |}
  | Some tiktok =>
      let audio_paths := [] in
      do! v1_data :=
        _build_video1_news
          (default empty_news_script (tk_video_1_news tiktok)) assets_dir in
      let audio_paths :=
        with_audio_path (v1_combined_audio v1_data) (lit "video_1_news")
          assets_dir (lit "v1_news.mp3") audio_paths in
      do! v2_data :=
        _build_video2_outline
          (default empty_outline_script (tk_video_2_outline tiktok))
          assets_dir in
      let audio_paths :=
        with_audio_path (v2_combined_audio v2_data) (lit "video_2_outline")
          assets_dir (lit "v2_outline.mp3") audio_paths in
      do! v3_data :=
        _build_quiz_audio
          (default empty_quiz_script (tk_video_3_vocab_quiz tiktok))
          assets_dir video_3 in
      let audio_paths :=
        with_audio_path (quiz_combined_audio v3_data)
          (lit "video_3_vocab_quiz") assets_dir (lit "v3_vocab_quiz.mp3")
          audio_paths in
      do! v4_data :=
        _build_quiz_audio
          (default empty_quiz_script (tk_video_4_grammar_quiz tiktok))
          assets_dir video_4 in
      let audio_paths :=
        with_audio_path (quiz_combined_audio v4_data)
          (lit "video_4_grammar_quiz") assets_dir (lit "v4_grammar_quiz.mp3")
          audio_paths in
      match deep_dive with
      | Some script =>
          do! v5_data := _build_video5_deep_dive (Some script) assets_dir in
          let audio_paths :=
            with_audio_path (v5_combined_audio v5_data)
              (lit "video_5_deep_dive") assets_dir (lit "v5_deep_dive.mp3")
              audio_paths in
          ret {| audio_paths := audio_paths;
                 data_video_1_news := Some v1_data;
                 data_video_2_outline := Some v2_data;
                 data_video_3_vocab_quiz := Some v3_data;
                 data_video_4_grammar_quiz := Some v4_data;
                 data_video_5_deep_dive := Some v5_data |}
      | None =>
          ret {| audio_paths := audio_paths;
                 data_video_1_news := Some v1_data;
                 data_video_2_outline := Some v2_data;
                 data_video_3_vocab_quiz := Some v3_data;
                 data_video_4_grammar_quiz := Some v4_data;
                 data_video_5_deep_dive := None |}
      end
  end.

End Assets.

(** An outline in the legacy format, with an opening line. *)
Definition legacy_outline_script : outline_script :=
  {| os_opening_ment := Some (lit "ab");
     os_closing_ment := Some (lit "abc");
     os_parts := Some [];
     os_intro := Some (lit "abcd");
     os_body_1 := None;
     os_body_2 := Some (lit "ab");
     os_conclusion := None |}.

(** ** What the other variants ask of the engines *)

(** The value of the base rate of video 2: 15 when the variant is
    flagged for compression, 0 (the configured rate) otherwise. *)
Definition v2_base_value (script : outline_script) : Z :=
  if fst (should_compress_audio (v2_total_text script) TIKTOK_MAX_DURATION)
  then 15 else 0.

Definition v2_opening_path (assets_dir : str) : str :=
  os_path_join assets_dir (lit "v2_opening.mp3").

Definition v2_closing_path (assets_dir : str) : str :=
  os_path_join assets_dir (lit "v2_closing.mp3").

Definition v2_part_path (assets_dir : str) (idx : nat) (part : part_entry)
  : str :=
  os_path_join assets_dir
    (lit "v2_"
       ++ default (lit "part_" ++ str_of_int (Z.of_nat idx)) (pt_role part)
       ++ lit ".mp3").

(** An invocation for the opening or the closing line of video 2, at
    the base rate as it is. *)
Definition v2_ment_request (script : outline_script) (assets_dir : str)
    (q : request) : Prop :=
  (request_path q = v2_opening_path assets_dir
   \/ request_path q = v2_closing_path assets_dir)
  /\ request_rate q = format_rate (v2_base_value script).

(** An invocation for the part [idx] of video 2, at the base rate plus
    the bonus of the length tier of its own text, clamped. *)
Definition v2_part_request `{Externals} (script : outline_script)
    (assets_dir : str) (q : request) : Prop :=
  exists idx part t,
    v2_parts_of script !! idx = Some part
    /\ vietnamese_guard (default [] (pt_ko part)) = Some t
    /\ request_path q = v2_part_path assets_dir idx part
    /\ request_rate q =
         format_rate
           (clamp (v2_base_value script + tier_bonus (len (strip t)))).

(** An invocation that video 2 may make. *)
Definition v2_request `{Externals} (script : outline_script)
    (assets_dir : str) (q : request) : Prop :=
  v2_ment_request script assets_dir q \/ v2_part_request script assets_dir q.

(** An invocation that a quiz may make: at the base rate as it is,
    whatever the text. *)
Definition quiz_request (script : quiz_script) (k : video_key) (q : request)
  : Prop :=
  request_rate q = quiz_base_rate script k.

(** An invocation that the deep dive may make: for one of its calls of
    [process_segment], at the rate of the call plus the bonus of the
    length tier of the text of the call, clamped. *)
Definition deep_dive_request `{Externals} (script : deep_dive_script)
    (q : request) : Prop :=
  exists c t z,
    In c (deep_dive_calls script)
    /\ vietnamese_guard (call_ko c) = Some t
    /\ (z = -5 \/ z = 0)
    /\ call_rate c = format_rate z
    /\ request_rate q = format_rate (clamp (z + tier_bonus (len (strip t)))).

(** An outline over budget: an opening line, one part of 300 characters
    and the default closing line. *)
Definition long_outline_script : outline_script :=
  {| os_opening_ment := Some (lit "hello");
     os_closing_ment := None;
     os_parts :=
       Some [ {| pt_role := Some (lit "intro");
                 pt_ko := Some (repeat 97%N 300);
                 pt_vi := Some []; pt_label_vi := None |} ];
     os_intro := None; os_body_1 := None; os_body_2 := None;
     os_conclusion := None |}.

(** A quiz within budget whose question has 60 characters. *)
Definition long_question_quiz_script : quiz_script :=
  {| qs_opening_ment := Some (lit "ab");
     qs_closing_ment := Some (lit "abc");
     qs_question_ko := Some (repeat 97%N 60);
     qs_question := None;
     qs_options_ko := Some [lit "a"; lit "b"];
     qs_options := None;
     qs_correct_answer := Some (lit "1");
     qs_explanation_ko := Some (lit "abcd");
     qs_explanation := None |}.

(* ===================================================================== *)
(** * Part II: properties                                                 *)
(* ===================================================================== *)

(** ** Strings and integers *)

Lemma startswith_nil s : startswith s [] = true.
Proof. destruct s; reflexivity. Qed.

Lemma startswith_cons c d s p :
  startswith (d :: s) (c :: p) = (c =? d)%N && startswith s p.
Proof. reflexivity. Qed.

Lemma replace_app old new a b :
  replace old new (a ++ b) = replace old new a ++ replace old new b.
Proof. unfold replace. apply flat_map_app. Qed.

Lemma replace_absent old new s :
  Forall (fun c => c <> old) s -> replace old new s = s.
Proof.
  induction 1 as [|c s Hc _ IH]; [reflexivity|].
  unfold replace in *. simpl. rewrite IH.
  destruct (N.eqb_spec c old); [contradiction|reflexivity].
Qed.

Lemma mapM_to_ascii_low s :
  Forall (fun c => (c < 127)%N) s -> mapM to_ascii s = Some s.
Proof.
  induction 1 as [|c s Hc _ IH]; [reflexivity|].
  simpl. rewrite IH. unfold to_ascii.
  destruct (N.ltb_spec c 127); [|lia]. reflexivity.
Qed.

Lemma uint_chars_digits u : Forall is_digit (uint_chars u).
Proof.
  induction u; simpl; constructor; try assumption; unfold is_digit; lia.
Qed.

Lemma digits_low s : Forall is_digit s -> Forall (fun c => (c < 127)%N) s.
Proof.
  intros Hs. eapply Forall_impl; [exact Hs|].
  unfold is_digit. intros; lia.
Qed.

Lemma ascii_digit_digit c :
  is_digit c -> ascii_digit c = Some (Z.of_N (c - 48)).
Proof.
  unfold is_digit, ascii_digit. intros [H1 H2].
  destruct (N.leb_spec 48 c); [|lia].
  destruct (N.leb_spec c 57); [|lia]. reflexivity.
Qed.

(** The value that the scanner reads from a string of digits. *)
Lemma scan_digits_all acc n s :
  Forall is_digit s ->
  scan_digits acc n s =
    (fold_left (fun a c => a * 10 + Z.of_N (c - 48)) s acc,
     (n + length s)%nat, []).
Proof.
  intros Hs. revert acc n.
  induction Hs as [|c s Hc _ IH]; intros acc n; simpl.
  - rewrite Nat.add_0_r. reflexivity.
  - rewrite (ascii_digit_digit c Hc), IH.
    replace (S n + length s)%nat with (n + S (length s))%nat by lia.
    reflexivity.
Qed.

(** [int] on an unsigned string of digits. *)
Lemma int_digits c s :
  is_digit c -> Forall is_digit s -> (length (c :: s) <= 4300)%nat ->
  int (c :: s) =
    Ok (fold_left (fun a d => a * 10 + Z.of_N (d - 48)) (c :: s) 0).
Proof.
  intros Hc Hs Hlen. unfold int.
  rewrite mapM_to_ascii_low by (apply digits_low; constructor; assumption).
  assert (Hsp : Py_ISSPACE c = false).
  { unfold is_digit in Hc. unfold Py_ISSPACE.
    repeat match goal with
           | |- context [(?a <=? ?b)%N] => destruct (N.leb_spec a b)
           | |- context [(?a =? ?b)%N] => destruct (N.eqb_spec a b)
           end; simpl; try reflexivity; lia. }
  simpl skip_space. rewrite Hsp.
  unfold is_digit in Hc.
  destruct (N.eqb_spec c 45); [lia|].
  destruct (N.eqb_spec c 43); [lia|].
  rewrite (ascii_digit_digit c) by (unfold is_digit; lia).
  rewrite scan_digits_all by assumption.
  simpl skip_space. simpl nonempty. cbv iota.
  unfold int_max_str_digits.
  destruct (Nat.ltb_spec 4300 (1 + length s)); [simpl in Hlen; lia|].
  reflexivity.
Qed.

(** [int] on a string of digits after a minus sign. *)
Lemma int_minus_digits c s :
  is_digit c -> Forall is_digit s -> (length (c :: s) <= 4300)%nat ->
  int (45%N :: c :: s) =
    Ok (- fold_left (fun a d => a * 10 + Z.of_N (d - 48)) (c :: s) 0).
Proof.
  intros Hc Hs Hlen. unfold int.
  rewrite mapM_to_ascii_low.
  2:{ constructor; [lia|]. apply digits_low. constructor; assumption. }
  simpl skip_space.
  change (Py_ISSPACE 45) with false. cbv iota.
  change (45 =? 45)%N with true. cbv iota.
  rewrite (ascii_digit_digit c) by assumption.
  rewrite scan_digits_all by assumption.
  simpl skip_space. simpl nonempty. cbv iota.
  unfold int_max_str_digits.
  destruct (Nat.ltb_spec 4300 (1 + length s)); [simpl in Hlen; lia|].
  reflexivity.
Qed.

(** The scanner reads a printed numeral back as its value. *)
Lemma digits_value_pos u p :
  fold_left (fun a d => a * 10 + Z.of_N (d - 48)) (uint_chars u) (Z.pos p)
  = Z.pos (Pos.of_uint_acc u p).
Proof.
  revert p. induction u; intros p; simpl; [reflexivity|..];
    match goal with
    | |- fold_left _ _ ?a = Z.pos (Pos.of_uint_acc _ ?q) =>
        replace a with (Z.pos q) by lia; apply IHu
    end.
Qed.

Lemma digits_value_zero u :
  fold_left (fun a d => a * 10 + Z.of_N (d - 48)) (uint_chars u) 0
  = Z.of_N (Pos.of_uint u).
Proof.
  induction u; simpl; [reflexivity|assumption|..];
    match goal with
    | |- fold_left _ _ ?a = Z.pos (Pos.of_uint_acc _ ?q) =>
        replace a with (Z.pos q) by lia; apply digits_value_pos
    end.
Qed.

Lemma uint_chars_cons u :
  u <> Nil -> exists c s, uint_chars u = c :: s.
Proof. destruct u; [congruence|..]; intros _; simpl; eauto. Qed.

Lemma int_uint_chars u :
  u <> Nil -> (length (uint_chars u) <= 4300)%nat ->
  int (uint_chars u) = Ok (Z.of_N (Pos.of_uint u)) /\
  int (45%N :: uint_chars u) = Ok (- Z.of_N (Pos.of_uint u)).
Proof.
  intros Hu Hlen.
  destruct (uint_chars_cons u Hu) as (c & s & E).
  pose proof (uint_chars_digits u) as Hd. rewrite E in Hd, Hlen.
  apply Forall_cons in Hd as [Hc Hs].
  rewrite <- digits_value_zero, E.
  split; [apply int_digits|apply int_minus_digits]; assumption.
Qed.

(** Reading back what [str] printed. *)
Lemma int_str_of_int z :
  (length (str_of_int z) <= 4300)%nat -> int (str_of_int z) = Ok z.
Proof.
  unfold str_of_int. destruct z as [|p|p]; simpl Z.to_int; cbv iota.
  - intros _. reflexivity.
  - intros Hlen.
    destruct (int_uint_chars (Pos.to_uint p)) as [-> _];
      [apply DecimalPos.Unsigned.to_uint_nonnil|assumption|].
    rewrite DecimalPos.Unsigned.of_to. reflexivity.
  - intros Hlen.
    destruct (int_uint_chars (Pos.to_uint p)) as [_ ->];
      [apply DecimalPos.Unsigned.to_uint_nonnil|simpl in Hlen; lia|].
    rewrite DecimalPos.Unsigned.of_to. reflexivity.
Qed.

(** Induction over the integers from -100 to 100 by enumeration. *)
Lemma percent_range_check (f : Z -> bool) :
  forallb (fun n => f (Z.of_nat n - 100)) (seq 0 201) = true ->
  forall z, -100 <= z <= 100 -> f z = true.
Proof.
  intros Hall z Hz.
  rewrite forallb_forall in Hall.
  specialize (Hall (Z.to_nat (z + 100))).
  replace (Z.of_nat (Z.to_nat (z + 100)) - 100) with z in Hall by lia.
  apply Hall. apply in_seq. lia.
Qed.

Lemma str_of_int_percent_length z :
  -100 <= z <= 100 -> (length (str_of_int z) <= 4300)%nat.
Proof.
  intros Hz.
  pose proof (percent_range_check
                (fun z => (length (str_of_int z) <=? 4)%nat)) as Hc.
  specialize (Hc ltac:(vm_compute; reflexivity) z Hz).
  apply Nat.leb_le in Hc. lia.
Qed.

(** The characters of a printed integer: digits, after an optional
    minus sign. *)
Lemma str_of_int_no_percent z : Forall (fun c => c <> 37%N) (str_of_int z).
Proof.
  assert (Hd : forall u, Forall (fun c => c <> 37%N) (uint_chars u)).
  { intros u. eapply Forall_impl; [apply uint_chars_digits|].
    unfold is_digit. intros; lia. }
  unfold str_of_int. destruct (Z.to_int z); [apply Hd|].
  constructor; [lia|apply Hd].
Qed.

Lemma str_of_int_nonneg z :
  0 <= z -> exists c s, str_of_int z = c :: s /\ is_digit c.
Proof.
  intros Hz. unfold str_of_int.
  destruct z as [|p|p]; [| |lia]; simpl Z.to_int; cbv iota.
  - exists 48%N, []. split; [reflexivity|unfold is_digit; lia].
  - destruct (uint_chars_cons (Pos.to_uint p)) as (c & s & E);
      [apply DecimalPos.Unsigned.to_uint_nonnil|].
    exists c, s. split; [assumption|].
    pose proof (uint_chars_digits (Pos.to_uint p)) as Hd.
    rewrite E in Hd. apply Forall_cons in Hd as [Hc _]. exact Hc.
Qed.

Lemma str_of_int_neg z :
  z < 0 -> exists s, str_of_int z = 45%N :: s.
Proof.
  intros Hz. unfold str_of_int.
  destruct z as [|p|p]; [lia|lia|]. simpl. eauto.
Qed.

(** ** Rate controller *)

Lemma dynamic_rate_value_tiers n :
  dynamic_rate_value n SSML_RATE_THRESHOLDS = Ok (tier_bonus n).
Proof.
  unfold tier_bonus, SSML_RATE_THRESHOLDS, dynamic_rate_value, within.
  cbn [max_chars tier_rate].
  repeat (destruct (_ <=? _); [vm_compute; reflexivity|]).
  vm_compute; reflexivity.
Qed.

Lemma base_rate_value_signed plus z :
  (length (str_of_int z) <= 4300)%nat ->
  base_rate_value (signed_percentage plus z) = Ok z.
Proof.
  intros Hlen. unfold base_rate_value, signed_percentage.
  rewrite !replace_app.
  rewrite (replace_absent 37 [] (str_of_int z)) by apply str_of_int_no_percent.
  change (replace 37 [] (lit "%")) with (@nil N). rewrite app_nil_r.
  destruct (Z.leb_spec 0 z) as [Hz|Hz].
  - destruct (str_of_int_nonneg z Hz) as (c & s & E & Hc).
    unfold is_digit in Hc.
    destruct plus; simpl andb; cbv iota.
    + change (replace 37 [] (lit "+")) with (lit "+").
      change (lit "+" ++ str_of_int z) with (43%N :: str_of_int z).
      simpl. rewrite startswith_nil. apply int_str_of_int, Hlen.
    + change (replace 37 [] []) with (@nil N). simpl app.
      rewrite <- (int_str_of_int z Hlen). rewrite E.
      change (lit "+") with [43%N]. change (lit "-") with [45%N].
      rewrite !startswith_cons.
      destruct (N.eqb_spec 43 c); [lia|].
      destruct (N.eqb_spec 45 c); [lia|]. reflexivity.
  - simpl andb. cbv iota.
    change (replace 37 [] []) with (@nil N). simpl app.
    rewrite <- (int_str_of_int z Hlen).
    destruct (str_of_int_neg z Hz) as (s & E). rewrite E.
    change (lit "+") with [43%N]. change (lit "-") with [45%N].
    rewrite !startswith_cons, startswith_nil. reflexivity.
Qed.

Lemma clamp_range v : -50 <= clamp v <= 50.
Proof. unfold clamp. lia. Qed.

(** The rate controller on a well-formed base rate. *)
Lemma calculate_dynamic_rate_signed text plus z :
  (length (str_of_int z) <= 4300)%nat ->
  _calculate_dynamic_rate text (signed_percentage plus z)
  = Ok (format_rate (clamp (z + tier_bonus (len (strip text))))).
Proof.
  intros Hlen. unfold _calculate_dynamic_rate.
  rewrite dynamic_rate_value_tiers, base_rate_value_signed by assumption.
  reflexivity.
Qed.

(** C6. For every text and every base rate that is a signed percentage
    between -100% and +100%, [_calculate_dynamic_rate] returns the base
    value plus the bonus of the length tier, clamped to [-50, +50] and
    formatted as a signed percentage; so the rate returned lies between
    -50% and +50%. *)
Theorem C6_rate_is_clamped_sum (text : str) (plus : bool) (z : Z) :
  -100 <= z <= 100 ->
  exists v,
    _calculate_dynamic_rate text (signed_percentage plus z)
      = Ok (signed_percentage true v)
    /\ v = clamp (z + tier_bonus (len (strip text)))
    /\ -50 <= v <= 50.
Proof.
  intros Hz. exists (clamp (z + tier_bonus (len (strip text)))).
  split; [|split; [reflexivity|apply clamp_range]].
  rewrite calculate_dynamic_rate_signed by (apply str_of_int_percent_length, Hz).
  f_equal. unfold format_rate, signed_percentage.
  destruct (0 <=? _); reflexivity.
Qed.

Lemma C6_rate_is_clamped_sum_witness :
  -100 <= -10 <= 100 /\
  exists v,
    _calculate_dynamic_rate (repeat 97%N 200) (signed_percentage true (-10))
      = Ok (signed_percentage true v)
    /\ v = clamp (-10 + tier_bonus (len (strip (repeat 97%N 200))))
    /\ -50 <= v <= 50.
Proof.
  split; [lia|].
  apply (C6_rate_is_clamped_sum (repeat 97%N 200) true (-10)). lia.
Defined.





(** ** Duration estimator *)

Lemma estimate_reading_time_value text :
  (estimate_reading_time text 5 == inject_Z (len (strip text)) / 5)%Q.
Proof.
  unfold estimate_reading_time. destruct text; simpl; reflexivity.
Qed.

Lemma Qgtb_true a b : Qgtb a b = true <-> (b < a)%Q.
Proof.
  unfold Qgtb. rewrite negb_true_iff, <- not_true_iff_false, Qle_bool_iff.
  split; [apply Qnot_le_lt|apply Qlt_not_le].
Qed.

Lemma Qgtb_false a b : Qgtb a b = false <-> (a <= b)%Q.
Proof.
  unfold Qgtb. rewrite negb_false_iff, Qle_bool_iff. reflexivity.
Qed.

Lemma should_compress_audio_true text target_max :
  (target_max < inject_Z (len (strip text)) / 5)%Q ->
  should_compress_audio text target_max = (true, lit "+15%").
Proof.
  intros Hlt. unfold should_compress_audio.
  rewrite (proj2 (Qgtb_true _ _)); [reflexivity|].
  rewrite estimate_reading_time_value. exact Hlt.
Qed.

Lemma should_compress_audio_false text target_max :
  (inject_Z (len (strip text)) / 5 <= target_max)%Q ->
  should_compress_audio text target_max = (false, lit "+0%").
Proof.
  intros Hle. unfold should_compress_audio.
  rewrite (proj2 (Qgtb_false _ _)); [reflexivity|].
  rewrite estimate_reading_time_value. exact Hle.
Qed.

(** C8. [should_compress_audio] returns (true, "+15%") exactly when the
    number of characters of the stripped text divided by 5 is more than
    the budget, and (false, "+0%") otherwise; the empty text does not
    trigger compression under the default budget of 55 seconds, nor
    under any budget that is not negative. *)
Theorem C8_compress_iff_over_budget (text : str) (target_max : Q) :
  (should_compress_audio text target_max = (true, lit "+15%")
     <-> (target_max < inject_Z (len (strip text)) / 5)%Q)
  /\ (should_compress_audio text target_max = (false, lit "+0%")
     <-> (inject_Z (len (strip text)) / 5 <= target_max)%Q)
  /\ should_compress_audio [] TIKTOK_MAX_DURATION = (false, lit "+0%")
  /\ ((0 <= target_max)%Q ->
      should_compress_audio [] target_max = (false, lit "+0%")).
Proof.
  repeat split.
  - intros E. destruct (Qlt_le_dec target_max (inject_Z (len (strip text)) / 5))
      as [Hlt|Hle]; [assumption|].
    rewrite (should_compress_audio_false _ _ Hle) in E. discriminate.
  - apply should_compress_audio_true.
  - intros E. destruct (Qlt_le_dec target_max (inject_Z (len (strip text)) / 5))
      as [Hlt|Hle]; [|assumption].
    rewrite (should_compress_audio_true _ _ Hlt) in E. discriminate.
  - apply should_compress_audio_false.
  - intros Hmax. apply should_compress_audio_false.
    apply Qle_trans with 0%Q; [|exact Hmax].
    vm_compute. discriminate.
Qed.

(** ** Render loop *)

Section RenderFacts.
Context `{RenderExternals}.








End RenderFacts.


(** ** Duration of an audio file *)

Section DurationFacts.
Context `{Externals}.

(** C9, as amended. When the metadata of an existing audio file cannot
    be read, [get_audio_duration] returns 0, the value it also returns
    for a missing file; the length of the audio plays no part, and the
    world is left as it was. *)
Theorem C9_unreadable_metadata_gives_zero (file_path : str)
    (audio : AudioSegment) (w : world) :
  MUTAGEN_AVAILABLE = true ->
  files w !! file_path = Some audio ->
  mp3_info_length audio = None ->
  get_audio_duration file_path w = (Ok 0%Q, w)
  /\ get_audio_duration file_path (remove_file file_path w)
     = (Ok 0%Q, remove_file file_path w).
Proof.
  intros Hm Hf Hl. unfold get_audio_duration. split.
  - rewrite Hf, Hm, Hl. reflexivity.
  - simpl. rewrite lookup_delete_eq. reflexivity.
Qed.

End DurationFacts.

Lemma C9_unreadable_metadata_gives_zero_witness :
  let w := write_file (lit "/assets/a.mp3") [Silent 60000] empty_world in
  get_audio_duration (H := studio_unreadable) (lit "/assets/a.mp3") w
    = (Ok 0%Q, w)
  /\ get_audio_duration (H := studio_unreadable) (lit "/assets/a.mp3")
       (remove_file (lit "/assets/a.mp3") w)
     = (Ok 0%Q, remove_file (lit "/assets/a.mp3") w).
Proof.
  apply (C9_unreadable_metadata_gives_zero (H := studio_unreadable)
           (lit "/assets/a.mp3") [Silent 60000]).
  - reflexivity.
  - apply lookup_insert_eq.
  - reflexivity.
Defined.

(** C9, the claim as stated fails. After a synthesis that the primary
    engine completed, with a metadata reader that raises, the adapter
    returns 0 for a clip of five seconds and for a clip of twenty
    seconds alike, although both files are on disk: the duration is not
    estimated from the size of the file, and 0 is what the adapter
    returns for a failed synthesis. *)
Lemma C9_no_estimate_from_file_size :
  let short := generate_azure_tts (H := studio_unreadable) WorkerThread
                 (lit "hello") (lit "ko-KR-SunHiNeural")
                 (lit "/assets/a.mp3") (lit "+0%") true empty_world in
  let long := generate_azure_tts (H := studio_unreadable) WorkerThread
                (lit "hello hello hello hi") (lit "ko-KR-SunHiNeural")
                (lit "/assets/a.mp3") (lit "+0%") true empty_world in
  fst short = Ok 0%Q /\ fst long = Ok 0%Q
  /\ audio_len <$> (files (snd short) !! lit "/assets/a.mp3") = Some 5000
  /\ audio_len <$> (files (snd long) !! lit "/assets/a.mp3") = Some 20000.
Proof. vm_compute. repeat split. Qed.

(** ** Synthesis adapter *)

Section SynthesisFacts.
Context `{Externals}.

(** Inversion of a sequence of two commands. *)
Lemma bind_inv {A B} (m : M A) (k : A -> M B) w r w' :
  bind m k w = (r, w') ->
  (exists a w1, m w = (Ok a, w1) /\ k a w1 = (r, w'))
  \/ (exists e, m w = (Raise e, w') /\ r = Raise e).
Proof.
  unfold bind. destruct (m w) as [[a|e] w1]; intros E.
  - left. eauto.
  - right. injection E as <- <-. eauto.
Qed.

Lemma try_except_inv {A} (m h : M A) w r w' :
  try_except m h w = (r, w') ->
  (exists a, m w = (Ok a, w') /\ r = Ok a)
  \/ (exists e w1, m w = (Raise e, w1) /\ h w1 = (r, w')).
Proof.
  unfold try_except. destruct (m w) as [[a|e] w1]; intros E.
  - left. injection E as <- <-. eauto.
  - right. eauto.
Qed.

(** [get_audio_duration] reads: it always returns, leaves the world as
    it is, and returns a positive duration only for a file that
    exists. *)
Lemma get_audio_duration_reads file_path w :
  exists d, get_audio_duration file_path w = (Ok d, w)
            /\ ((0 < d)%Q -> is_Some (files w !! file_path)).
Proof.
  unfold get_audio_duration.
  destruct (files w !! file_path) as [audio|].
  - destruct MUTAGEN_AVAILABLE; [destruct (mp3_info_length audio)|];
      eexists; (split; [reflexivity|eauto]).
  - exists 0%Q. split; [reflexivity|]. intros Hd. exfalso. lra.
Qed.

Lemma get_audio_duration_inv file_path w r w' :
  get_audio_duration file_path w = (r, w') ->
  w' = w /\ exists d, r = Ok d /\ ((0 < d)%Q -> is_Some (files w !! file_path)).
Proof.
  destruct (get_audio_duration_reads file_path w) as (d & E & Hd).
  rewrite E. intros [= <- <-]. eauto.
Qed.

Lemma touches_only_refl path P w : touches_only path P w w.
Proof.
  split; [reflexivity|]. exists []. rewrite app_nil_r. auto.
Qed.

Lemma touches_only_trans path P w1 w2 w3 :
  touches_only path P w1 w2 -> touches_only path P w2 w3 ->
  touches_only path P w1 w3.
Proof.
  intros [F1 (n1 & C1 & A1)] [F2 (n2 & C2 & A2)]. split.
  - intros p Hp. rewrite F2, F1 by assumption. reflexivity.
  - exists (n1 ++ n2). rewrite C2, C1, app_assoc. split; [reflexivity|].
    apply Forall_app. auto.
Qed.

Lemma save_touches text voice rate output_path w r w' :
  save text voice rate output_path w = (r, w') ->
  touches_only output_path (fun q => q = EdgeSave text voice rate output_path)
    w w'.
Proof.
  unfold save. intros E.
  destruct (communicate_save _ _); injection E as <- <-; split; simpl.
  - intros p Hp. apply lookup_insert_ne. congruence.
  - exists [EdgeSave text voice rate output_path]. split; [reflexivity|].
    repeat constructor.
  - reflexivity.
  - exists [EdgeSave text voice rate output_path]. split; [reflexivity|].
    repeat constructor.
Qed.

Lemma touches_only_weaken path (P Q : request -> Prop) w w' :
  (forall q, P q -> Q q) -> touches_only path P w w' -> touches_only path Q w w'.
Proof.
  intros HPQ [F (new & C & A)]. split; [exact F|].
  exists new. split; [exact C|].
  eapply Forall_impl; [exact A|]. intros q [Hp Hq]. auto.
Qed.

Lemma measured_now path w d :
  get_audio_duration path w = (Ok d, w) ->
  ((0 < d)%Q -> is_Some (files w !! path)) -> measured path d w.
Proof. intros E Hd Hpos. auto. Qed.

Lemma measured_zero path w : measured path 0 w.
Proof. intros Hpos. exfalso. lra. Qed.

Lemma _tts_to_file_spec text voice rate output_path w r w' :
  _tts_to_file text voice rate output_path w = (r, w') ->
  touches_only output_path
    (fun q => q = EdgeSave (strip text) voice rate output_path) w w'
  /\ exists d, r = Ok d.
Proof.
  unfold _tts_to_file.
  destruct (negb (nonempty text) || negb (nonempty (strip text))).
  - intros [= <- <-]. split; [apply touches_only_refl|eauto].
  - intros E. apply try_except_inv in E as [(a & E & ->)|(e & w1 & E & Hh)].
    + apply bind_inv in E as [(u & w1 & Es & Eg)|(e & _ & [=])].
      apply get_audio_duration_inv in Eg as [-> _].
      split; [eapply save_touches; eassumption|eauto].
    + injection Hh as <- <-.
      apply bind_inv in E as [(u & w2 & Es & Eg)|(e' & Es & _)].
      * apply get_audio_duration_inv in Eg as [_ (d & [=] & _)].
      * split; [eapply save_touches; eassumption|eauto].
Qed.

Lemma _fallback_edge_tts_sync_spec th text voice output_path rate w r w' :
  _fallback_edge_tts_sync th text voice output_path rate w = (r, w') ->
  touches_only output_path
    (fun q => q = EdgeSave (strip text) voice rate output_path) w w'
  /\ exists d, r = Ok d /\ measured output_path d w'.
Proof.
  unfold _fallback_edge_tts_sync. destruct EDGE_TTS_AVAILABLE; simpl.
  - destruct th; unfold asyncio_run.
    { intros [= <- <-]. split; [apply touches_only_refl|].
      exists 0%Q. split; [reflexivity|apply measured_zero]. }
    intros E. apply try_except_inv in E as [(a & E & ->)|(e & w1 & E & Hh)].
    + apply bind_inv in E as [(u & w1 & Et & Eg)|(e & _ & [=])].
      apply _tts_to_file_spec in Et as [Ht _].
      pose proof Eg as Eg'.
      apply get_audio_duration_inv in Eg as [-> (d & [= ->] & Hd)].
      split; [exact Ht|]. exists d. split; [reflexivity|].
      apply measured_now; assumption.
    + exfalso.
      apply bind_inv in E as [(u & w2 & Et & Eg)|(e' & Et & _)].
      * apply get_audio_duration_inv in Eg as [_ (d & [=] & _)].
      * apply _tts_to_file_spec in Et as [_ (d & [=])].
  - intros [= <- <-]. split; [apply touches_only_refl|].
    exists 0%Q. split; [reflexivity|apply measured_zero].
Qed.

Lemma fallback_with_rate_spec th text voice path rate dyn final w r w' :
  final_rate text rate dyn = Ok final ->
  fallback_with_rate th text voice path rate dyn w = (r, w') ->
  touches_only path (fun q => q = EdgeSave (strip text) voice final path) w w'
  /\ exists d, r = Ok d /\ measured path d w'.
Proof.
  intros Hf. unfold fallback_with_rate, bind, lift. rewrite Hf.
  apply _fallback_edge_tts_sync_spec.
Qed.

Lemma speak_touches filename voice doc w r w' :
  speak filename voice doc w = (r, w') ->
  touches_only filename (fun q => q = AzureSpeak filename voice doc) w w'.
Proof.
  unfold speak. intros E.
  assert (Hlog : exists new,
             calls (log_call (AzureSpeak filename voice doc) w) = calls w ++ new
             /\ Forall (fun q => request_path q = filename
                                 /\ q = AzureSpeak filename voice doc) new).
  { exists [AzureSpeak filename voice doc]. split; [reflexivity|].
    repeat constructor. }
  destruct (speak_ssml _ _); injection E as <- <-; split; simpl;
    try reflexivity; try exact Hlog.
  intros p Hp. apply lookup_insert_ne. congruence.
Qed.

(** The synthesis adapter: with a rate that [final_rate] accepts it
    always returns a duration; a positive duration was measured on the
    output file; only the output file changes; and every invocation it
    logs is for the output file, at the final rate. *)
Lemma generate_azure_tts_spec th text voice path rate dyn w r w' :
  (forall t, vietnamese_guard text = Some t ->
             exists final, final_rate t rate dyn = Ok final) ->
  generate_azure_tts th text voice path rate dyn w = (r, w') ->
  touches_only path (synthesis_request text rate dyn) w w'
  /\ exists d, r = Ok d /\ measured path d w'.
Proof.
  intros Hrate. unfold generate_azure_tts.
  destruct (negb (nonempty text) || negb (nonempty (strip text))).
  { intros [= <- <-]. split; [apply touches_only_refl|].
    exists 0%Q. split; [reflexivity|apply measured_zero]. }
  destruct (vietnamese_guard text) as [t|] eqn:Hg.
  2:{ intros [= <- <-]. split; [apply touches_only_refl|].
      exists 0%Q. split; [reflexivity|apply measured_zero]. }
  destruct (Hrate t eq_refl) as [final Hf].
  assert (Hedge : forall q, q = EdgeSave (strip t) voice final path ->
                            synthesis_request text rate dyn q).
  { intros q ->. exists t, final. auto. }
  assert (Hfb : forall w0 r0 w0',
             fallback_with_rate th t voice path rate dyn w0 = (r0, w0') ->
             touches_only path (synthesis_request text rate dyn) w0 w0'
             /\ exists d, r0 = Ok d /\ measured path d w0').
  { intros w0 r0 w0' E.
    destruct (fallback_with_rate_spec _ _ _ _ _ _ _ _ _ _ Hf E) as [Ht Hd].
    split; [|exact Hd]. eapply touches_only_weaken; [|exact Ht]. exact Hedge. }
  destruct (negb AZURE_TTS_AVAILABLE || negb (nonempty AZURE_SPEECH_KEY));
    [apply Hfb|].
  assert (Hdoc : _build_ssml t voice rate dyn
                 = Ok {| ssml_voice := voice; prosody_rate := ssml_rate final;
                         ssml_text := xml_escape t |}).
  { unfold _build_ssml. rewrite Hf. reflexivity. }
  assert (Hsp : forall w0 r0 w0' doc,
             doc = {| ssml_voice := voice; prosody_rate := ssml_rate final;
                      ssml_text := xml_escape t |} ->
             speak path voice doc w0 = (r0, w0') ->
             touches_only path (synthesis_request text rate dyn) w0 w0').
  { intros w0 r0 w0' doc -> E. apply speak_touches in E.
    eapply touches_only_weaken; [|exact E].
    intros q ->. exists t, final. auto. }
  intros E. apply try_except_inv in E as [(a & E & ->)|(e & w1 & E & Hh)].
  - apply bind_inv in E as [(doc & w0 & Ed & E)|(e & Ed & [=])].
    unfold lift in Ed. rewrite Hdoc in Ed. injection Ed as <- <-.
    apply bind_inv in E as [(reason & w1 & Es & E)|(e & Es & [=])].
    pose proof (Hsp _ _ _ _ eq_refl Es) as Ht.
    destruct reason.
    + pose proof E as E'.
      apply get_audio_duration_inv in E as [-> (d & [= ->] & Hd)].
      split; [exact Ht|]. exists d. split; [reflexivity|].
      apply measured_now; assumption.
    + apply Hfb in E as [Ht2 Hd]. split; [|exact Hd].
      eapply touches_only_trans; eassumption.
    + apply Hfb in E as [Ht2 Hd]. split; [|exact Hd].
      eapply touches_only_trans; eassumption.
    + apply Hfb in E as [Ht2 Hd]. split; [|exact Hd].
      eapply touches_only_trans; eassumption.
  - apply Hfb in Hh as [Ht2 Hd]. split; [|exact Hd].
    eapply touches_only_trans; [|exact Ht2].
    apply bind_inv in E as [(doc & w0 & Ed & E)|(e' & Ed & _)].
    + unfold lift in Ed. rewrite Hdoc in Ed. injection Ed as <- <-.
      apply bind_inv in E as [(reason & w2 & Es & E)|(e' & Es & _)].
      * exfalso. destruct reason.
        -- apply get_audio_duration_inv in E as [_ (d & [=] & _)].
        -- apply Hfb in E as [_ (d & [=] & _)].
        -- apply Hfb in E as [_ (d & [=] & _)].
        -- apply Hfb in E as [_ (d & [=] & _)].
      * eapply Hsp; [reflexivity|eassumption].
    + unfold lift in Ed. rewrite Hdoc in Ed. discriminate.
Qed.

End SynthesisFacts.

(** ** Rates of the invocations of video 1 *)

Section LoggingFacts.
Context `{Externals}.

Lemma logs_refl P w : logs P w w.
Proof. exists []. rewrite app_nil_r. auto. Qed.

Lemma logs_trans P w1 w2 w3 : logs P w1 w2 -> logs P w2 w3 -> logs P w1 w3.
Proof.
  intros (n1 & C1 & A1) (n2 & C2 & A2).
  exists (n1 ++ n2). rewrite C2, C1, app_assoc. split; [reflexivity|].
  apply Forall_app. auto.
Qed.

Lemma logs_same_calls P w w' : calls w' = calls w -> logs P w w'.
Proof. intros E. exists []. rewrite app_nil_r. auto. Qed.

Lemma touches_only_logs path (P Q : request -> Prop) w w' :
  (forall q, request_path q = path -> P q -> Q q) ->
  touches_only path P w w' -> logs Q w w'.
Proof.
  intros HPQ [_ (new & C & A)]. exists new. split; [exact C|].
  eapply Forall_impl; [exact A|]. intros q [Hp Hq]. auto.
Qed.

Lemma logging_ret {A} P (a : A) : logging P (ret a).
Proof. intros w. apply logs_refl. Qed.

Lemma logging_bind {A B} P (m : M A) (k : A -> M B) :
  logging P m -> (forall a, logging P (k a)) -> logging P (bind m k).
Proof.
  intros Hm Hk w. unfold bind. specialize (Hm w).
  destruct (m w) as [[a|e] w1]; simpl in *; [|exact Hm].
  eapply logs_trans; [exact Hm|apply Hk].
Qed.

Lemma logging_os_path_exists P path : logging P (os_path_exists path).
Proof. intros w. apply logs_refl. Qed.

Lemma logging_from_file P path : logging P (from_file path).
Proof.
  intros w. unfold from_file. destruct (files w !! path); apply logs_refl.
Qed.

Lemma logging_export P a path : logging P (export a path).
Proof. intros w. apply logs_same_calls. reflexivity. Qed.

Lemma logging_get_audio_duration P path : logging P (get_audio_duration path).
Proof.
  intros w. destruct (get_audio_duration_reads path w) as (d & -> & _).
  apply logs_refl.
Qed.

(** The adapter, used with a rate that is a signed percentage. *)
Lemma signed_percentage_format z : signed_percentage true z = format_rate z.
Proof.
  unfold signed_percentage, format_rate. destruct (0 <=? z); reflexivity.
Qed.

Lemma final_rate_format t z dyn :
  -100 <= z <= 100 ->
  final_rate t (format_rate z) dyn
  = Ok (if dyn then format_rate (clamp (z + tier_bonus (len (strip t))))
        else format_rate z).
Proof.
  intros Hz. unfold final_rate. destruct dyn; [|reflexivity].
  rewrite <- signed_percentage_format.
  apply calculate_dynamic_rate_signed, str_of_int_percent_length, Hz.
Qed.

Lemma ssml_rate_format v : ssml_rate (format_rate v) = format_rate v.
Proof.
  unfold ssml_rate, format_rate.
  change (lit "+") with [43%N]. change (lit "-") with [45%N].
  destruct (Z.leb_spec 0 v) as [Hv|Hv].
  - rewrite !replace_app.
    rewrite (replace_absent 37 [] (str_of_int v)) by apply str_of_int_no_percent.
    change (replace 37 [] (lit "%")) with (@nil N).
    change (replace 37 [] [43%N]) with [43%N]. rewrite app_nil_r.
    change ([43%N] ++ str_of_int v) with (43%N :: str_of_int v).
    rewrite startswith_cons, startswith_nil.
    reflexivity.
  - rewrite !replace_app.
    rewrite (replace_absent 37 [] (str_of_int v)) by apply str_of_int_no_percent.
    change (replace 37 [] (lit "%")) with (@nil N). rewrite app_nil_r.
    destruct (str_of_int_neg v Hv) as (s & E). rewrite E.
    rewrite !startswith_cons, startswith_nil. reflexivity.
Qed.

Lemma generate_azure_tts_logging (th : thread) (text voice path : str) (z : Z)
    (dyn : bool) :
  -100 <= z <= 100 ->
  logging
    (fun q =>
       request_path q = path
       /\ exists t, vietnamese_guard text = Some t
          /\ request_rate q =
               if dyn then format_rate (clamp (z + tier_bonus (len (strip t))))
               else format_rate z)
    (generate_azure_tts th text voice path (format_rate z) dyn).
Proof.
  intros Hz w.
  destruct (generate_azure_tts th text voice path (format_rate z) dyn w)
    as [r w'] eqn:E.
  apply generate_azure_tts_spec in E as [Ht _].
  2:{ intros t _. rewrite final_rate_format by assumption. eauto. }
  simpl. eapply touches_only_logs; [|exact Ht].
  intros q Hp (t & final & Hg & Hf & Hr). split; [exact Hp|].
  exists t. split; [exact Hg|].
  rewrite final_rate_format in Hf by assumption. injection Hf as <-.
  rewrite Hr. destruct q, dyn; try reflexivity; apply ssml_rate_format.
Qed.

End LoggingFacts.

Section Video1Rates.
Context `{Externals}.

Lemma logging_weaken {A} (P Q : request -> Prop) (m : M A) :
  (forall q, P q -> Q q) -> logging P m -> logging Q m.
Proof.
  intros HPQ Hm w. destruct (Hm w) as (new & C & F).
  exists new. split; [exact C|]. eapply Forall_impl; [exact F|exact HPQ].
Qed.

Lemma v1_base_value_range script : -100 <= v1_base_value script <= 100.
Proof. unfold v1_base_value. destruct (fst _); lia. Qed.

Lemma v1_base_rate_format script :
  v1_base_rate script = format_rate (v1_base_value script).
Proof.
  unfold v1_base_rate, v1_base_value, should_compress_audio.
  destruct (Qgtb _ _); reflexivity.
Qed.

Lemma v1_opening_part_logging script assets_dir opening_ment voice l :
  logging (v1_request script assets_dir)
    (v1_opening_part opening_ment assets_dir voice
       (format_rate (v1_base_value script)) l).
Proof.
  unfold v1_opening_part. destruct (nonempty opening_ment); [|apply logging_ret].
  apply logging_bind.
  - eapply logging_weaken;
      [|apply generate_azure_tts_logging, v1_base_value_range].
    intros q [Hp (t & _ & Hr)]. left. split; [left; exact Hp|exact Hr].
  - intros d. destruct (Qgtb d 0); [|apply logging_ret].
    apply logging_bind; [apply logging_os_path_exists|].
    intros [|]; [|apply logging_ret].
    apply logging_bind; [apply logging_from_file|].
    intros clip. apply logging_ret.
Qed.

Lemma v1_closing_part_logging script assets_dir closing_ment voice l :
  logging (v1_request script assets_dir)
    (v1_closing_part closing_ment assets_dir voice
       (format_rate (v1_base_value script)) l).
Proof.
  unfold v1_closing_part. destruct (nonempty closing_ment); [|apply logging_ret].
  apply logging_bind.
  - eapply logging_weaken;
      [|apply generate_azure_tts_logging, v1_base_value_range].
    intros q [Hp (t & _ & Hr)]. left. split; [right; exact Hp|exact Hr].
  - intros d. destruct (Qgtb d 0); [|apply logging_ret].
    apply logging_bind; [apply logging_os_path_exists|].
    intros [|]; [|apply logging_ret].
    apply logging_bind; [apply logging_from_file|].
    intros clip. apply logging_ret.
Qed.

Lemma v1_segment_step_logging script assets_dir voice idx seg l :
  v1_segments_of script !! idx = Some seg ->
  logging (v1_request script assets_dir)
    (v1_segment_step assets_dir voice (format_rate (v1_base_value script))
       idx seg l).
Proof.
  intros Hseg. unfold v1_segment_step.
  destruct (negb (nonempty (default [] (ko seg)))); [apply logging_ret|].
  apply logging_bind.
  - eapply logging_weaken;
      [|apply generate_azure_tts_logging, v1_base_value_range].
    intros q [Hp (t & Hg & Hr)]. right. exists idx, seg, t. auto.
  - intros d. destruct (Qgtb d 0); [|apply logging_ret].
    apply logging_bind; [apply logging_os_path_exists|].
    intros [|]; [|apply logging_ret].
    apply logging_bind; [apply logging_from_file|].
    intros clip. apply logging_ret.
Qed.

Lemma v1_segment_loop_logging script assets_dir voice idx segments l :
  (forall i seg, segments !! i = Some seg ->
                 v1_segments_of script !! (idx + i)%nat = Some seg) ->
  logging (v1_request script assets_dir)
    (v1_segment_loop assets_dir voice (format_rate (v1_base_value script))
       idx segments l).
Proof.
  revert idx l. induction segments as [|seg rest IH]; intros idx l Hsub; simpl.
  - apply logging_ret.
  - apply logging_bind.
    + apply v1_segment_step_logging.
      specialize (Hsub 0%nat seg eq_refl). rewrite Nat.add_0_r in Hsub.
      exact Hsub.
    + intros l1. apply IH. intros i s Hi.
      specialize (Hsub (S i) s Hi).
      replace (S idx + i)%nat with (idx + S i)%nat by lia. exact Hsub.
Qed.

(** The rates of video 1. The base rate is the flat compression rate
    when the variant is flagged for compression and the configured rate
    when it is not. Every invocation of a speech engine made for the
    opening or the closing line uses the base rate as it is. Every
    invocation made for a content segment uses the base rate plus the
    bonus of the length tier of that segment's own text, clamped to
    [-50, +50]. *)
Lemma video1_rates (script : news_script) (assets_dir : str)
    (w : world) :
  let flagged :=
    fst (should_compress_audio (v1_total_text script) TIKTOK_MAX_DURATION) in
  v1_base_rate script = (if flagged then lit "+15%" else lit "-10%")
  /\ v1_base_value script = (if flagged then 15 else -10)
  /\ logs (fun q => v1_ment_request script assets_dir q
                    \/ v1_segment_request script assets_dir q)
       w (snd (_build_video1_news script assets_dir w)).
Proof.
  split; [|split; [reflexivity|]].
  - rewrite v1_base_rate_format. unfold v1_base_value.
    destruct (fst _); reflexivity.
  - revert w. change (logging (v1_request script assets_dir)
                        (_build_video1_news script assets_dir)).
    unfold _build_video1_news. rewrite v1_base_rate_format.
    destruct (negb (truthy (v1_segments_of script)) && _);
      [apply logging_ret|].
    apply logging_bind; [apply v1_opening_part_logging|]. intros l1.
    apply logging_bind.
    { apply v1_segment_loop_logging. intros i seg Hi. exact Hi. }
    intros l2.
    apply logging_bind; [apply v1_closing_part_logging|]. intros l3.
    unfold v1_combined_part.
    destruct (0 <? audio_len (l1_combined_audio l3)); [|apply logging_ret].
    apply logging_bind; [apply logging_export|]. intros _.
    apply logging_bind; [apply logging_get_audio_duration|]. intros d.
    apply logging_ret.
Qed.

End Video1Rates.

(** ** Total duration of a variant *)

(** One step of the inversion of a command that returned. *)
Ltac step_inv :=
  match goal with
  | E : bind _ _ _ = (Ok _, _) |- _ =>
      apply bind_inv in E as [(? & ? & ? & E)|(? & _ & [=])]
  | E : ret _ _ = (_, _) |- _ => unfold ret in E; injection E as <- <-
  | E : (if ?b then _ else _) _ = (_, _) |- _ => destruct b eqn:?
  end.

Section TotalDuration.
Context `{Externals}.

Lemma v1_opening_part_combined opening_ment assets_dir voice base_rate l w l' w' :
  v1_opening_part opening_ment assets_dir voice base_rate l w = (Ok l', w') ->
  v1_combined_audio (l1_result l') = v1_combined_audio (l1_result l).
Proof.
  unfold v1_opening_part. intros E. repeat step_inv; reflexivity.
Qed.

Lemma v1_closing_part_combined closing_ment assets_dir voice base_rate l w l' w' :
  v1_closing_part closing_ment assets_dir voice base_rate l w = (Ok l', w') ->
  v1_combined_audio (l1_result l') = v1_combined_audio (l1_result l).
Proof.
  unfold v1_closing_part. intros E. repeat step_inv; reflexivity.
Qed.

Lemma v1_segment_loop_combined assets_dir voice base_rate idx segments l w l' w' :
  v1_segment_loop assets_dir voice base_rate idx segments l w = (Ok l', w') ->
  v1_combined_audio (l1_result l') = v1_combined_audio (l1_result l).
Proof.
  revert idx l w. induction segments as [|seg rest IH]; intros idx l w E; simpl in E.
  - step_inv. reflexivity.
  - step_inv. apply IH in E. rewrite E.
    match goal with E1 : v1_segment_step _ _ _ _ _ _ _ = _ |- _ =>
      unfold v1_segment_step in E1; repeat step_inv; reflexivity end.
Qed.

(** Video 1 reports what it measured on the export: when it exports a
    combined file, its total duration is the duration read back from
    that file, rounded to three decimals. *)
Lemma video1_reports_measured_export script assets_dir w r w' path :
  _build_video1_news script assets_dir w = (Ok r, w') ->
  v1_combined_audio r = Some path ->
  exists d,
    get_audio_duration (v1_combined_path assets_dir) w' = (Ok d, w')
    /\ v1_total_duration r = round d 3.
Proof.
  unfold _build_video1_news.
  destruct (negb (truthy (v1_segments_of script)) && _).
  { intros [= <- <-]. discriminate. }
  intros E.
  apply bind_inv in E as [(l1 & w1 & E1 & E)|(e & _ & [=])].
  apply bind_inv in E as [(l2 & w2 & E2 & E)|(e & _ & [=])].
  apply bind_inv in E as [(l3 & w3 & E3 & E)|(e & _ & [=])].
  apply v1_opening_part_combined in E1.
  apply v1_segment_loop_combined in E2.
  apply v1_closing_part_combined in E3.
  unfold v1_combined_part in E.
  destruct (0 <? audio_len (l1_combined_audio l3)).
  - apply bind_inv in E as [(u & w4 & _ & E)|(e & _ & [=])].
    apply bind_inv in E as [(d & w5 & Eg & E)|(e & _ & [=])].
    injection E as <- <-. intros _.
    pose proof Eg as Eg'. apply get_audio_duration_inv in Eg' as [-> _].
    exists d. split; [exact Eg|reflexivity].
  - injection E as <- <-. simpl. rewrite E3, E2, E1. simpl. discriminate.
Qed.

End TotalDuration.

(** Video 1 on the example of the specification: an opening of 2.0 s, a
    closing of 3.0 s and two silences of 0.3 s add up to 5.6 s, the
    export measures 5.65 s, and 5.65 s is reported. *)
Lemma video1_reports_measured_example :
  let result := _build_video1_news (H := studio) short_news_script
                  (lit "assets") empty_world in
  match fst result with
  | Ok r => (v1_total_duration r == 113 # 20)%Q
  | Raise _ => False
  end
  /\ (audio_len <$> files (snd result) !! v1_combined_path (lit "assets"))
     = Some 5600.
Proof. vm_compute. split; reflexivity. Qed.

(** C2, the code at the failing input. The deep-dive script has one
    segment of 2.0 s; the combined audio, the segment and a pause of
    0.5 s, is exported, and the exported file measures 2.55 s; the total
    duration reported is 2.5 s, the sum of the parts, not the duration
    of the export. *)
Theorem C2_deep_dive_reports_sum_of_parts :
  let result := _build_video5_deep_dive (H := studio)
                  (Some short_deep_dive_script) (lit "assets") empty_world in
  match fst result with
  | Ok r => (v5_total_duration r == 5 # 2)%Q
            /\ v5_combined_audio r = Some (lit "/assets/v5_deep_dive.mp3")
  | Raise _ => False
  end
  /\ match fst (get_audio_duration (H := studio)
                  (v5_combined_path (lit "assets")) (snd result)) with
     | Ok d => (d == 51 # 20)%Q
     | Raise _ => False
     end.
Proof. vm_compute. repeat split. Qed.

(** ** Rounding *)



Lemma round_half_even_lower q :
  (q - (1 # 2) <= inject_Z (round_half_even q))%Q.
Proof.
  unfold round_half_even.
  pose proof (Qlt_floor q) as Hf.
  rewrite inject_Z_plus in Hf. change (inject_Z 1) with 1%Q in Hf.
  destruct (Qcompare_spec (q - inject_Z (Qfloor q)) (1 # 2)) as [E|L|G].
  - destruct (Z.even (Qfloor q)); [lra|].
    rewrite inject_Z_plus. change (inject_Z 1) with 1%Q. lra.
  - lra.
  - rewrite inject_Z_plus. change (inject_Z 1) with 1%Q. lra.
Qed.









(** ** Timeline of the deep dive *)



Lemma end_offset_lower start durations :
  Forall (fun d => (0 < d)%Q) durations ->
  (start <= end_offset start durations)%Q.
Proof.
  intros Hd. revert start.
  induction Hd as [|d rest Hpos _ IH]; intros start; simpl; [lra|].
  specialize (IH (start + d + (1 # 2))%Q). lra.
Qed.



Section DeepDiveTimeline.
Context `{Externals}.

Lemma deep_dive_rate_accepted rate t :
  deep_dive_rate rate -> exists final, final_rate t rate true = Ok final.
Proof.
  intros [->| ->]; rewrite final_rate_format by lia; eauto.
Qed.

(** One call of [process_segment] returns, and either leaves the shared
    variables as they are or records one segment with a positive
    duration: the timestamp is the running offset before the segment,
    rounded to whole seconds, and the offset advances by the duration
    and the pause. *)
Lemma process_segment_step assets_dir section_name ko_text vi_text voice rate
    l w :
  deep_dive_rate rate ->
  exists l' w',
    process_segment assets_dir section_name ko_text vi_text voice rate l w
      = (Ok l', w')
    /\ (l' = l
        \/ exists d,
             (0 < d)%Q
             /\ timestamps l' =
                  timestamps l ++
                    [ {| ts_section := section_name;
                         start_sec := round (total_duration l) 0;
                         ts_label := _get_section_label section_name |} ]
             /\ total_duration l' = (total_duration l + d + (1 # 2))%Q
             /\ map dseg_duration (result_segments l') =
                  map dseg_duration (result_segments l) ++ [round d 3]).
Proof.
  intros Hrate. unfold process_segment.
  destruct (negb (nonempty ko_text) || negb (nonempty (strip ko_text))).
  { exists l, w. split; [reflexivity|left; reflexivity]. }
  set (seg_path := os_path_join assets_dir _).
  unfold generate_azure_tts_async.
  destruct (generate_azure_tts WorkerThread ko_text voice seg_path rate true w)
    as [r w1] eqn:E.
  pose proof E as E'.
  apply generate_azure_tts_spec in E' as [_ (d & -> & Hm)].
  2:{ intros t _. apply deep_dive_rate_accepted, Hrate. }
  unfold bind at 1. rewrite E.
  destruct (Qle_bool d 0) eqn:Hd.
  { exists l, w1. split; [reflexivity|left; reflexivity]. }
  assert (Hpos : (0 < d)%Q).
  { apply Qnot_le_lt. intros Hle. apply Qle_bool_iff in Hle. congruence. }
  destruct (Hm Hpos) as [[clip Hclip] _].
  unfold bind, os_path_exists, from_file.
  rewrite bool_decide_eq_true_2 by (rewrite Hclip; eauto).
  cbv beta iota zeta. rewrite Hclip.
  eexists _, w1. split; [reflexivity|]. right. exists d. simpl.
  split; [exact Hpos|]. split; [reflexivity|]. split; [reflexivity|].
  rewrite map_app. reflexivity.
Qed.

(** The calls of a deep dive, one after the other, follow the running
    offsets of the durations they record. *)
Lemma run_calls_timeline assets_dir cs l w :
  Forall (fun c => deep_dive_rate (call_rate c)) cs ->
  exists l' w' ds,
    run_calls assets_dir cs l w = (Ok l', w')
    /\ Forall (fun d => (0 < d)%Q) ds
    /\ map start_sec (timestamps l') =
         map start_sec (timestamps l) ++
           map (fun o => round o 0) (running_offsets (total_duration l) ds)
    /\ total_duration l' = end_offset (total_duration l) ds
    /\ map dseg_duration (result_segments l') =
         map dseg_duration (result_segments l) ++ map (fun d => round d 3) ds.
Proof.
  intros Hcs. revert l w.
  induction Hcs as [|c rest Hc _ IH]; intros l w; simpl.
  - exists l, w, []. simpl. rewrite !app_nil_r. auto.
  - unfold run_call.
    destruct (process_segment_step assets_dir (call_section c) (call_ko c)
                (call_vi c) (call_voice c) (call_rate c) l w Hc)
      as (l1 & w1 & E & Hstep).
    destruct (IH l1 w1) as (l' & w' & ds & Er & Hds & Hts & Htot & Hseg).
    unfold bind. rewrite E.
    destruct Hstep as [->|(d & Hd & Ht1 & Htot1 & Hseg1)].
    + exists l', w', ds. auto.
    + exists l', w', (d :: ds). split; [exact Er|].
      split; [constructor; assumption|].
      rewrite Hts, Htot, Hseg, Ht1, Htot1, Hseg1, map_app. simpl.
      rewrite <- !app_assoc. auto.
Qed.

End DeepDiveTimeline.

Ltac rate_list :=
  repeat first
    [ apply List.Forall_nil
    | apply List.Forall_cons;
      [first [left; reflexivity | right; reflexivity]|] ].

Lemma paragraph_calls_rates idx paragraphs :
  Forall (fun c => deep_dive_rate (call_rate c)) (paragraph_calls idx paragraphs).
Proof.
  revert idx. induction paragraphs as [|para rest IH]; intros idx; simpl.
  - constructor.
  - apply Forall_app. split; [|apply IH].
    destruct (nonempty _); rate_list.
Qed.

Lemma item_calls_rates (prefix : str) (items : list dd_item) :
  Forall (fun c => deep_dive_rate (call_rate c))
    (flat_map (item_call prefix) items).
Proof.
  induction items as [|item rest IH]; simpl; [constructor|].
  apply Forall_app. split; [|exact IH].
  unfold item_call. destruct (nonempty _); rate_list.
Qed.

(** Every rate that the deep dive passes on is "-5%" or "+0%". *)
Lemma deep_dive_calls_rates script :
  Forall (fun c => deep_dive_rate (call_rate c)) (deep_dive_calls script).
Proof.
  unfold deep_dive_calls. repeat (apply Forall_app; split).
  - unfold opening_calls. destruct (dd_opening_section script); rate_list.
  - unfold news_calls. destruct (dd_news_section script); rate_list.
  - unfold transition_calls. destruct (dd_transition_section script);
      rate_list.
  - unfold exam_calls. destruct (dd_exam_section script); rate_list.
  - unfold essay_calls. destruct (dd_essay_section script); [|constructor].
    apply Forall_app. split; [|apply paragraph_calls_rates].
    destruct (nonempty _); rate_list.
  - unfold vocab_calls. destruct (dd_vocab_section script); [|constructor].
    repeat (apply Forall_app; split); try apply item_calls_rates.
    destruct (nonempty _); rate_list.
  - unfold closing_calls. destruct (dd_closing_section script); rate_list.
Qed.


Section DeepDiveTimestamps.
Context `{Externals}.


End DeepDiveTimestamps.


(** ** Rates of the other variants *)

Lemma v2_base_value_range script : -100 <= v2_base_value script <= 100.
Proof. unfold v2_base_value. destruct (fst _); lia. Qed.

Lemma v2_base_rate_value script :
  v2_base_rate script = format_rate (v2_base_value script).
Proof.
  unfold v2_base_rate, v2_base_value, should_compress_audio.
  destruct (Qgtb _ _); reflexivity.
Qed.

Lemma quiz_base_rate_value script k :
  exists z, -100 <= z <= 100 /\ quiz_base_rate script k = format_rate z.
Proof.
  unfold quiz_base_rate, should_compress_audio.
  destruct (Qgtb _ _); [exists 15; split; [lia|reflexivity]|].
  destruct k; [exists (-10)|exists 0..]; (split; [lia|reflexivity]).
Qed.

Section VariantRates.
Context `{Externals}.

Lemma v2_opening_part_logging script assets_dir opening_ment voice l :
  logging (v2_request script assets_dir)
    (v2_opening_part opening_ment assets_dir voice
       (format_rate (v2_base_value script)) l).
Proof.
  unfold v2_opening_part. destruct (nonempty opening_ment); [|apply logging_ret].
  apply logging_bind.
  - eapply logging_weaken;
      [|apply generate_azure_tts_logging, v2_base_value_range].
    intros q [Hp (t & _ & Hr)]. left. split; [left; exact Hp|exact Hr].
  - intros d. destruct (Qgtb d 0); [|apply logging_ret].
    apply logging_bind; [apply logging_os_path_exists|].
    intros [|]; [|apply logging_ret].
    apply logging_bind; [apply logging_from_file|].
    intros clip. apply logging_ret.
Qed.

Lemma v2_closing_part_logging script assets_dir closing_ment voice l :
  logging (v2_request script assets_dir)
    (v2_closing_part closing_ment assets_dir voice
       (format_rate (v2_base_value script)) l).
Proof.
  unfold v2_closing_part. destruct (nonempty closing_ment); [|apply logging_ret].
  apply logging_bind.
  - eapply logging_weaken;
      [|apply generate_azure_tts_logging, v2_base_value_range].
    intros q [Hp (t & _ & Hr)]. left. split; [right; exact Hp|exact Hr].
  - intros d. destruct (Qgtb d 0); [|apply logging_ret].
    apply logging_bind; [apply logging_os_path_exists|].
    intros [|]; [|apply logging_ret].
    apply logging_bind; [apply logging_from_file|].
    intros clip. apply logging_ret.
Qed.

Lemma v2_part_step_logging script assets_dir voice count idx part l :
  v2_parts_of script !! idx = Some part ->
  logging (v2_request script assets_dir)
    (v2_part_step assets_dir voice (format_rate (v2_base_value script))
       count idx part l).
Proof.
  intros Hpart. unfold v2_part_step. cbv zeta.
  destruct (negb (nonempty (default [] (pt_ko part)))); [apply logging_ret|].
  apply logging_bind.
  - eapply logging_weaken;
      [|apply generate_azure_tts_logging, v2_base_value_range].
    intros q [Hp (t & Hg & Hr)]. right. exists idx, part, t. auto.
  - intros d. destruct (Qgtb d 0); [|apply logging_ret].
    apply logging_bind; [apply logging_os_path_exists|].
    intros [|]; [|apply logging_ret].
    apply logging_bind; [apply logging_from_file|].
    intros clip. destruct (Z.of_nat idx <? Z.of_nat count - 1);
      apply logging_ret.
Qed.

Lemma v2_part_loop_logging script assets_dir voice count idx parts l :
  (forall i part, parts !! i = Some part ->
                  v2_parts_of script !! (idx + i)%nat = Some part) ->
  logging (v2_request script assets_dir)
    (v2_part_loop assets_dir voice (format_rate (v2_base_value script))
       count idx parts l).
Proof.
  revert idx l. induction parts as [|part rest IH]; intros idx l Hsub; simpl.
  - apply logging_ret.
  - apply logging_bind.
    + apply v2_part_step_logging.
      specialize (Hsub 0%nat part eq_refl). rewrite Nat.add_0_r in Hsub.
      exact Hsub.
    + intros l1. apply IH. intros i s Hi.
      specialize (Hsub (S i) s Hi).
      replace (S idx + i)%nat with (idx + S i)%nat by lia. exact Hsub.
Qed.

(** Video 2 asks the engines what video 1 does: the lines at the base
    rate, the parts at the base rate plus the bonus of their tier. *)
Lemma video2_rates script assets_dir :
  logging (v2_request script assets_dir)
    (_build_video2_outline script assets_dir).
Proof.
  unfold _build_video2_outline. cbv zeta. rewrite v2_base_rate_value.
  destruct (negb (truthy (v2_parts_of script)) && _); [apply logging_ret|].
  apply logging_bind; [apply v2_opening_part_logging|]. intros l1.
  apply logging_bind.
  { apply v2_part_loop_logging. intros i part Hi. exact Hi. }
  intros l2.
  apply logging_bind; [apply v2_closing_part_logging|]. intros l3.
  unfold v2_combined_part. cbv zeta.
  destruct (0 <? audio_len (l2_combined_audio l3)); [|apply logging_ret].
  apply logging_bind; [apply logging_export|]. intros _.
  apply logging_bind; [apply logging_get_audio_duration|]. intros d.
  apply logging_ret.
Qed.

(** The secondary engine, awaited by the quiz, is given the rate as it
    is. *)
Lemma tts_to_segment_logging text voice rate :
  logging (fun q => request_rate q = rate) (_tts_to_segment text voice rate).
Proof.
  unfold _tts_to_segment.
  destruct (negb (nonempty text) || negb (nonempty (strip text)));
    [apply logging_ret|].
  apply logging_bind; [intros w; apply logs_refl|]. intros w0.
  apply logging_bind.
  { intros w. unfold save.
    destruct (communicate_save _ _); simpl;
      (eexists [_]; split; [reflexivity|]; repeat constructor). }
  intros _.
  apply logging_bind; [apply logging_from_file|]. intros segment.
  apply logging_bind; [apply logging_os_path_exists|]. intros present.
  apply logging_bind; [|intros _; apply logging_ret].
  destruct present; [|apply logging_ret].
  intros w. apply logs_same_calls. reflexivity.
Qed.

Lemma quiz_ment_logging script k text voice path :
  logging (quiz_request script k)
    (generate_azure_tts EventLoopThread text voice path
       (quiz_base_rate script k) false).
Proof.
  destruct (quiz_base_rate_value script k) as (z & Hz & E).
  unfold quiz_request. rewrite E.
  eapply logging_weaken; [|apply generate_azure_tts_logging, Hz].
  intros q [_ (t & _ & Hr)]. exact Hr.
Qed.

(** A quiz gives every text to the engines at the base rate. *)
Lemma quiz_rates script assets_dir k :
  logging (quiz_request script k) (_build_quiz_audio script assets_dir k).
Proof.
  unfold _build_quiz_audio. cbv zeta.
  destruct (negb (nonempty _)); [apply logging_ret|].
  apply logging_bind.
  { unfold quiz_opening_part. destruct (nonempty _); [|apply logging_ret].
    apply logging_bind; [apply quiz_ment_logging|].
    intros d. destruct (Qgtb d 0); [|apply logging_ret].
    apply logging_bind; [apply logging_os_path_exists|].
    intros [|]; [|apply logging_ret].
    apply logging_bind; [apply logging_from_file|].
    intros clip. apply logging_ret. }
  intros l1.
  apply logging_bind.
  { unfold quiz_question_part. cbv zeta.
    apply logging_bind; [apply tts_to_segment_logging|]. intros q_audio.
    apply logging_bind; [apply tts_to_segment_logging|]. intros opt_audio.
    apply logging_bind; [apply logging_export|]. intros _.
    apply logging_bind; [apply logging_get_audio_duration|]. intros d.
    apply logging_ret. }
  intros l2.
  apply logging_bind.
  { unfold quiz_answer_part. cbv zeta.
    apply logging_bind; [apply tts_to_segment_logging|]. intros ans_audio.
    apply logging_bind; [apply tts_to_segment_logging|]. intros expl_audio.
    apply logging_bind; [apply logging_export|]. intros _.
    apply logging_bind; [apply logging_get_audio_duration|]. intros d.
    apply logging_ret. }
  intros l3.
  apply logging_bind.
  { unfold quiz_closing_part. destruct (nonempty _); [|apply logging_ret].
    apply logging_bind; [apply quiz_ment_logging|].
    intros d. destruct (Qgtb d 0); [|apply logging_ret].
    apply logging_bind; [apply logging_os_path_exists|].
    intros [|]; [|apply logging_ret].
    apply logging_bind; [apply logging_from_file|].
    intros clip. apply logging_ret. }
  intros l4. unfold quiz_combined_part. cbv zeta.
  apply logging_bind; [apply logging_export|]. intros _.
  apply logging_bind; [apply logging_get_audio_duration|]. intros d.
  apply logging_ret.
Qed.

Lemma run_calls_logging script assets_dir cs l :
  (forall c, In c cs -> In c (deep_dive_calls script)) ->
  logging (deep_dive_request script) (run_calls assets_dir cs l).
Proof.
  revert l. induction cs as [|c rest IH]; intros l Hsub; simpl.
  - apply logging_ret.
  - apply logging_bind; [|intros l1; apply IH; intros c' Hc'; apply Hsub;
                          right; exact Hc'].
    unfold run_call, process_segment, generate_azure_tts_async.
    destruct (negb (nonempty (call_ko c)) || _); [apply logging_ret|].
    assert (Hc : In c (deep_dive_calls script)) by (apply Hsub; left; reflexivity).
    pose proof (deep_dive_calls_rates script) as Hrates.
    rewrite List.Forall_forall in Hrates. specialize (Hrates c Hc).
    assert (Hz : exists z, (z = -5 \/ z = 0) /\ call_rate c = format_rate z).
    { destruct Hrates as [E|E]; [exists (-5)|exists 0]; auto. }
    destruct Hz as (z & Hz & E). rewrite E.
    apply logging_bind.
    + eapply logging_weaken;
        [|apply generate_azure_tts_logging; destruct Hz; lia].
      intros q [_ (t & Hg & Hr)]. exists c, t, z. auto.
    + intros d. destruct (Qle_bool d 0); [apply logging_ret|].
      apply logging_bind; [apply logging_os_path_exists|].
      intros [|]; [|apply logging_ret].
      apply logging_bind; [apply logging_from_file|].
      intros clip. apply logging_ret.
Qed.

(** The deep dive has no compression check: each segment is given to
    the engines at the rate of its section plus the bonus of its tier. *)
Lemma deep_dive_rates script assets_dir :
  logging (deep_dive_request script)
    (_build_video5_deep_dive (Some script) assets_dir).
Proof.
  unfold _build_video5_deep_dive.
  apply logging_bind; [apply run_calls_logging; auto|]. intros l.
  apply logging_bind; [|intros _; apply logging_ret].
  destruct (0 <? audio_len (combined_audio l));
    [apply logging_export|apply logging_ret].
Qed.

(** C3, as amended. The variants with a compression check are videos 1
    to 4; in each the base rate is the flat compression rate +15% when
    the variant is flagged for compression and the configured rate when
    it is not. In videos 1 and 2 every invocation of a speech engine
    made for the opening or the closing line uses the base rate as it
    is, and every invocation made for a content segment uses the base
    rate plus the bonus of the length tier of that segment's own text,
    clamped to [-50, +50]: the tier bonus is added on top of the
    compression rate, not bypassed. In a quiz every invocation uses the
    base rate as it is, flagged or not: no text of a quiz gets a tier
    bonus. The deep dive has no compression check; every invocation
    uses the rate of its section plus the tier bonus of its own text,
    clamped. *)
Theorem C3_rates_of_the_variants (news : news_script) (outline : outline_script)
    (quiz : quiz_script) (k : video_key) (deep_dive : deep_dive_script)
    (assets_dir : str) (w : world) :
  (let flagged :=
     fst (should_compress_audio (v1_total_text news) TIKTOK_MAX_DURATION) in
   v1_base_rate news = (if flagged then lit "+15%" else lit "-10%")
   /\ v1_base_value news = (if flagged then 15 else -10)
   /\ logs (fun q => v1_ment_request news assets_dir q
                     \/ v1_segment_request news assets_dir q)
        w (snd (_build_video1_news news assets_dir w)))
  /\ (let flagged :=
        fst (should_compress_audio (v2_total_text outline)
               TIKTOK_MAX_DURATION) in
      v2_base_rate outline = (if flagged then lit "+15%" else lit "+0%")
      /\ v2_base_value outline = (if flagged then 15 else 0)
      /\ logs (fun q => v2_ment_request outline assets_dir q
                        \/ v2_part_request outline assets_dir q)
           w (snd (_build_video2_outline outline assets_dir w)))
  /\ (let flagged :=
        fst (should_compress_audio (quiz_total_text quiz)
               TIKTOK_MAX_DURATION) in
      quiz_base_rate quiz k
      = (if flagged then lit "+15%" else cfg_rate (_VOICE_CFG k))
      /\ logs (fun q => request_rate q = quiz_base_rate quiz k)
           w (snd (_build_quiz_audio quiz assets_dir k w)))
  /\ logs (deep_dive_request deep_dive)
       w (snd (_build_video5_deep_dive (Some deep_dive) assets_dir w)).
Proof.
  split; [|split; [|split]].
  - apply video1_rates.
  - split; [|split; [reflexivity|apply video2_rates]].
    rewrite v2_base_rate_value. unfold v2_base_value.
    destruct (fst _); reflexivity.
  - split; [|apply quiz_rates].
    unfold quiz_base_rate, should_compress_audio.
    destruct (Qgtb _ _); reflexivity.
  - apply deep_dive_rates.
Qed.

End VariantRates.

(** C3, the claim as stated fails. The news script and the outline are
    over budget, so both variants are flagged for compression; their
    opening and closing lines are synthesized at +15%, but the content
    segment of 300 characters is synthesized at +30%: its tier bonus of
    15 is added to the compression rate. The quiz is within budget, so
    it is not flagged; its question of 60 characters is synthesized at
    the configured +0%, like every other text of the quiz (each pair is
    the length of a text and the rate it is given), although the
    dynamic rate of that text is +10%. *)
Lemma C3_tier_bonus_added_or_not_applied :
  (fst (should_compress_audio (v1_total_text long_news_script)
          TIKTOK_MAX_DURATION) = true
   /\ map request_rate
        (calls (snd (_build_video1_news (H := studio) long_news_script
                       (lit "assets") empty_world)))
      = [lit "+15%"; lit "+30%"; lit "+15%"])
  /\ (fst (should_compress_audio (v2_total_text long_outline_script)
             TIKTOK_MAX_DURATION) = true
      /\ map request_rate
           (calls (snd (_build_video2_outline (H := studio)
                          long_outline_script (lit "assets") empty_world)))
         = [lit "+15%"; lit "+30%"; lit "+15%"])
  /\ (fst (should_compress_audio (quiz_total_text long_question_quiz_script)
             TIKTOK_MAX_DURATION) = false
      /\ _calculate_dynamic_rate (repeat 97%N 60) (lit "+0%")
         = Ok (lit "+10%")
      /\ map (fun q => (len (request_text q), request_rate q))
           (calls (snd (_build_quiz_audio (H := studio)
                          long_question_quiz_script (lit "assets") video_3
                          empty_world)))
         = [ (2, lit "+0%"); (60, lit "+0%"); (4, lit "+0%");
             (9, lit "+0%"); (4, lit "+0%"); (3, lit "+0%") ]).
Proof. vm_compute. repeat split. Qed.

(** ** The files of a quiz *)





(** Joining two relative names to one directory gives two paths. *)
Lemma os_path_join_inj a b b' :
  startswith b (lit "/") = false -> startswith b' (lit "/") = false ->
  os_path_join a b = os_path_join a b' -> b = b'.
Proof.
  unfold os_path_join. intros -> ->.
  destruct (negb (nonempty a) || endswith_char a 47); intros E.
  - apply app_inv_head in E. exact E.
  - apply app_inv_head in E. apply app_inv_head in E. exact E.
Qed.

Section QuizPaths.
Context `{Externals}.




End QuizPaths.



Section QuizClips.
Context `{Externals}.


End QuizClips.

Section QuizSequence.
Context `{Externals}.

(** ** The sequence of a quiz *)


Lemma same_files_but_trans paths w1 w2 w3 :
  same_files_but paths w1 w2 -> same_files_but paths w2 w3 ->
  same_files_but paths w1 w3.
Proof. intros F1 F2 p Hp Ht. rewrite F2, F1 by assumption. reflexivity. Qed.

Lemma same_files_but_more paths paths' w w' :
  paths ⊆ paths' -> same_files_but paths w w' -> same_files_but paths' w w'.
Proof.
  intros Hsub F p Hp Ht. apply F; [|exact Ht]. intros Hin. apply Hp, Hsub, Hin.
Qed.










End QuizSequence.



(** * Part III: further properties of the timing core *)

(** ** Rate controller *)

Lemma tier_bonus_mono n m : n <= m -> tier_bonus n <= tier_bonus m.
Proof.
  intros Hnm. unfold tier_bonus.
  repeat match goal with
         | |- context [?a <=? ?b] => destruct (Z.leb_spec a b)
         end; lia.
Qed.

Lemma tier_bonus_range n : 0 <= tier_bonus n <= 25.
Proof.
  unfold tier_bonus.
  repeat match goal with
         | |- context [?a <=? ?b] => destruct (Z.leb_spec a b)
         end; lia.
Qed.

Lemma clamp_mono a b : a <= b -> clamp a <= clamp b.
Proof. unfold clamp. lia. Qed.

(** X1. A longer text is never read more slowly: for one base rate, the
    rate that [_calculate_dynamic_rate] returns does not decrease when
    the stripped text gets longer. *)
Theorem dynamic_rate_monotone_in_length (t1 t2 : str) (plus : bool) (z : Z) :
  -100 <= z <= 100 ->
  len (strip t1) <= len (strip t2) ->
  exists v1 v2,
    _calculate_dynamic_rate t1 (signed_percentage plus z) = Ok (format_rate v1)
    /\ _calculate_dynamic_rate t2 (signed_percentage plus z)
       = Ok (format_rate v2)
    /\ v1 <= v2.
Proof.
  intros Hz Hlen.
  exists (clamp (z + tier_bonus (len (strip t1)))),
         (clamp (z + tier_bonus (len (strip t2)))).
  rewrite !calculate_dynamic_rate_signed
    by (apply str_of_int_percent_length, Hz).
  split; [reflexivity|]. split; [reflexivity|].
  apply clamp_mono. pose proof (tier_bonus_mono _ _ Hlen). lia.
Qed.

Lemma dynamic_rate_monotone_in_length_witness :
  exists v1 v2,
    _calculate_dynamic_rate (repeat 97%N 40) (signed_percentage true (-10))
      = Ok (format_rate v1)
    /\ _calculate_dynamic_rate (repeat 97%N 400) (signed_percentage true (-10))
       = Ok (format_rate v2)
    /\ v1 <= v2.
Proof.
  apply (dynamic_rate_monotone_in_length (repeat 97%N 40) (repeat 97%N 400)
           true (-10)).
  - lia.
  - vm_compute. discriminate.
Defined.

(** The rate that [_calculate_dynamic_rate] returns is itself a base
    rate that the function accepts: a second call on it returns, with
    the bonus of the second text added to the clamped value of the
    first call, and clamped again. *)
Theorem dynamic_rate_output_is_a_base_rate (t1 t2 : str) (plus : bool)
    (z : Z) :
  -100 <= z <= 100 ->
  exists r v,
    _calculate_dynamic_rate t1 (signed_percentage plus z) = Ok r
    /\ v = clamp (z + tier_bonus (len (strip t1)))
    /\ _calculate_dynamic_rate t2 r
       = Ok (format_rate (clamp (v + tier_bonus (len (strip t2))))).
Proof.
  intros Hz. eexists _, _.
  split; [apply calculate_dynamic_rate_signed, str_of_int_percent_length, Hz|].
  split; [reflexivity|].
  rewrite <- signed_percentage_format.
  apply calculate_dynamic_rate_signed, str_of_int_percent_length.
  pose proof (clamp_range (z + tier_bonus (len (strip t1)))). lia.
Qed.

Lemma dynamic_rate_output_is_a_base_rate_witness :
  exists r v,
    _calculate_dynamic_rate (repeat 97%N 400) (signed_percentage false 40)
      = Ok r
    /\ v = clamp (40 + tier_bonus (len (strip (repeat 97%N 400))))
    /\ _calculate_dynamic_rate (repeat 97%N 60) r
       = Ok (format_rate
               (clamp (v + tier_bonus (len (strip (repeat 97%N 60)))))).
Proof.
  apply (dynamic_rate_output_is_a_base_rate (repeat 97%N 400)
           (repeat 97%N 60) false 40).
  lia.
Defined.

(** ** Duration estimator *)

Lemma lstrip_spaces ws s :
  forallb isspace ws = true -> lstrip (ws ++ s) = lstrip s.
Proof.
  induction ws as [|c ws IH]; simpl; [reflexivity|].
  intros Hc. apply andb_true_iff in Hc as [-> Hws]. apply IH, Hws.
Qed.

Lemma lstrip_all_spaces ws : forallb isspace ws = true -> lstrip ws = [].
Proof.
  intros Hws. rewrite <- (app_nil_r ws). rewrite lstrip_spaces by exact Hws.
  reflexivity.
Qed.

Lemma forallb_rev {A} (f : A -> bool) l :
  forallb f (rev l) = forallb f l.
Proof.
  induction l as [|x l IH]; [reflexivity|].
  simpl. rewrite forallb_app, IH. simpl. rewrite andb_true_r, andb_comm.
  reflexivity.
Qed.

Lemma rstrip_spaces s ws :
  forallb isspace ws = true -> rstrip (s ++ ws) = rstrip s.
Proof.
  intros Hws. unfold rstrip. rewrite rev_app_distr, lstrip_spaces; [reflexivity|].
  rewrite forallb_rev. exact Hws.
Qed.

Lemma lstrip_app s u :
  lstrip (s ++ u) = if forallb isspace s then lstrip u else lstrip s ++ u.
Proof.
  induction s as [|c s IH]; simpl; [reflexivity|].
  destruct (isspace c); simpl; [exact IH|reflexivity].
Qed.

Lemma strip_padding ws text ws' :
  forallb isspace ws = true -> forallb isspace ws' = true ->
  strip (ws ++ text ++ ws') = strip text.
Proof.
  intros Hws Hws'. unfold strip.
  rewrite lstrip_spaces by exact Hws. rewrite lstrip_app.
  destruct (forallb isspace text) eqn:Ht.
  - rewrite (lstrip_all_spaces ws' Hws'), (lstrip_all_spaces text Ht).
    reflexivity.
  - apply rstrip_spaces, Hws'.
Qed.

(** X2. White space around a text does not count: padding the text with
    white space on either side changes neither the estimate of the
    reading time nor the decision to compress. *)
Theorem estimate_ignores_padding (ws text ws' : str) (budget : Q) :
  forallb isspace ws = true -> forallb isspace ws' = true ->
  (estimate_reading_time (ws ++ text ++ ws') 5
   == estimate_reading_time text 5)%Q
  /\ should_compress_audio (ws ++ text ++ ws') budget
     = should_compress_audio text budget.
Proof.
  intros Hws Hws'.
  assert (E : (estimate_reading_time (ws ++ text ++ ws') 5
               == estimate_reading_time text 5)%Q).
  { rewrite !estimate_reading_time_value, strip_padding by assumption.
    reflexivity. }
  split; [exact E|].
  unfold should_compress_audio, Qgtb.
  assert (Eb : Qle_bool (estimate_reading_time (ws ++ text ++ ws') 5) budget
               = Qle_bool (estimate_reading_time text 5) budget).
  { apply eq_true_iff_eq. rewrite !Qle_bool_iff, E. reflexivity. }
  rewrite Eb. reflexivity.
Qed.

Lemma estimate_ignores_padding_witness :
  (estimate_reading_time (lit "  " ++ lit "abc" ++ [10%N]) 5
   == estimate_reading_time (lit "abc") 5)%Q
  /\ should_compress_audio (lit "  " ++ lit "abc" ++ [10%N]) 55
     = should_compress_audio (lit "abc") 55.
Proof.
  apply (estimate_ignores_padding (lit "  ") (lit "abc") [10%N] 55);
    reflexivity.
Defined.

(** Under the budget of 55 seconds the decision is a threshold on
    the number of characters: a text is compressed exactly when more
    than 275 characters are left after stripping. *)
Theorem compression_threshold_in_characters (text : str) :
  should_compress_audio text TIKTOK_MAX_DURATION
  = if 275 <? len (strip text) then (true, TIKTOK_COMPRESS_RATE)
    else (false, lit "+0%").
Proof.
  destruct (Z.ltb_spec 275 (len (strip text))) as [Hlt|Hle].
  - apply should_compress_audio_true. unfold TIKTOK_MAX_DURATION.
    apply Qlt_shift_div_l; [reflexivity|].
    change (55 * 5)%Q with (inject_Z 275). rewrite <- Zlt_Qlt. exact Hlt.
  - apply should_compress_audio_false. unfold TIKTOK_MAX_DURATION.
    apply Qle_shift_div_r; [reflexivity|].
    change (55 * 5)%Q with (inject_Z 275). rewrite <- Zle_Qle. exact Hle.
Qed.

(** ** SSML *)

Lemma escape_char_cases c :
  (c = 38%N /\ escape_char c = lit "&amp;")
  \/ (c = 60%N /\ escape_char c = lit "&lt;")
  \/ (c = 62%N /\ escape_char c = lit "&gt;")
  \/ (c = 34%N /\ escape_char c = lit "&quot;")
  \/ (c = 39%N /\ escape_char c = lit "&apos;")
  \/ (c <> 38%N /\ markup_free c /\ escape_char c = [c]).
Proof.
  unfold escape_char, markup_free.
  destruct (N.eqb_spec c 38); [left; auto|].
  destruct (N.eqb_spec c 60); [right; left; auto|].
  destruct (N.eqb_spec c 62); [do 2 right; left; auto|].
  destruct (N.eqb_spec c 34); [do 3 right; left; auto|].
  destruct (N.eqb_spec c 39); [do 4 right; left; auto|].
  do 5 right. repeat split; assumption.
Qed.

Lemma replace_one old new c :
  replace old new [c] = if (c =? old)%N then new else [c].
Proof. unfold replace. simpl. apply app_nil_r. Qed.

Lemma replace_cons old new c s :
  replace old new (c :: s) = replace old new [c] ++ replace old new s.
Proof. apply (replace_app old new [c] s). Qed.

Lemma xml_escape_app a b : xml_escape (a ++ b) = xml_escape a ++ xml_escape b.
Proof. unfold xml_escape. rewrite !replace_app. reflexivity. Qed.

Lemma xml_escape_one c : xml_escape [c] = escape_char c.
Proof.
  destruct (escape_char_cases c)
    as [[-> E]|[[-> E]|[[-> E]|[[-> E]|[[-> E]|(H38 & (H60 & H62 & H34 & H39) & E)]]]]];
    rewrite E; try reflexivity.
  unfold xml_escape.
  repeat (rewrite replace_one;
          match goal with
          | |- context [(c =? ?k)%N] =>
              destruct (N.eqb_spec c k); [congruence|]
          end).
  reflexivity.
Qed.

(** Escaping works character by character. *)
Lemma xml_escape_charwise text : xml_escape text = flat_map escape_char text.
Proof.
  induction text as [|c text IH]; [reflexivity|].
  change (c :: text) with ([c] ++ text).
  rewrite xml_escape_app, xml_escape_one, IH. reflexivity.
Qed.

(** X3. The text that [_build_ssml] puts into the document holds none of
    the characters less-than, greater-than, double quote and apostrophe,
    whatever the text to synthesize: the text cannot close the element
    it stands in. *)
Theorem escaped_text_has_no_markup (text voice_name rate : str)
    (use_dynamic_rate : bool) (doc : ssml) :
  _build_ssml text voice_name rate use_dynamic_rate = Ok doc ->
  ssml_text doc = flat_map escape_char text
  /\ Forall markup_free (ssml_text doc).
Proof.
  unfold _build_ssml. destruct (final_rate _ _ _); [|discriminate].
  intros [= <-]. cbn [ssml_text]. rewrite xml_escape_charwise.
  split; [reflexivity|].
  induction text as [|c text IH]; [constructor|].
  simpl. apply Forall_app. split; [|exact IH].
  destruct (escape_char_cases c)
    as [[-> E]|[[-> E]|[[-> E]|[[-> E]|[[-> E]|(_ & Hc & E)]]]]];
    rewrite E;
    repeat first
      [ apply List.Forall_nil
      | apply List.Forall_cons;
        [first [exact Hc | unfold markup_free; repeat split; discriminate]|] ].
Qed.

Lemma escaped_text_has_no_markup_witness :
  exists doc,
    _build_ssml (lit "<a href='x'>") (lit "ko-KR-SunHiNeural") (lit "+0%") false
      = Ok doc
    /\ ssml_text doc = flat_map escape_char (lit "<a href='x'>")
    /\ Forall markup_free (ssml_text doc).
Proof.
  eexists. split; [reflexivity|].
  apply (escaped_text_has_no_markup (lit "<a href='x'>")
           (lit "ko-KR-SunHiNeural") (lit "+0%") false).
  reflexivity.
Defined.

Lemma escape_char_step c d x y :
  escape_char c ++ x = escape_char d ++ y -> c = d /\ x = y.
Proof.
  destruct (escape_char_cases c)
    as [[-> Ec]|[[-> Ec]|[[-> Ec]|[[-> Ec]|[[-> Ec]|(Hc & _ & Ec)]]]]];
  destruct (escape_char_cases d)
    as [[-> Ed]|[[-> Ed]|[[-> Ed]|[[-> Ed]|[[-> Ed]|(Hd & _ & Ed)]]]]];
  rewrite ?Ec, ?Ed; intros E; try discriminate E;
    try (apply app_inv_head in E; auto; fail);
    cbv in E; injection E as E1 E2; try congruence.
  auto.
Qed.

(** X4. Escaping loses nothing: two texts with the same escaped form are
    the same text. *)
Theorem xml_escape_injective (a b : str) :
  xml_escape a = xml_escape b -> a = b.
Proof.
  rewrite !xml_escape_charwise. revert b.
  induction a as [|c a IH]; intros [|d b]; simpl; intros E.
  - reflexivity.
  - exfalso. destruct (escape_char_cases d)
      as [[_ Ed]|[[_ Ed]|[[_ Ed]|[[_ Ed]|[[_ Ed]|(_ & _ & Ed)]]]]];
      rewrite Ed in E; discriminate E.
  - exfalso. destruct (escape_char_cases c)
      as [[_ Ec]|[[_ Ec]|[[_ Ec]|[[_ Ec]|[[_ Ec]|(_ & _ & Ec)]]]]];
      rewrite Ec in E; discriminate E.
  - apply escape_char_step in E as [-> E]. f_equal. apply IH, E.
Qed.

Lemma xml_escape_injective_witness :
  lit "a<b" = lit "a<b".
Proof.
  apply (xml_escape_injective (lit "a<b") (lit "a<b")). reflexivity.
Defined.

Lemma replace_deletes old s : Forall (fun c => c <> old) (replace old [] s).
Proof.
  induction s as [|c s IH]; [constructor|].
  rewrite replace_cons, replace_one.
  destruct (N.eqb_spec c old); [exact IH|]. constructor; assumption.
Qed.

Lemma startswith_one s c :
  startswith s [c] = true -> exists rest, s = c :: rest.
Proof.
  destruct s as [|d s]; [discriminate|].
  rewrite startswith_cons, startswith_nil, andb_true_r.
  intros E. apply N.eqb_eq in E. subst. eauto.
Qed.

(** X5. The rate attribute of the document always has the shape the
    speech service expects: a sign, then a value without a percent
    sign, then one percent sign; whatever the final rate is. *)
Theorem ssml_rate_shape (final : str) :
  exists sign value,
    ssml_rate final = sign :: value ++ lit "%"
    /\ (sign = 43%N \/ sign = 45%N)
    /\ Forall (fun c => c <> 37%N) value.
Proof.
  unfold ssml_rate.
  pose proof (replace_deletes 37 final) as Hv.
  set (rate_value := replace 37 [] final) in *.
  change (lit "+") with [43%N]. change (lit "-") with [45%N].
  destruct (startswith rate_value [43%N]) eqn:Hplus.
  - apply startswith_one in Hplus as [rest E]. rewrite E in *.
    exists 43%N, rest. simpl. split; [reflexivity|]. split; [auto|].
    inversion Hv; assumption.
  - destruct (startswith rate_value [45%N]) eqn:Hminus.
    + apply startswith_one in Hminus as [rest E]. rewrite E in *.
      exists 45%N, rest. simpl. split; [reflexivity|]. split; [auto|].
      inversion Hv; assumption.
    + exists 43%N, rate_value. simpl. auto.
Qed.

(** ** Synthesis adapter *)

Section AdapterFacts.
Context `{Externals}.

(** X6. A text that is blank after stripping is not synthesized: the
    adapter returns 0.0, invokes no engine and writes no file. *)
Theorem blank_text_is_not_synthesized (th : thread)
    (text voice path rate : str) (dyn : bool) (w : world) :
  strip text = [] ->
  generate_azure_tts th text voice path rate dyn w = (Ok 0%Q, w)
  /\ _tts_to_file text voice rate path w = (Ok 0%Q, w)
  /\ _tts_to_segment text voice rate w = (Ok [], w).
Proof.
  intros Hs. unfold generate_azure_tts, _tts_to_file, _tts_to_segment.
  rewrite Hs. simpl nonempty. rewrite orb_true_r. auto.
Qed.

(** A rate that [final_rate] rejects escapes the adapter, before any
    engine is invoked. *)
Lemma generate_azure_tts_rate_error th text voice path rate dyn t e w :
  nonempty text = true -> nonempty (strip text) = true ->
  vietnamese_guard text = Some t ->
  final_rate t rate dyn = Raise e ->
  generate_azure_tts th text voice path rate dyn w = (Raise e, w).
Proof.
  intros Hn Hs Hg Hf. unfold generate_azure_tts.
  rewrite Hn, Hs, Hg. simpl.
  assert (Hfb : fallback_with_rate th t voice path rate dyn w = (Raise e, w)).
  { unfold fallback_with_rate, bind, lift. rewrite Hf. reflexivity. }
  destruct (negb AZURE_TTS_AVAILABLE || negb (nonempty AZURE_SPEECH_KEY));
    [exact Hfb|].
  unfold try_except, bind, lift, _build_ssml. rewrite Hf. exact Hfb.
Qed.

(** X7. The [try]/[except] of the adapter does not cover the rate: with
    the dynamic rate switched on, a base rate that is not numeric makes
    the adapter raise [ValueError], and no engine has been invoked. *)
Theorem malformed_rate_escapes_the_adapter (th : thread)
    (text voice path rate : str) (t : str) (e : exn) (w : world) :
  nonempty text = true -> nonempty (strip text) = true ->
  vietnamese_guard text = Some t ->
  _calculate_dynamic_rate t rate = Raise e ->
  generate_azure_tts th text voice path rate true w = (Raise e, w).
Proof.
  intros Hn Hs Hg Hf.
  apply (generate_azure_tts_rate_error _ _ _ _ _ _ t); assumption.
Qed.

(** X8. With the dynamic rate switched off the adapter always returns
    a duration. It changes no file but its output file, and every
    engine invocation it makes is for the output file, at the rate it
    was given (for the primary engine, in the form of the rate
    attribute). *)
Theorem flat_rate_adapter_is_total (th : thread) (text voice path rate : str)
    (w : world) :
  exists d w',
    generate_azure_tts th text voice path rate false w = (Ok d, w')
    /\ (forall p, p <> path -> files w' !! p = files w !! p)
    /\ exists new,
         calls w' = calls w ++ new
         /\ Forall (fun q => request_path q = path
                             /\ request_rate q =
                                  match q with
                                  | AzureSpeak _ _ _ => ssml_rate rate
                                  | EdgeSave _ _ _ _ => rate
                                  end) new.
Proof.
  destruct (generate_azure_tts th text voice path rate false w)
    as [r w'] eqn:E.
  apply generate_azure_tts_spec in E as [[Hf (new & Hc & Hnew)] (d & -> & _)].
  2:{ intros t _. eexists. reflexivity. }
  exists d, w'. split; [reflexivity|]. split; [exact Hf|].
  exists new. split; [exact Hc|].
  eapply Forall_impl; [exact Hnew|].
  intros q [Hp (t & final & _ & [= <-] & Hr)]. auto.
Qed.

(** X9. A positive duration returned by the adapter is the duration of
    the output file: the file exists, and measuring it again gives the
    same duration. *)
Theorem positive_duration_is_measured (th : thread)
    (text voice path rate : str) (dyn : bool) (w : world) (d : Q)
    (w' : world) :
  generate_azure_tts th text voice path rate dyn w = (Ok d, w') ->
  (0 < d)%Q ->
  is_Some (files w' !! path)
  /\ get_audio_duration path w' = (Ok d, w').
Proof.
  intros E Hd.
  destruct (nonempty text) eqn:Hn.
  2:{ unfold generate_azure_tts in E. rewrite Hn in E.
      injection E as <- <-. exfalso. lra. }
  destruct (nonempty (strip text)) eqn:Hs.
  2:{ unfold generate_azure_tts in E. rewrite Hn, Hs in E.
      injection E as <- <-. exfalso. lra. }
  destruct (vietnamese_guard text) as [t|] eqn:Hg.
  2:{ unfold generate_azure_tts in E. rewrite Hn, Hs, Hg in E.
      injection E as <- <-. exfalso. lra. }
  destruct (final_rate t rate dyn) as [final|e] eqn:Hf.
  2:{ rewrite (generate_azure_tts_rate_error _ _ _ _ _ _ t e w Hn Hs Hg Hf)
        in E.
      discriminate. }
  apply generate_azure_tts_spec in E as [_ (d' & [= <-] & Hm)].
  - apply Hm, Hd.
  - intros t' Ht'. rewrite Hg in Ht'. injection Ht' as <-. eauto.
Qed.

(** X10. When the primary engine completes, the adapter makes this one
    invocation and no other: the document holds the escaped text and
    the final rate, the clip is at the output path, and the duration
    returned is the one measured there. *)
Theorem completed_synthesis_makes_one_call (th : thread)
    (text voice path rate : str) (dyn : bool) (t final : str) (ms : Z)
    (w : world) :
  nonempty text = true -> nonempty (strip text) = true ->
  vietnamese_guard text = Some t ->
  AZURE_TTS_AVAILABLE = true -> nonempty AZURE_SPEECH_KEY = true ->
  final_rate t rate dyn = Ok final ->
  speak_ssml (length (calls w)) (AzureSpeak path voice (ssml_of t voice final))
    = SynthesizingAudioCompleted ms ->
  exists d w',
    generate_azure_tts th text voice path rate dyn w = (Ok d, w')
    /\ calls w' = calls w ++ [AzureSpeak path voice (ssml_of t voice final)]
    /\ files w'
       = <[path := [Speech (AzureSpeak path voice (ssml_of t voice final)) ms]]>
           (files w)
    /\ get_audio_duration path w' = (Ok d, w').
Proof.
  intros Hn Hs Hg Ha Hk Hf Hsp. unfold generate_azure_tts.
  rewrite Hn, Hs, Hg, Ha, Hk. simpl.
  unfold try_except, bind at 1, lift, _build_ssml. rewrite Hf.
  unfold rbind. cbv beta iota. fold (ssml_of t voice final).
  unfold bind, speak. rewrite Hsp.
  set (w1 := write_file path _ _).
  destruct (get_audio_duration_reads path w1) as (d & Ed & _).
  rewrite Ed. exists d, w1. auto.
Qed.

(** X11. When the primary engine cancels, what the adapter does next
    depends on the thread it was called on. On a worker thread it falls
    back to the secondary engine once: the engine is given the stripped
    text, the voice name of the primary engine and the final rate as a
    plain string, and its clip is the output file. On the thread of the
    event loop, where the builders of videos 1 to 4 call it,
    [asyncio.run] refuses to start: the secondary engine is not
    invoked, no file is written and the adapter returns 0.0. *)
Theorem canceled_synthesis_falls_back_off_the_event_loop (th : thread)
    (text voice path rate : str) (dyn : bool) (t final : str) (ms : Z)
    (w : world) :
  nonempty text = true -> nonempty (strip text) = true ->
  vietnamese_guard text = Some t ->
  nonempty t = true -> nonempty (strip t) = true ->
  AZURE_TTS_AVAILABLE = true -> nonempty AZURE_SPEECH_KEY = true ->
  EDGE_TTS_AVAILABLE = true ->
  final_rate t rate dyn = Ok final ->
  speak_ssml (length (calls w)) (AzureSpeak path voice (ssml_of t voice final))
    = Canceled ->
  communicate_save (S (length (calls w)))
    (EdgeSave (strip t) voice final path) = Some ms ->
  exists d w',
    generate_azure_tts th text voice path rate dyn w = (Ok d, w')
    /\ match th with
       | WorkerThread =>
           calls w'
           = calls w ++ [ AzureSpeak path voice (ssml_of t voice final);
                          EdgeSave (strip t) voice final path ]
           /\ files w'
              = <[path := [Speech (EdgeSave (strip t) voice final path) ms]]>
                  (files w)
           /\ get_audio_duration path w' = (Ok d, w')
       | EventLoopThread =>
           d = 0%Q
           /\ calls w'
              = calls w ++ [AzureSpeak path voice (ssml_of t voice final)]
           /\ files w' = files w
       end.
Proof.
  intros Hn Hs Hg Hnt Hst Ha Hk He Hf Hsp Hsave. unfold generate_azure_tts.
  rewrite Hn, Hs, Hg, Ha, Hk. simpl.
  unfold try_except, bind at 1, lift, _build_ssml. rewrite Hf.
  unfold rbind. cbv beta iota. fold (ssml_of t voice final).
  unfold bind at 1, speak. rewrite Hsp.
  unfold fallback_with_rate, bind at 1, lift. rewrite Hf.
  unfold _fallback_edge_tts_sync. rewrite He. simpl negb. cbv iota.
  destruct th; unfold asyncio_run.
  { eexists _, _. split; [reflexivity|]. repeat split; reflexivity. }
  unfold _tts_to_file. rewrite Hnt, Hst. simpl.
  unfold try_except, bind, save.
  replace (length (calls (log_call (AzureSpeak path voice (ssml_of t voice final)) w)))
    with (S (length (calls w)))
    by (simpl; rewrite length_app; simpl; lia).
  rewrite Hsave.
  set (w1 := write_file path _ _).
  destruct (get_audio_duration_reads path w1) as (d & Ed & _).
  rewrite !Ed. exists d, w1. split; [reflexivity|].
  split; [|auto]. simpl. rewrite <- app_assoc. reflexivity.
Qed.

(** X12. A text in which the pattern finds Vietnamese and of which the
    cleaning leaves at most ten characters is skipped: 0.0, no
    invocation, no file. *)
Theorem mostly_vietnamese_text_is_skipped (th : thread)
    (text voice path rate : str) (dyn : bool) (w : world) :
  has_vietnamese text = true ->
  len (remove_vietnamese text) <= 10 ->
  generate_azure_tts th text voice path rate dyn w = (Ok 0%Q, w).
Proof.
  intros Hv Hlen. unfold generate_azure_tts.
  destruct (negb (nonempty text) || negb (nonempty (strip text)));
    [reflexivity|].
  unfold vietnamese_guard. rewrite Hv.
  destruct (Z.ltb_spec 10 (len (remove_vietnamese text))); [lia|].
  rewrite andb_false_r. reflexivity.
Qed.

(** X13. The fallback never raises, and without the secondary engine
    it returns 0.0 and leaves the world as it is. *)
Theorem fallback_never_raises (th : thread) (text voice path rate : str)
    (w : world) :
  exists d w',
    _fallback_edge_tts_sync th text voice path rate w = (Ok d, w')
    /\ if EDGE_TTS_AVAILABLE then True else d = 0%Q /\ w' = w.
Proof.
  destruct (_fallback_edge_tts_sync th text voice path rate w)
    as [r w'] eqn:E.
  pose proof E as E'.
  apply _fallback_edge_tts_sync_spec in E' as [_ (d & -> & _)].
  exists d, w'. split; [reflexivity|].
  unfold _fallback_edge_tts_sync in E.
  destruct EDGE_TTS_AVAILABLE; [exact I|].
  injection E as <- <-. split; reflexivity.
Qed.

(** X14. On a worker thread a failure of the secondary engine is
    swallowed before the fallback measures the output file: the
    duration returned is the duration of the file that was at the
    output path before, and it is 0.0 only when there was none or its
    duration is 0. On the thread of the event loop the fallback does
    not get that far: it returns 0.0 without invoking the engine and
    without measuring the old file. *)
Theorem failed_fallback_measures_the_old_file_off_the_event_loop
    (th : thread) (text voice path rate : str) (w : world) :
  EDGE_TTS_AVAILABLE = true ->
  nonempty text = true -> nonempty (strip text) = true ->
  communicate_save (length (calls w)) (EdgeSave (strip text) voice rate path)
    = None ->
  match th with
  | WorkerThread =>
      exists d,
        _fallback_edge_tts_sync th text voice path rate w
          = (Ok d, log_call (EdgeSave (strip text) voice rate path) w)
        /\ get_audio_duration path w = (Ok d, w)
  | EventLoopThread =>
      _fallback_edge_tts_sync th text voice path rate w = (Ok 0%Q, w)
  end.
Proof.
  intros He Hn Hs Hnone. unfold _fallback_edge_tts_sync, _tts_to_file.
  rewrite He, Hn, Hs. simpl.
  destruct th; unfold asyncio_run; [reflexivity|].
  unfold try_except, bind, save, ret. rewrite Hnone.
  set (w1 := log_call _ w).
  destruct (get_audio_duration_reads path w) as (d & Ed & _).
  exists d. split; [|exact Ed].
  unfold get_audio_duration in *. change (files w1) with (files w).
  destruct (files w !! path) as [audio|].
  - destruct MUTAGEN_AVAILABLE; [destruct (mp3_info_length audio)|];
      injection Ed as <-; reflexivity.
  - injection Ed as <-. reflexivity.
Qed.

End AdapterFacts.

Lemma blank_text_is_not_synthesized_witness :
  generate_azure_tts (H := studio) EventLoopThread (lit "  ")
    (lit "ko-KR-SunHiNeural") (lit "a.mp3") (lit "+0%") true empty_world
  = (Ok 0%Q, empty_world)
  /\ _tts_to_file (H := studio) (lit "  ") (lit "ko-KR-SunHiNeural")
       (lit "+0%") (lit "a.mp3") empty_world = (Ok 0%Q, empty_world)
  /\ _tts_to_segment (H := studio) (lit "  ") (lit "ko-KR-SunHiNeural")
       (lit "+0%") empty_world = (Ok [], empty_world).
Proof.
  apply (blank_text_is_not_synthesized (H := studio) EventLoopThread
           (lit "  ")).
  reflexivity.
Defined.

Lemma malformed_rate_escapes_the_adapter_witness :
  generate_azure_tts (H := studio) EventLoopThread (lit "hello")
    (lit "ko-KR-SunHiNeural") (lit "a.mp3") (lit "fast") true empty_world
  = (Raise ValueError, empty_world).
Proof.
  apply (malformed_rate_escapes_the_adapter (H := studio) EventLoopThread
           (lit "hello") (lit "ko-KR-SunHiNeural") (lit "a.mp3") (lit "fast")
           (lit "hello"));
    reflexivity.
Defined.

Lemma positive_duration_is_measured_witness :
  let w' := snd (generate_azure_tts (H := studio) EventLoopThread (lit "ab")
                   (lit "ko-KR-SunHiNeural") (lit "a.mp3") (lit "+0%") false
                   empty_world) in
  is_Some (files w' !! lit "a.mp3")
  /\ get_audio_duration (H := studio) (lit "a.mp3") w'
     = (Ok (2000 # 1000)%Q, w').
Proof.
  apply (positive_duration_is_measured (H := studio) EventLoopThread
           (lit "ab") (lit "ko-KR-SunHiNeural") (lit "a.mp3") (lit "+0%") false
           empty_world (2000 # 1000)%Q);
    reflexivity.
Defined.

Lemma completed_synthesis_makes_one_call_witness :
  let q := AzureSpeak (lit "a.mp3") (lit "ko-KR-SunHiNeural")
             (ssml_of (lit "ab") (lit "ko-KR-SunHiNeural") (lit "+0%")) in
  exists d w',
    generate_azure_tts (H := studio) EventLoopThread (lit "ab")
      (lit "ko-KR-SunHiNeural") (lit "a.mp3") (lit "+0%") true empty_world
      = (Ok d, w')
    /\ calls w' = calls empty_world ++ [q]
    /\ files w' = <[lit "a.mp3" := [Speech q 2000]]> (files empty_world)
    /\ get_audio_duration (H := studio) (lit "a.mp3") w' = (Ok d, w').
Proof.
  apply (completed_synthesis_makes_one_call (H := studio) EventLoopThread
           (lit "ab") (lit "ko-KR-SunHiNeural") (lit "a.mp3") (lit "+0%") true (lit "ab")
           (lit "+0%") 2000 empty_world);
    reflexivity.
Defined.

Lemma canceled_synthesis_falls_back_off_the_event_loop_witness :
  let q := AzureSpeak (lit "a.mp3") (lit "ko-KR-SunHiNeural")
             (ssml_of (lit "ab") (lit "ko-KR-SunHiNeural") (lit "+0%")) in
  let q' := EdgeSave (strip (lit "ab")) (lit "ko-KR-SunHiNeural") (lit "+0%")
              (lit "a.mp3") in
  (exists d w',
     generate_azure_tts (H := studio_azure_canceled) WorkerThread (lit "ab")
       (lit "ko-KR-SunHiNeural") (lit "a.mp3") (lit "+0%") true empty_world
       = (Ok d, w')
     /\ calls w' = calls empty_world ++ [q; q']
     /\ files w' = <[lit "a.mp3" := [Speech q' 2000]]> (files empty_world)
     /\ get_audio_duration (H := studio_azure_canceled) (lit "a.mp3") w'
        = (Ok d, w'))
  /\ (exists d w',
        generate_azure_tts (H := studio_azure_canceled) EventLoopThread
          (lit "ab") (lit "ko-KR-SunHiNeural") (lit "a.mp3") (lit "+0%") true
          empty_world = (Ok d, w')
        /\ d = 0%Q
        /\ calls w' = calls empty_world ++ [q]
        /\ files w' = files empty_world).
Proof.
  split.
  - apply (canceled_synthesis_falls_back_off_the_event_loop
             (H := studio_azure_canceled) WorkerThread
             (lit "ab") (lit "ko-KR-SunHiNeural") (lit "a.mp3") (lit "+0%")
             true (lit "ab") (lit "+0%") 2000 empty_world);
      reflexivity.
  - apply (canceled_synthesis_falls_back_off_the_event_loop
             (H := studio_azure_canceled) EventLoopThread
             (lit "ab") (lit "ko-KR-SunHiNeural") (lit "a.mp3") (lit "+0%")
             true (lit "ab") (lit "+0%") 2000 empty_world);
      reflexivity.
Defined.

Lemma mostly_vietnamese_text_is_skipped_witness :
  generate_azure_tts (H := studio_vietnamese) EventLoopThread
    [84; 105; 7871; 110]%N (lit "ko-KR-SunHiNeural") (lit "a.mp3") (lit "+0%") true empty_world
  = (Ok 0%Q, empty_world).
Proof.
  apply (mostly_vietnamese_text_is_skipped (H := studio_vietnamese)
           EventLoopThread [84; 105; 7871; 110]%N).
  - reflexivity.
  - vm_compute. discriminate.
Defined.

Lemma failed_fallback_measures_the_old_file_off_the_event_loop_witness :
  let w := write_file (lit "a.mp3") [Silent 3000] empty_world in
  (exists d,
     _fallback_edge_tts_sync (H := studio_edge_down) WorkerThread (lit "ab")
       (lit "ko-KR-SunHiNeural") (lit "a.mp3") (lit "+0%") w
       = (Ok d, log_call (EdgeSave (strip (lit "ab")) (lit "ko-KR-SunHiNeural")
                            (lit "+0%") (lit "a.mp3")) w)
     /\ get_audio_duration (H := studio_edge_down) (lit "a.mp3") w = (Ok d, w))
  /\ _fallback_edge_tts_sync (H := studio_edge_down) EventLoopThread
       (lit "ab") (lit "ko-KR-SunHiNeural") (lit "a.mp3") (lit "+0%") w
     = (Ok 0%Q, w).
Proof.
  split.
  - apply (failed_fallback_measures_the_old_file_off_the_event_loop
             (H := studio_edge_down) WorkerThread (lit "ab")
             (lit "ko-KR-SunHiNeural") (lit "a.mp3") (lit "+0%"));
      reflexivity.
  - apply (failed_fallback_measures_the_old_file_off_the_event_loop
             (H := studio_edge_down) EventLoopThread (lit "ab")
             (lit "ko-KR-SunHiNeural") (lit "a.mp3") (lit "+0%"));
      reflexivity.
Defined.

(** ** Clips of the secondary engine *)

Section SegmentFacts.
Context `{Externals}.

(** X15. [_tts_to_segment] leaves no temporary file behind: when the
    secondary engine has saved the clip, the clip is returned, the
    invocation is logged, and the temporary path is not on disk
    afterwards, whatever was there before. *)
Theorem tts_to_segment_leaves_no_temporary_file (text voice rate : str)
    (ms : Z) (w : world) :
  let tmp_path := os_path_join TEMP_DIR (tmp_name (length (calls w))) in
  let q := EdgeSave (strip text) voice rate tmp_path in
  nonempty text = true -> nonempty (strip text) = true ->
  communicate_save (length (calls w)) q = Some ms ->
  exists w',
    _tts_to_segment text voice rate w = (Ok [Speech q ms], w')
    /\ files w' = delete tmp_path (files w)
    /\ files w' !! tmp_path = None
    /\ calls w' = calls w ++ [q].
Proof.
  intros tmp_path q Hn Hs Hsave. unfold _tts_to_segment.
  rewrite Hn, Hs. simpl.
  unfold bind at 1, get_world. fold tmp_path.
  unfold bind, save. fold q. rewrite Hsave.
  unfold from_file, os_path_exists, modify, ret. simpl.
  rewrite lookup_insert_eq.
  rewrite bool_decide_eq_true_2
    by (unfold write_file; simpl; rewrite lookup_insert_eq; eauto).
  eexists. split; [reflexivity|]. simpl.
  rewrite delete_insert_eq. split; [reflexivity|].
  split; [apply lookup_delete_eq|reflexivity].
Qed.

(** X16. [_tts_to_segment] has no handler: when the secondary engine
    raises, the exception leaves the function, with the invocation
    logged and no file changed. *)
Theorem tts_to_segment_propagates_engine_failure (text voice rate : str)
    (w : world) :
  let tmp_path := os_path_join TEMP_DIR (tmp_name (length (calls w))) in
  let q := EdgeSave (strip text) voice rate tmp_path in
  nonempty text = true -> nonempty (strip text) = true ->
  communicate_save (length (calls w)) q = None ->
  _tts_to_segment text voice rate w = (Raise EngineError, log_call q w).
Proof.
  intros tmp_path q Hn Hs Hsave. unfold _tts_to_segment.
  rewrite Hn, Hs. simpl.
  unfold bind at 1, get_world. fold tmp_path.
  unfold bind, save. fold q. rewrite Hsave. reflexivity.
Qed.

(** [_tts_to_segment] returns when the secondary engine saves. *)
Lemma tts_to_segment_returns text voice rate w :
  (forall n q, is_Some (communicate_save n q)) ->
  exists a w', _tts_to_segment text voice rate w = (Ok a, w').
Proof.
  intros Hsave.
  destruct (nonempty text) eqn:Hn;
    [destruct (nonempty (strip text)) eqn:Hs|].
  - set (tmp_path := os_path_join TEMP_DIR (tmp_name (length (calls w)))).
    destruct (Hsave (length (calls w))
                (EdgeSave (strip text) voice rate tmp_path)) as [ms Hms].
    unfold _tts_to_segment. rewrite Hn, Hs. simpl.
    unfold bind at 1, get_world. fold tmp_path.
    unfold bind, save. rewrite Hms.
    unfold from_file, os_path_exists, modify, ret. simpl.
    rewrite lookup_insert_eq.
    rewrite bool_decide_eq_true_2
      by (unfold write_file; simpl; rewrite lookup_insert_eq; eauto).
    eauto.
  - unfold _tts_to_segment. rewrite Hn, Hs. simpl. unfold ret. eauto.
  - unfold _tts_to_segment. rewrite Hn. simpl. unfold ret. eauto.
Qed.

(** The opening and the closing of a quiz always return. *)
Lemma quiz_opening_part_returns opening_ment assets_dir voice base_rate k l w :
  exists l' w',
    quiz_opening_part opening_ment assets_dir voice base_rate k l w
      = (Ok l', w').
Proof.
  unfold quiz_opening_part.
  destruct (nonempty opening_ment); [|unfold ret; eauto].
  set (path := os_path_join assets_dir (quiz_opening_filename k)).
  destruct (generate_azure_tts EventLoopThread opening_ment voice path base_rate
              false w)
    as [r w1] eqn:E.
  pose proof E as E'.
  apply generate_azure_tts_spec in E' as [_ (d & -> & Hm)].
  2:{ intros t _. eexists. reflexivity. }
  unfold bind at 1. rewrite E.
  destruct (Qgtb d 0) eqn:Hd; [|unfold ret; eauto].
  apply Qgtb_true in Hd. destruct (Hm Hd) as [[clip Hclip] _].
  unfold bind, os_path_exists, from_file.
  rewrite bool_decide_eq_true_2 by (rewrite Hclip; eauto).
  cbv beta iota zeta. rewrite Hclip. unfold ret. eauto.
Qed.

Lemma quiz_closing_part_returns closing_ment assets_dir voice base_rate k l w :
  exists l' w',
    quiz_closing_part closing_ment assets_dir voice base_rate k l w
      = (Ok l', w').
Proof.
  unfold quiz_closing_part.
  destruct (nonempty closing_ment); [|unfold ret; eauto].
  set (path := os_path_join assets_dir (quiz_closing_filename k)).
  destruct (generate_azure_tts EventLoopThread closing_ment voice path base_rate
              false w)
    as [r w1] eqn:E.
  pose proof E as E'.
  apply generate_azure_tts_spec in E' as [_ (d & -> & Hm)].
  2:{ intros t _. eexists. reflexivity. }
  unfold bind at 1. rewrite E.
  destruct (Qgtb d 0) eqn:Hd; [|unfold ret; eauto].
  apply Qgtb_true in Hd. destruct (Hm Hd) as [[clip Hclip] _].
  unfold bind, os_path_exists, from_file.
  rewrite bool_decide_eq_true_2 by (rewrite Hclip; eauto).
  cbv beta iota zeta. rewrite Hclip. unfold ret. eauto.
Qed.

(** The blocks of a quiz return when the secondary engine saves. *)
Lemma quiz_question_part_returns question_ko options_ko assets_dir voice
    base_rate k l w :
  (forall n q, is_Some (communicate_save n q)) ->
  exists l' w',
    quiz_question_part question_ko options_ko assets_dir voice base_rate k l w
      = (Ok l', w').
Proof.
  intros Hsave. unfold quiz_question_part.
  destruct (tts_to_segment_returns question_ko voice base_rate w Hsave)
    as (a & w1 & Ea).
  destruct (tts_to_segment_returns (join (lit "  ") options_ko) voice base_rate
              w1 Hsave) as (b & w2 & Eb).
  unfold bind at 1. rewrite Ea. unfold bind at 1. rewrite Eb.
  unfold bind at 1, export, modify.
  match goal with
  | |- context [get_audio_duration ?p] =>
      match goal with
      | |- context [write_file p ?x w2] =>
          destruct (get_audio_duration_reads p (write_file p x w2))
            as (d & Ed & _)
      end
  end.
  unfold bind. rewrite Ed. unfold ret. eauto.
Qed.

Lemma quiz_answer_part_returns correct explanation_ko assets_dir voice
    base_rate k l w :
  (forall n q, is_Some (communicate_save n q)) ->
  exists l' w',
    quiz_answer_part correct explanation_ko assets_dir voice base_rate k l w
      = (Ok l', w').
Proof.
  intros Hsave. unfold quiz_answer_part.
  destruct (tts_to_segment_returns (answer_announcement correct) voice
              base_rate w Hsave) as (a & w1 & Ea).
  destruct (tts_to_segment_returns explanation_ko voice base_rate w1 Hsave)
    as (b & w2 & Eb).
  unfold bind at 1. rewrite Ea. unfold bind at 1. rewrite Eb.
  unfold bind at 1, export, modify.
  match goal with
  | |- context [get_audio_duration ?p] =>
      match goal with
      | |- context [write_file p ?x w2] =>
          destruct (get_audio_duration_reads p (write_file p x w2))
            as (d & Ed & _)
      end
  end.
  unfold bind. rewrite Ed. unfold ret. eauto.
Qed.

Lemma quiz_combined_part_returns assets_dir k l w :
  exists r w', quiz_combined_part assets_dir k l w = (Ok r, w').
Proof.
  unfold quiz_combined_part, bind at 1, export, modify.
  match goal with
  | |- context [get_audio_duration ?p] =>
      match goal with
      | |- context [write_file p ?x w] =>
          destruct (get_audio_duration_reads p (write_file p x w))
            as (d & Ed & _)
      end
  end.
  unfold bind. rewrite Ed. unfold ret. eauto.
Qed.

(** X17. A quiz is built whenever the secondary engine saves every clip
    it is asked for: [_build_quiz_audio] returns, whatever the primary
    engine does. *)
Theorem quiz_returns_when_clips_are_saved (script : quiz_script)
    (assets_dir : str) (k : video_key) (w : world) :
  (forall n q, is_Some (communicate_save n q)) ->
  exists r w', _build_quiz_audio script assets_dir k w = (Ok r, w').
Proof.
  intros Hsave. unfold _build_quiz_audio.
  destruct (negb (nonempty (get_or (qs_question_ko script) (qs_question script)))).
  { unfold ret. eauto. }
  cbv zeta.
  match goal with
  | |- context [quiz_opening_part ?o ?d ?v ?b ?k ?l] =>
      destruct (quiz_opening_part_returns o d v b k l w) as (l1 & w1 & E1)
  end.
  unfold bind at 1. rewrite E1.
  match goal with
  | |- context [quiz_question_part ?q ?o ?d ?v ?b ?k l1] =>
      destruct (quiz_question_part_returns q o d v b k l1 w1 Hsave)
        as (l2 & w2 & E2)
  end.
  unfold bind at 1. rewrite E2.
  match goal with
  | |- context [quiz_answer_part ?c ?e ?d ?v ?b ?k ?l] =>
      destruct (quiz_answer_part_returns c e d v b k l w2 Hsave)
        as (l3 & w3 & E3)
  end.
  unfold bind at 1. rewrite E3.
  match goal with
  | |- context [quiz_closing_part ?c ?d ?v ?b ?k l3] =>
      destruct (quiz_closing_part_returns c d v b k l3 w3) as (l4 & w4 & E4)
  end.
  unfold bind at 1. rewrite E4.
  apply quiz_combined_part_returns.
Qed.

(** X18. A quiz is not built when the secondary engine raises on the
    question: the exception of [_tts_to_segment] leaves
    [_build_quiz_audio], although the opening line may have been
    synthesized and written already. *)
Theorem quiz_raises_when_the_question_clip_fails (script : quiz_script)
    (assets_dir : str) (k : video_key) (w : world) :
  let question_ko := get_or (qs_question_ko script) (qs_question script) in
  nonempty (strip question_ko) = true ->
  (forall n q, communicate_save n q = None) ->
  exists w', _build_quiz_audio script assets_dir k w = (Raise EngineError, w').
Proof.
  intros question_ko Hs Hsave. unfold _build_quiz_audio. fold question_ko.
  assert (Hn : nonempty question_ko = true).
  { destruct question_ko; [discriminate Hs|reflexivity]. }
  rewrite Hn. change (negb true) with false. cbv iota zeta.
  match goal with
  | |- context [quiz_opening_part ?o ?d ?v ?b ?k ?l] =>
      destruct (quiz_opening_part_returns o d v b k l w) as (l1 & w1 & E1)
  end.
  unfold bind at 1. rewrite E1.
  unfold bind at 1, quiz_question_part, bind at 1.
  unfold _tts_to_segment. rewrite Hn, Hs. simpl.
  unfold bind at 1, get_world. unfold bind, save. rewrite Hsave.
  eauto.
Qed.

End SegmentFacts.

Lemma tts_to_segment_leaves_no_temporary_file_witness :
  let tmp_path := os_path_join TEMP_DIR (tmp_name (H := studio) 0) in
  let q := EdgeSave (strip (lit "ab")) (lit "ko-KR-InJoonNeural") (lit "+0%")
             tmp_path in
  exists w',
    _tts_to_segment (H := studio) (lit "ab") (lit "ko-KR-InJoonNeural")
      (lit "+0%") empty_world = (Ok [Speech q 2000], w')
    /\ files w' = delete tmp_path (files empty_world)
    /\ files w' !! tmp_path = None
    /\ calls w' = calls empty_world ++ [q].
Proof.
  apply (tts_to_segment_leaves_no_temporary_file (H := studio) (lit "ab")
           (lit "ko-KR-InJoonNeural") (lit "+0%") 2000 empty_world);
    reflexivity.
Defined.

Lemma tts_to_segment_propagates_engine_failure_witness :
  let tmp_path := os_path_join TEMP_DIR (tmp_name (H := studio_edge_down) 0) in
  let q := EdgeSave (strip (lit "ab")) (lit "ko-KR-InJoonNeural") (lit "+0%")
             tmp_path in
  _tts_to_segment (H := studio_edge_down) (lit "ab") (lit "ko-KR-InJoonNeural")
    (lit "+0%") empty_world = (Raise EngineError, log_call q empty_world).
Proof.
  apply (tts_to_segment_propagates_engine_failure (H := studio_edge_down)
           (lit "ab") (lit "ko-KR-InJoonNeural") (lit "+0%") empty_world);
    reflexivity.
Defined.

Lemma quiz_returns_when_clips_are_saved_witness :
  exists r w',
    _build_quiz_audio (H := studio) vocab_quiz_script (lit "assets") video_3
      empty_world = (Ok r, w').
Proof.
  apply (quiz_returns_when_clips_are_saved (H := studio) vocab_quiz_script
           (lit "assets") video_3 empty_world).
  intros n q. simpl. eauto.
Defined.

Lemma quiz_raises_when_the_question_clip_fails_witness :
  exists w',
    _build_quiz_audio (H := studio_edge_down) vocab_quiz_script (lit "assets")
      video_3 empty_world = (Raise EngineError, w').
Proof.
  apply (quiz_raises_when_the_question_clip_fails (H := studio_edge_down)
           vocab_quiz_script (lit "assets") video_3 empty_world).
  - reflexivity.
  - intros n q. reflexivity.
Defined.

(** ** Bookkeeping of the deep dive *)

Section DeepDiveBookkeeping.
Context `{Externals}.

(** What one call of [process_segment] that returned has recorded. *)
Lemma process_segment_records assets_dir section_name ko_text vi_text voice
    rate l w l' w' :
  process_segment assets_dir section_name ko_text vi_text voice rate l w
    = (Ok l', w') ->
  l' = l
  \/ exists d clip,
       result_segments l'
       = result_segments l ++
           [ {| dseg_section := section_name; dseg_ko := ko_text;
                dseg_vi := vi_text;
                dseg_audio_path := deep_asset (segment_idx l);
                dseg_duration := round d 3 |} ]
       /\ timestamps l'
          = timestamps l ++
              [ {| ts_section := section_name;
                   start_sec := round (total_duration l) 0;
                   ts_label := _get_section_label section_name |} ]
       /\ segment_idx l' = S (segment_idx l)
       /\ (combined_audio l' = combined_audio l ++ (clip ++ silent 500)
           \/ combined_audio l' = combined_audio l).
Proof.
  unfold process_segment, generate_azure_tts_async.
  destruct (negb (nonempty ko_text) || negb (nonempty (strip ko_text))).
  { intros [= <- <-]. left. reflexivity. }
  intros E. step_inv.
  destruct (Qle_bool _ 0).
  { step_inv. left. reflexivity. }
  do 2 step_inv.
  - step_inv. step_inv. right. eexists _, _. simpl.
    split; [reflexivity|]. split; [reflexivity|]. split; [reflexivity|].
    left. reflexivity.
  - step_inv. right. exists x, []. simpl.
    split; [reflexivity|]. split; [reflexivity|]. split; [reflexivity|].
    right. reflexivity.
Qed.

Lemma numbered_in_order_step assets_dir section_name ko_text vi_text voice
    rate l w l' w' :
  process_segment assets_dir section_name ko_text vi_text voice rate l w
    = (Ok l', w') ->
  numbered_in_order l -> numbered_in_order l'.
Proof.
  intros E (Hp & Hs & Hl & Hc).
  apply process_segment_records in E
    as [->|(d & clip & Er & Et & Ei & _)]; [repeat split; assumption|].
  unfold numbered_in_order. rewrite Er, Et, Ei, !map_app, seq_S, map_app.
  simpl. rewrite Hp, Hs, Hl. repeat split; try reflexivity.
  intros Hnil. apply app_eq_nil in Hnil as [_ [=]].
Qed.

Lemma numbered_in_order_run assets_dir cs l w l' w' :
  run_calls assets_dir cs l w = (Ok l', w') ->
  numbered_in_order l -> numbered_in_order l'.
Proof.
  revert l w. induction cs as [|c cs IH]; intros l w; simpl.
  - intros [= <- <-]. auto.
  - intros E Hl. step_inv. unfold run_call in *.
    eapply IH; [eassumption|].
    eapply numbered_in_order_step; eassumption.
Qed.

(** The deep dive always returns. *)
Lemma deep_dive_returns script assets_dir w :
  exists l w1,
    run_calls assets_dir (deep_dive_calls script)
      {| result_segments := []; combined_audio := []; timestamps := [];
         total_duration := 0; segment_idx := 0 |} w = (Ok l, w1)
    /\ exists w',
         _build_video5_deep_dive (Some script) assets_dir w
         = (Ok {| v5_segments := result_segments l;
                  v5_total_duration := round (total_duration l) 3;
                  v5_combined_audio := Some (lit "/assets/v5_deep_dive.mp3");
                  v5_timestamps := timestamps l |}, w')
         /\ w' = (if 0 <? audio_len (combined_audio l)
                  then write_file (v5_combined_path assets_dir)
                         (combined_audio l) w1
                  else w1).
Proof.
  set (l0 := {| result_segments := []; combined_audio := [];
                timestamps := []; total_duration := 0; segment_idx := 0 |}).
  destruct (run_calls_timeline assets_dir (deep_dive_calls script) l0 w
              (deep_dive_calls_rates script)) as (l & w1 & ds & Er & _).
  exists l, w1. split; [exact Er|].
  unfold _build_video5_deep_dive. fold l0. unfold bind at 1. rewrite Er.
  destruct (0 <? audio_len (combined_audio l)); eexists; split; reflexivity.
Qed.

(** X19. The segments of a deep dive are numbered from 0 without gaps,
    in the order they were recorded: the paths recorded are
    /assets/deep_0.mp3, /assets/deep_1.mp3 and so on, also when a
    section was skipped or its synthesis failed. *)
Theorem deep_dive_segments_are_numbered_in_order (script : deep_dive_script)
    (assets_dir : str) (w : world) :
  exists r w',
    _build_video5_deep_dive (Some script) assets_dir w = (Ok r, w')
    /\ map dseg_audio_path (v5_segments r)
       = map deep_asset (seq 0 (length (v5_segments r))).
Proof.
  destruct (deep_dive_returns script assets_dir w)
    as (l & w1 & Er & w' & E & _).
  eexists _, w'. split; [exact E|]. simpl.
  apply numbered_in_order_run in Er as [Hp _].
  2:{ repeat split; reflexivity. }
  assert (Hlen : length (result_segments l) = segment_idx l).
  { apply (f_equal (@length _)) in Hp.
    rewrite !length_map, length_seq in Hp. exact Hp. }
  rewrite Hlen. exact Hp.
Qed.

(** X20. A deep dive has one timestamp for each segment it recorded, in
    the same order, with the section of the segment and the label of
    that section. *)
Theorem deep_dive_has_one_timestamp_per_segment (script : deep_dive_script)
    (assets_dir : str) (w : world) :
  exists r w',
    _build_video5_deep_dive (Some script) assets_dir w = (Ok r, w')
    /\ map ts_section (v5_timestamps r) = map dseg_section (v5_segments r)
    /\ map ts_label (v5_timestamps r)
       = map (fun s => _get_section_label (dseg_section s)) (v5_segments r).
Proof.
  destruct (deep_dive_returns script assets_dir w)
    as (l & w1 & Er & w' & E & _).
  eexists _, w'. split; [exact E|]. simpl.
  apply numbered_in_order_run in Er as (_ & Hs & Hl & _).
  2:{ repeat split; reflexivity. }
  auto.
Qed.

(** The files of the segments are the only files that the calls of
    [process_segment] change. *)
Lemma process_segment_files assets_dir section_name ko_text vi_text voice
    rate l w l' w' p :
  deep_dive_rate rate ->
  process_segment assets_dir section_name ko_text vi_text voice rate l w
    = (Ok l', w') ->
  (forall i, p <> deep_path assets_dir i) ->
  files w' !! p = files w !! p.
Proof.
  intros Hrate E Hp. unfold process_segment, generate_azure_tts_async in E.
  destruct (negb (nonempty ko_text) || negb (nonempty (strip ko_text))).
  { injection E as <- <-. reflexivity. }
  step_inv.
  match goal with
  | E0 : generate_azure_tts _ _ _ _ _ _ _ = _ |- _ =>
      apply generate_azure_tts_spec in E0 as [[Hf _] _];
        [|intros t _; apply deep_dive_rate_accepted, Hrate]
  end.
  assert (Hw : files x0 !! p = files w !! p) by (apply Hf, Hp).
  destruct (Qle_bool _ 0); [step_inv; exact Hw|].
  do 2 step_inv.
  - step_inv. step_inv.
    match goal with
    | E0 : from_file _ _ = _ |- _ =>
        unfold from_file in E0; destruct (files _ !! _); [|discriminate];
          injection E0 as <- <-
    end.
    unfold os_path_exists in *.
    match goal with E0 : (_, _) = (_, _) |- _ => injection E0 as _ <- end.
    exact Hw.
  - step_inv. unfold os_path_exists in *.
    match goal with E0 : (_, _) = (_, _) |- _ => injection E0 as _ <- end.
    exact Hw.
Qed.

Lemma run_calls_files assets_dir cs l w l' w' p :
  Forall (fun c => deep_dive_rate (call_rate c)) cs ->
  run_calls assets_dir cs l w = (Ok l', w') ->
  (forall i, p <> deep_path assets_dir i) ->
  files w' !! p = files w !! p.
Proof.
  intros Hcs. revert l w.
  induction Hcs as [|c cs Hc _ IH]; intros l w; simpl.
  - intros [= <- <-] _. reflexivity.
  - intros E Hp. step_inv. unfold run_call in *.
    rewrite (IH _ _ E Hp).
    eapply process_segment_files; eassumption.
Qed.

Lemma combined_path_is_no_segment assets_dir i :
  v5_combined_path assets_dir <> deep_path assets_dir i.
Proof.
  unfold v5_combined_path, deep_path. intros E.
  apply os_path_join_inj in E; [discriminate E|reflexivity|reflexivity].
Qed.

(** X21. A deep dive that recorded no segment exports nothing, and
    still reports the path of the combined audio: the file at that path
    is the one that was there before, if any. *)
Theorem deep_dive_reports_a_path_it_did_not_write (script : deep_dive_script)
    (assets_dir : str) (w : world) (r : video5) (w' : world) :
  _build_video5_deep_dive (Some script) assets_dir w = (Ok r, w') ->
  v5_segments r = [] ->
  v5_combined_audio r = Some (lit "/assets/v5_deep_dive.mp3")
  /\ v5_timestamps r = []
  /\ files w' !! v5_combined_path assets_dir
     = files w !! v5_combined_path assets_dir.
Proof.
  intros E Hnil.
  destruct (deep_dive_returns script assets_dir w)
    as (l & w1 & Er & w0 & E0 & Hw0).
  rewrite E in E0. injection E0 as -> ->. simpl in Hnil.
  pose proof (numbered_in_order_run _ _ _ _ _ _ Er) as Hinv.
  destruct Hinv as (_ & Hs & _ & Hc); [repeat split; reflexivity|].
  simpl. split; [reflexivity|]. split.
  - rewrite Hnil in Hs. simpl in Hs. apply map_eq_nil in Hs. exact Hs.
  - rewrite Hw0, (Hc Hnil). simpl.
    apply (run_calls_files _ _ _ _ _ _ _ (deep_dive_calls_rates script) Er).
    apply combined_path_is_no_segment.
Qed.

End DeepDiveBookkeeping.

Lemma deep_dive_reports_a_path_it_did_not_write_witness :
  let r := {| v5_segments := []; v5_total_duration := round 0 3;
              v5_combined_audio := Some (lit "/assets/v5_deep_dive.mp3");
              v5_timestamps := [] |} in
  v5_combined_audio r = Some (lit "/assets/v5_deep_dive.mp3")
  /\ v5_timestamps r = []
  /\ files empty_world !! v5_combined_path (lit "assets")
     = files empty_world !! v5_combined_path (lit "assets").
Proof.
  apply (deep_dive_reports_a_path_it_did_not_write (H := studio_closed)
           two_segment_deep_dive_script (lit "assets") empty_world
           {| v5_segments := []; v5_total_duration := round 0 3;
              v5_combined_audio := Some (lit "/assets/v5_deep_dive.mp3");
              v5_timestamps := [] |} empty_world);
    reflexivity.
Defined.

(** ** Labels of the sections *)

Lemma startswith_prefix s k :
  startswith s k = true -> exists rest, s = k ++ rest.
Proof.
  revert s. induction k as [|c k IH]; intros s; [eauto|].
  destruct s as [|d s]; [discriminate|].
  rewrite startswith_cons. intros E. apply andb_true_iff in E as [Ec Ek].
  apply N.eqb_eq in Ec. subst. destruct (IH s Ek) as [rest ->]. eauto.
Qed.

(** No key of the table is a prefix of a section that another key is a
    prefix of. *)
Lemma section_keys_apart section e1 e2 :
  In e1 section_labels -> In e2 section_labels ->
  startswith section (fst e1) = true -> startswith section (fst e2) = true ->
  e1 = e2.
Proof.
  intros H1 H2 S1 S2.
  apply startswith_prefix in S1 as [r1 E1].
  apply startswith_prefix in S2 as [r2 E2].
  rewrite E1 in E2. clear E1.
  unfold section_labels in H1, H2. simpl in H1, H2.
  repeat match goal with
         | Hin : _ \/ _ |- _ => destruct Hin as [<-|Hin]
         | Hin : False |- _ => destruct Hin
         end;
    first [reflexivity | exfalso; cbv in E2; discriminate E2].
Qed.

Lemma first_label_matching section labels :
  first_label section labels
  = match matching_labels section labels with
    | [] => section
    | entry :: _ => snd entry
    end.
Proof.
  induction labels as [|[key label] labels IH]; [reflexivity|].
  unfold matching_labels in *. simpl.
  destruct (startswith section key); [reflexivity|exact IH].
Qed.

Lemma matching_labels_perm section labels labels' :
  Permutation labels labels' ->
  Permutation (matching_labels section labels)
    (matching_labels section labels').
Proof.
  unfold matching_labels.
  induction 1 as [|e l l' _ IH|e e' l|l l' l'' _ IH1 _ IH2]; simpl.
  - constructor.
  - destruct (startswith section (fst e)); [constructor|]; exact IH.
  - destruct (startswith section (fst e)), (startswith section (fst e'));
      try reflexivity. apply perm_swap.
  - etransitivity; eassumption.
Qed.

Lemma matching_labels_short section :
  (length (matching_labels section section_labels) <= 1)%nat.
Proof.
  destruct (matching_labels section section_labels) as [|e1 [|e2 rest]] eqn:E;
    simpl; try lia.
  exfalso.
  assert (H1 : In e1 (matching_labels section section_labels))
    by (rewrite E; simpl; auto).
  assert (H2 : In e2 (matching_labels section section_labels))
    by (rewrite E; simpl; auto).
  unfold matching_labels in H1, H2.
  apply filter_In in H1 as [H1 S1]. apply filter_In in H2 as [H2 S2].
  pose proof (section_keys_apart section e1 e2 H1 H2 S1 S2) as <-.
  assert (Hnd : List.NoDup (matching_labels section section_labels)).
  { apply List.NoDup_filter, NoDup_ListNoDup, (NoDup_fmap_1 fst).
    apply (bool_decide_unpack _). vm_compute. exact I. }
  rewrite E in Hnd. inversion Hnd as [|? ? Hnin _]. apply Hnin. simpl. auto.
Qed.

(** X22. The label of a section does not depend on the order in which
    the table of labels is walked: with the entries in any other order,
    the first key that is a prefix of the section gives the same
    label. *)
Theorem section_label_is_independent_of_order (section : str)
    (labels : list (str * str)) :
  Permutation labels section_labels ->
  first_label section labels = _get_section_label section.
Proof.
  intros Hperm. unfold _get_section_label.
  rewrite !first_label_matching.
  assert (Hm : Permutation (matching_labels section labels)
                 (matching_labels section section_labels)).
  { apply matching_labels_perm, Hperm. }
  pose proof (matching_labels_short section) as Hshort.
  destruct (matching_labels section section_labels) as [|e [|e' rest]].
  - apply Permutation_nil_r in Hm. rewrite Hm. reflexivity.
  - apply Permutation_singleton_r in Hm. rewrite Hm. reflexivity.
  - simpl in Hshort. lia.
Qed.

Lemma section_label_is_independent_of_order_witness :
  first_label (lit "essay_intro") (rev section_labels)
  = _get_section_label (lit "essay_intro").
Proof.
  apply (section_label_is_independent_of_order (lit "essay_intro")
           (rev section_labels)).
  symmetry. apply Permutation_rev.
Defined.

Lemma first_label_cases section labels :
  (first_label section labels = section
   /\ matching_labels section labels = [])
  \/ exists entry, In entry labels
                   /\ first_label section labels = snd entry.
Proof.
  rewrite first_label_matching.
  destruct (matching_labels section labels) as [|entry rest] eqn:E.
  - left. auto.
  - right. exists entry. split; [|reflexivity].
    assert (Hin : In entry (matching_labels section labels))
      by (rewrite E; simpl; auto).
    unfold matching_labels in Hin. apply filter_In in Hin as [Hin _].
    exact Hin.
Qed.

(** Labelling is idempotent: the label of a label is the label
    itself, because no label of the table begins with a key of the
    table. *)
Theorem section_label_is_idempotent (section : str) :
  _get_section_label (_get_section_label section)
  = _get_section_label section.
Proof.
  unfold _get_section_label at 2 3.
  destruct (first_label_cases section section_labels)
    as [[E _]|(entry & Hin & ->)]; [rewrite E; exact E|].
  unfold section_labels in Hin. simpl in Hin.
  repeat match goal with
         | Hin : _ \/ _ |- _ => destruct Hin as [<-|Hin]
         | Hin : False |- _ => destruct Hin
         end; vm_compute; reflexivity.
Qed.

(** X23. Only the seven sections of the table get a label of their own:
    the section of a grammar point, of an essay paragraph or of a
    vocabulary item is its own label, unless the name of the paragraph
    or of the item begins with the word intro. *)
Theorem item_sections_keep_their_name (name : str) :
  startswith name (lit "intro") = false ->
  _get_section_label (lit "grammar_" ++ name) = lit "grammar_" ++ name
  /\ _get_section_label (lit "essay_" ++ name) = lit "essay_" ++ name
  /\ _get_section_label (lit "vocab_" ++ name) = lit "vocab_" ++ name.
Proof.
  intros Hname. split; [reflexivity|].
  unfold _get_section_label, section_labels, first_label.
  change (lit "essay_intro") with (lit "essay_" ++ lit "intro").
  change (lit "vocab_intro") with (lit "vocab_" ++ lit "intro").
  assert (Happ : forall p s k, startswith (p ++ s) (p ++ k) = startswith s k).
  { induction p as [|c p IH]; intros s k; [reflexivity|].
    simpl app. rewrite startswith_cons, N.eqb_refl. apply IH. }
  rewrite !Happ, Hname. split; reflexivity.
Qed.

Lemma item_sections_keep_their_name_witness :
  _get_section_label (lit "grammar_" ++ lit "Para 1")
  = lit "grammar_" ++ lit "Para 1"
  /\ _get_section_label (lit "essay_" ++ lit "Para 1")
     = lit "essay_" ++ lit "Para 1"
  /\ _get_section_label (lit "vocab_" ++ lit "Para 1")
     = lit "vocab_" ++ lit "Para 1".
Proof.
  apply (item_sections_keep_their_name (lit "Para 1")). reflexivity.
Defined.

(** ** Render loop *)

Section RenderCommands.
Context `{RenderExternals}.

Lemma render_single_video_missing composition_id json_path output_path
    abs_json w :
  os_path_abspath json_path = Ok abs_json -> abs_json ∉ disk w ->
  snd (render_single_video composition_id json_path output_path w) = w
  /\ fst (render_single_video composition_id json_path output_path w)
     <> Ok true.
Proof.
  intros Hj Hd. unfold render_single_video. rewrite Hj.
  destruct (os_path_abspath output_path); [|split; [reflexivity|discriminate]].
  rewrite bool_decide_eq_false_2 by exact Hd. simpl.
  split; [reflexivity|discriminate].
Qed.

Lemma render_loop_missing json_path abs_json timestamp manifest l w :
  os_path_abspath json_path = Ok abs_json -> abs_json ∉ disk w ->
  render_loop json_path timestamp manifest l w
  = ({| rendered := rendered l;
        failed := failed l ++ map composition manifest |}, w).
Proof.
  intros Hj Hd. revert l.
  induction manifest as [|entry rest IH]; intros l; simpl.
  - rewrite app_nil_r. destruct l; reflexivity.
  - unfold render_entry.
    destruct (render_single_video_missing (composition entry) json_path
                (video_path_of timestamp entry) abs_json w Hj Hd)
      as [Hw Hr].
    destruct (render_single_video _ _ _ w) as [[[|]|e] w1]; simpl in *;
      subst; try congruence; rewrite IH; simpl; rewrite <- app_assoc;
      reflexivity.
Qed.

(** X24. Without the data file nothing is rendered: every entry of the
    manifest fails, in manifest order, before any command is run, the
    disk is left as it is, and [render_all_videos] returns the empty
    list. *)
Theorem missing_data_file_renders_nothing (json_path abs_json : str)
    (include_deep_dive : bool) (w : rworld) :
  os_path_abspath json_path = Ok abs_json -> abs_json ∉ disk w ->
  let manifest :=
    if include_deep_dive then VIDEO_MANIFEST else take 4 VIDEO_MANIFEST in
  let result := render_all_videos json_path include_deep_dive w in
  fst result = []
  /\ runs (snd result) = runs w
  /\ disk (snd result) = disk w
  /\ logged (snd result)
     = logged w ++ [ {| sum_total := length manifest;
                        sum_success_count := 0;
                        sum_failed := map composition manifest |} ].
Proof.
  intros Hj Hd manifest result. subst result.
  unfold render_all_videos, render_manifest. fold manifest.
  rewrite (render_loop_missing _ abs_json) by assumption.
  simpl. auto.
Qed.




End RenderCommands.

Lemma missing_data_file_renders_nothing_witness :
  let result := render_all_videos (H := fault_injecting_engine)
                  (lit "final_data.json") true disk_without_data_file in
  fst result = []
  /\ runs (snd result) = runs disk_without_data_file
  /\ disk (snd result) = disk disk_without_data_file
  /\ logged (snd result)
     = logged disk_without_data_file
         ++ [ {| sum_total := length VIDEO_MANIFEST;
                 sum_success_count := 0;
                 sum_failed := map composition VIDEO_MANIFEST |} ].
Proof.
  apply (missing_data_file_renders_nothing (H := fault_injecting_engine)
           (lit "final_data.json") (lit "/app/final_data.json") true
           disk_without_data_file).
  - reflexivity.
  - apply not_elem_of_empty.
Defined.

(** ** Timestamps of the description *)

Lemma split_on_plain c s :
  Forall (fun d => d <> c) s -> split_on c s = [s].
Proof.
  induction 1 as [|d s Hd _ IH]; [reflexivity|].
  simpl. destruct (N.eqb_spec d c); [contradiction|]. rewrite IH. reflexivity.
Qed.

Lemma split_on_field c a b :
  Forall (fun d => d <> c) a ->
  split_on c (a ++ c :: b) = a :: split_on c b.
Proof.
  induction 1 as [|d a Hd _ IH]; simpl.
  - rewrite N.eqb_refl. reflexivity.
  - destruct (N.eqb_spec d c); [contradiction|]. rewrite IH. reflexivity.
Qed.

(** A field of two digits reads back as the number it was made of. *)
Lemma pad2_reads_back z :
  0 <= z < 100 ->
  int (pad2 z) = Ok z /\ Forall (fun d => d <> 58%N) (pad2 z).
Proof.
  intros Hz.
  pose proof (percent_range_check
                (fun z => if (0 <=? z) && (z <? 100) then
                            match int (pad2 z) with
                            | Ok v => v =? z
                            | Raise _ => false
                            end
                            && forallb (fun d => negb (d =? 58)%N) (pad2 z)
                          else true)) as Hc.
  specialize (Hc ltac:(vm_compute; reflexivity) z ltac:(lia)).
  cbv beta in Hc.
  replace ((0 <=? z) && (z <? 100)) with true in Hc
    by (symmetry; apply andb_true_iff; split; [apply Z.leb_le|apply Z.ltb_lt]; lia).
  apply andb_true_iff in Hc as [Hi Hf]. split.
  - destruct (int (pad2 z)) as [v|]; [|discriminate].
    apply Z.eqb_eq in Hi. subst. reflexivity.
  - rewrite forallb_forall in Hf. apply List.Forall_forall.
    intros d Hd. specialize (Hf d Hd).
    apply negb_true_iff in Hf. apply N.eqb_neq in Hf. exact Hf.
Qed.

(** X26. A timestamp reads back as the whole seconds it was made of:
    for a duration under 100 hours that is not negative, the fields of
    [_format_timestamp] between the colons, read as integers, count the
    integer part of the duration in hours, minutes and seconds. *)
Theorem format_timestamp_reads_back (seconds : Q) :
  0 <= int_of_float seconds < 360000 ->
  timestamp_seconds (_format_timestamp seconds) = Ok (int_of_float seconds).
Proof.
  intros Hn. unfold _format_timestamp. cbv zeta.
  set (n := int_of_float seconds) in *.
  assert (Hh : 0 <= n / 3600 < 100) by (split; [apply Z.div_pos|apply Z.div_lt_upper_bound]; lia).
  assert (Hm : 0 <= (n mod 3600) / 60 < 100).
  { pose proof (Z.mod_pos_bound n 3600 ltac:(lia)).
    split; [apply Z.div_pos|apply Z.div_lt_upper_bound]; lia. }
  assert (Hs : 0 <= n mod 60 < 100).
  { pose proof (Z.mod_pos_bound n 60 ltac:(lia)). lia. }
  destruct (pad2_reads_back _ Hh) as [Ih Fh].
  destruct (pad2_reads_back _ Hm) as [Im Fm].
  destruct (pad2_reads_back _ Hs) as [Is Fs].
  assert (Hsum : n / 3600 * 3600 + (n mod 3600) / 60 * 60 + n mod 60 = n).
  { clear. Z.to_euclidean_division_equations. lia. }
  unfold timestamp_seconds. change (lit ":") with [58%N].
  destruct (Z.ltb_spec 0 (n / 3600)) as [Hpos|Hzero].
  - change (pad2 (n / 3600) ++ [58%N] ++ pad2 (n mod 3600 / 60) ++ [58%N]
              ++ pad2 (n mod 60))
      with (pad2 (n / 3600) ++ 58%N :: (pad2 (n mod 3600 / 60) ++ 58%N
              :: pad2 (n mod 60))).
    rewrite !split_on_field, split_on_plain by assumption.
    simpl. rewrite Ih, Im, Is. simpl. f_equal. lia.
  - change (pad2 (n mod 3600 / 60) ++ [58%N] ++ pad2 (n mod 60))
      with (pad2 (n mod 3600 / 60) ++ 58%N :: pad2 (n mod 60)).
    rewrite !split_on_field, split_on_plain by assumption.
    simpl. rewrite Im, Is. simpl. f_equal. lia.
Qed.

Lemma format_timestamp_reads_back_witness :
  timestamp_seconds (_format_timestamp (7325 # 2))
  = Ok (int_of_float (7325 # 2)).
Proof.
  apply (format_timestamp_reads_back (7325 # 2)). vm_compute.
  split; [discriminate|reflexivity].
Defined.

Lemma startswith_app p s : startswith (p ++ s) p = true.
Proof.
  induction p as [|c p IH]; [apply startswith_nil|].
  simpl app. rewrite startswith_cons, N.eqb_refl. exact IH.
Qed.

Section Chapters.
Context `{Externals}.

(** X27. The chapters of a deep dive start at zero: the first line of
    the block of timestamps that the description gets from a deep dive
    begins with 00:00, as the first chapter of a video must, whether
    the deep dive recorded segments or not. *)
Theorem chapters_start_at_zero (script : deep_dive_script) (assets_dir : str)
    (w : world) :
  exists r w' line rest,
    _build_video5_deep_dive (Some script) assets_dir w = (Ok r, w')
    /\ chapter_lines (v5_timestamps r) = line :: rest
    /\ startswith line (lit "00:00 - ") = true.
Proof.
  unfold _build_video5_deep_dive.
  set (l0 := {| result_segments := []; combined_audio := [];
                timestamps := []; total_duration := 0; segment_idx := 0 |}).
  destruct (run_calls_timeline assets_dir (deep_dive_calls script) l0 w
              (deep_dive_calls_rates script))
    as (l & w1 & ds & Er & _ & Hts & _).
  simpl in Hts. unfold bind at 1. rewrite Er.
  assert (Hline : exists line rest,
            chapter_lines (timestamps l) = line :: rest
            /\ startswith line (lit "00:00 - ") = true).
  { destruct (timestamps l) as [|ts tss].
    - eexists _, _. split; reflexivity.
    - destruct ds as [|d ds]; [discriminate Hts|].
      simpl in Hts. injection Hts as Hts _.
      eexists _, _. split; [reflexivity|]. rewrite Hts.
      replace (_format_timestamp (round 0 0)) with (lit "00:00")
        by (vm_compute; reflexivity).
      change (lit "00:00" ++ lit " - " ++ ts_label ts)
        with (lit "00:00 - " ++ ts_label ts).
      apply startswith_app. }
  destruct Hline as (line & rest & Hl & Hs).
  destruct (0 <? audio_len (combined_audio l));
    eexists _, _, line, rest; (split; [reflexivity|]); simpl; auto.
Qed.

End Chapters.

(** ** Video 2 and the entry point *)

Lemma v2_base_rate_format script :
  exists z, -100 <= z <= 100 /\ v2_base_rate script = format_rate z.
Proof.
  unfold v2_base_rate, should_compress_audio.
  destruct (Qgtb _ _); [exists 15|exists 0]; (split; [lia|reflexivity]).
Qed.

Section Video2Facts.
Context `{Externals}.

Lemma v2_opening_part_returns opening_ment assets_dir voice base_rate l w :
  exists l' w',
    v2_opening_part opening_ment assets_dir voice base_rate l w = (Ok l', w').
Proof.
  unfold v2_opening_part.
  destruct (nonempty opening_ment); [|unfold ret; eauto].
  set (path := os_path_join assets_dir (lit "v2_opening.mp3")).
  destruct (generate_azure_tts EventLoopThread opening_ment voice path base_rate
              false w)
    as [r w1] eqn:E.
  pose proof E as E'.
  apply generate_azure_tts_spec in E' as [_ (d & -> & Hm)].
  2:{ intros t _. eexists. reflexivity. }
  unfold bind at 1. rewrite E.
  destruct (Qgtb d 0) eqn:Hd; [|unfold ret; eauto].
  apply Qgtb_true in Hd. destruct (Hm Hd) as [[clip Hclip] _].
  unfold bind, os_path_exists, from_file.
  rewrite bool_decide_eq_true_2 by (rewrite Hclip; eauto).
  cbv beta iota zeta. rewrite Hclip. unfold ret. eauto.
Qed.

Lemma v2_closing_part_returns closing_ment assets_dir voice base_rate l w :
  exists l' w',
    v2_closing_part closing_ment assets_dir voice base_rate l w = (Ok l', w').
Proof.
  unfold v2_closing_part.
  destruct (nonempty closing_ment); [|unfold ret; eauto].
  set (path := os_path_join assets_dir (lit "v2_closing.mp3")).
  destruct (generate_azure_tts EventLoopThread closing_ment voice path base_rate
              false w)
    as [r w1] eqn:E.
  pose proof E as E'.
  apply generate_azure_tts_spec in E' as [_ (d & -> & Hm)].
  2:{ intros t _. eexists. reflexivity. }
  unfold bind at 1. rewrite E.
  destruct (Qgtb d 0) eqn:Hd; [|unfold ret; eauto].
  apply Qgtb_true in Hd. destruct (Hm Hd) as [[clip Hclip] _].
  unfold bind, os_path_exists, from_file.
  rewrite bool_decide_eq_true_2 by (rewrite Hclip; eauto).
  cbv beta iota zeta. rewrite Hclip. unfold ret. eauto.
Qed.

Lemma v2_part_step_returns assets_dir voice z count idx part l w :
  -100 <= z <= 100 ->
  exists l' w',
    v2_part_step assets_dir voice (format_rate z) count idx part l w
      = (Ok l', w').
Proof.
  intros Hz. unfold v2_part_step. cbv zeta.
  destruct (nonempty (default [] (pt_ko part))); [|unfold ret; simpl; eauto].
  change (negb true) with false. cbv iota.
  match goal with
  | |- context [generate_azure_tts ?th ?t ?v ?p ?r true] =>
      destruct (generate_azure_tts th t v p r true w) as [r0 w1] eqn:E
  end.
  pose proof E as E'.
  apply generate_azure_tts_spec in E' as [_ (d & -> & Hm)].
  2:{ intros t _. rewrite final_rate_format by exact Hz. eauto. }
  unfold bind at 1. rewrite E.
  destruct (Qgtb d 0) eqn:Hd; [|unfold ret; eauto].
  apply Qgtb_true in Hd. destruct (Hm Hd) as [[clip Hclip] _].
  unfold bind, os_path_exists, from_file.
  rewrite bool_decide_eq_true_2 by (rewrite Hclip; eauto).
  cbv beta iota zeta. rewrite Hclip.
  destruct (Z.of_nat idx <? Z.of_nat count - 1); unfold ret; eauto.
Qed.

Lemma v2_part_loop_returns assets_dir voice z count parts idx l w :
  -100 <= z <= 100 ->
  exists l' w',
    v2_part_loop assets_dir voice (format_rate z) count idx parts l w
      = (Ok l', w').
Proof.
  intros Hz. revert idx l w.
  induction parts as [|part rest IH]; intros idx l w; simpl.
  - unfold ret. eauto.
  - destruct (v2_part_step_returns assets_dir voice z count idx part l w Hz)
      as (l1 & w1 & E1).
    unfold bind at 1. rewrite E1. apply IH.
Qed.

Lemma v2_combined_part_returns assets_dir l w :
  exists r w', v2_combined_part assets_dir l w = (Ok r, w').
Proof.
  unfold v2_combined_part. cbv zeta.
  destruct (0 <? audio_len (l2_combined_audio l)); [|unfold ret; eauto].
  unfold bind at 1, export, modify.
  destruct (get_audio_duration_reads (v2_combined_path assets_dir)
              (write_file (v2_combined_path assets_dir)
                 (l2_combined_audio l) w)) as (d & Ed & _).
  unfold bind. rewrite Ed. unfold ret. eauto.
Qed.

(** X28. Video 2 is always built: [_build_video2_outline] returns for
    every script and every state of the disk, in the format with parts
    and in the legacy format, although each part is read at a dynamic
    rate, because the base rate it passes on is always well formed. *)
Theorem outline_always_returns (script : outline_script) (assets_dir : str)
    (w : world) :
  exists r w', _build_video2_outline script assets_dir w = (Ok r, w').
Proof.
  unfold _build_video2_outline. cbv zeta.
  destruct (negb (truthy (v2_parts_of script)) && _); [unfold ret; eauto|].
  destruct (v2_base_rate_format script) as (z & Hz & ->).
  match goal with
  | |- context [v2_opening_part ?o ?d ?v ?b ?l] =>
      destruct (v2_opening_part_returns o d v b l w) as (l1 & w1 & E1)
  end.
  unfold bind at 1. rewrite E1.
  match goal with
  | |- context [v2_part_loop ?d ?v _ ?c ?i ?ps l1] =>
      destruct (v2_part_loop_returns d v z c ps i l1 w1 Hz) as (l2 & w2 & E2)
  end.
  unfold bind at 1. rewrite E2.
  match goal with
  | |- context [v2_closing_part ?o ?d ?v ?b l2] =>
      destruct (v2_closing_part_returns o d v b l2 w2) as (l3 & w3 & E3)
  end.
  unfold bind at 1. rewrite E3.
  apply v2_combined_part_returns.
Qed.

End Video2Facts.

Section Video2Export.
Context `{Externals}.

Lemma v2_opening_part_combined opening_ment assets_dir voice base_rate l w l' w' :
  v2_opening_part opening_ment assets_dir voice base_rate l w = (Ok l', w') ->
  v2_combined_audio (l2_result l') = v2_combined_audio (l2_result l).
Proof.
  unfold v2_opening_part. intros E. repeat step_inv; reflexivity.
Qed.

Lemma v2_closing_part_combined closing_ment assets_dir voice base_rate l w l' w' :
  v2_closing_part closing_ment assets_dir voice base_rate l w = (Ok l', w') ->
  v2_combined_audio (l2_result l') = v2_combined_audio (l2_result l).
Proof.
  unfold v2_closing_part. intros E. repeat step_inv; reflexivity.
Qed.

Lemma v2_part_loop_combined assets_dir voice base_rate count idx parts l w l' w' :
  v2_part_loop assets_dir voice base_rate count idx parts l w = (Ok l', w') ->
  v2_combined_audio (l2_result l') = v2_combined_audio (l2_result l).
Proof.
  revert idx l w. induction parts as [|part rest IH]; intros idx l w E; simpl in E.
  - step_inv. reflexivity.
  - step_inv. apply IH in E. rewrite E.
    match goal with E1 : v2_part_step _ _ _ _ _ _ _ _ = _ |- _ =>
      unfold v2_part_step in E1; repeat step_inv; reflexivity end.
Qed.

(** X29. When video 2 names a combined audio, it is the file the
    function has just exported, and the total duration is the one
    measured on that file, rounded to milliseconds, not the sum of the
    pieces and pauses. *)
Theorem outline_reports_measured_export (script : outline_script)
    (assets_dir : str) (w : world) (r : video2) (w' : world) (path : str) :
  _build_video2_outline script assets_dir w = (Ok r, w') ->
  v2_combined_audio r = Some path ->
  path = lit "/assets/v2_outline.mp3"
  /\ is_Some (files w' !! v2_combined_path assets_dir)
  /\ exists d,
       get_audio_duration (v2_combined_path assets_dir) w' = (Ok d, w')
       /\ v2_total_duration r = round d 3.
Proof.
  unfold _build_video2_outline. cbv zeta.
  destruct (negb (truthy (v2_parts_of script)) && _).
  { intros [= <- <-]. discriminate. }
  intros E.
  apply bind_inv in E as [(l1 & w1 & E1 & E)|(e & _ & [=])].
  apply bind_inv in E as [(l2 & w2 & E2 & E)|(e & _ & [=])].
  apply bind_inv in E as [(l3 & w3 & E3 & E)|(e & _ & [=])].
  apply v2_opening_part_combined in E1.
  apply v2_part_loop_combined in E2.
  apply v2_closing_part_combined in E3.
  unfold v2_combined_part in E. cbv zeta in E.
  destruct (0 <? audio_len (l2_combined_audio l3)).
  - apply bind_inv in E as [(u & w4 & Ex & E)|(e & _ & [=])].
    apply bind_inv in E as [(d & w5 & Eg & E)|(e & _ & [=])].
    injection E as <- <-. intros [= <-]. split; [reflexivity|].
    pose proof Eg as Eg'. apply get_audio_duration_inv in Eg' as [-> _].
    unfold export, modify in Ex. injection Ex as _ <-.
    split.
    + unfold write_file. simpl. rewrite lookup_insert_eq. eauto.
    + exists d. split; [exact Eg|reflexivity].
  - injection E as <- <-. simpl. rewrite E3, E2, E1. simpl. discriminate.
Qed.

End Video2Export.

Lemma outline_reports_measured_export_witness :
  exists r w',
    _build_video2_outline (H := studio) legacy_outline_script (lit "assets")
      empty_world = (Ok r, w')
    /\ is_Some (files w' !! v2_combined_path (lit "assets"))
    /\ exists d,
         get_audio_duration (H := studio) (v2_combined_path (lit "assets")) w'
           = (Ok d, w')
         /\ v2_total_duration r = round d 3.
Proof.
  assert (E : exists r w',
            _build_video2_outline (H := studio) legacy_outline_script
              (lit "assets") empty_world = (Ok r, w')
            /\ v2_combined_audio r = Some (lit "/assets/v2_outline.mp3"))
    by (vm_compute; eauto).
  destruct E as (r & w' & E & Hc). exists r, w'. split; [exact E|].
  apply (outline_reports_measured_export (H := studio) legacy_outline_script
           (lit "assets") empty_world r w' _ E Hc).
Defined.

Section AssetsFacts.
Context `{Externals}.

(** X30. The entry point publishes the deep dive whenever it is given
    one: if [generate_tiktok_assets] returns, the path of
    v5_deep_dive.mp3 is among the audio paths, since the deep dive
    always names a combined audio, whether it exported one or not. *)
Theorem assets_publish_the_deep_dive_path (tiktok : tiktok_script)
    (assets_dir : str) (script : deep_dive_script) (w : world)
    (r : audio_assets) (w' : world) :
  generate_tiktok_assets (Some tiktok) assets_dir (Some script) w
    = (Ok r, w') ->
  In (lit "video_5_deep_dive", os_path_join assets_dir (lit "v5_deep_dive.mp3"))
     (audio_paths r)
  /\ exists r5,
       data_video_5_deep_dive r = Some r5
       /\ v5_combined_audio r5 = Some (lit "/assets/v5_deep_dive.mp3").
Proof.
  unfold generate_tiktok_assets. intros E.
  apply bind_inv in E as [(r1 & w1 & _ & E)|(e & _ & [=])].
  apply bind_inv in E as [(r2 & w2 & _ & E)|(e & _ & [=])].
  apply bind_inv in E as [(r3 & w3 & _ & E)|(e & _ & [=])].
  apply bind_inv in E as [(r4 & w4 & _ & E)|(e & _ & [=])].
  apply bind_inv in E as [(r5 & w5 & E5 & E)|(e & _ & [=])].
  injection E as <- <-. simpl.
  destruct (deep_dive_returns script assets_dir w4)
    as (l & w0 & _ & w6 & E0 & _).
  rewrite E5 in E0. injection E0 as -> _. simpl. split.
  - apply in_app_iff. right. left. reflexivity.
  - eexists. split; reflexivity.
Qed.

End AssetsFacts.

Lemma assets_publish_the_deep_dive_path_witness :
  exists r,
    In (lit "video_5_deep_dive",
        os_path_join (lit "assets") (lit "v5_deep_dive.mp3")) (audio_paths r)
    /\ exists r5,
         data_video_5_deep_dive r = Some r5
         /\ v5_combined_audio r5 = Some (lit "/assets/v5_deep_dive.mp3").
Proof.
  assert (E : exists r w',
            generate_tiktok_assets (H := studio)
              (Some {| tk_video_1_news := None;
                       tk_video_2_outline := Some legacy_outline_script;
                       tk_video_3_vocab_quiz := None;
                       tk_video_4_grammar_quiz := None |})
              (lit "assets") (Some short_deep_dive_script) empty_world
            = (Ok r, w'))
    by (vm_compute; eauto).
  destruct E as (r & w' & E). exists r.
  exact (assets_publish_the_deep_dive_path (H := studio) _ _ _ _ r w' E).
Defined.
